(* ===== verification/_CoqProject ===== *)
-Q . S2P
Prelude.v
PyStr.v
Calendar.v
RefDate.v
Pytz.v
Timezone.v
Stats.v
Api.v
Aggregator.v
Weekly.v
Report.v
Draw.v
Generator.v
Form.v
Rerun.v
Outcome.v
