(* ===== verification/Prelude.v ===== *)
(** * Verification of followup-automation-v2: statistics, weekly windows, reports

    The program (src/) fetches hourly call statistics of a roster of
    call-centre managers from a CRM API, aggregates them per day, derives a
    week-to-date window of "worked dates", targets, results and pass/fail
    circles, and draws them on an image template, one picture per manager.

    ** The program and how its parts interact
    - src/unnamed/part_000 ("FollowUp Generator.py"): the Tk form.
      [generate_followups] checks the token and the folder, creates the
      folder of the date and runs [submit] for every manager id;
      [submit] calls [get_stats] then [write_stats] and turns any exception
      into a message box.
    - src/data_handling.py: [request_manager_stats] and
      [request_manager_name] call the CRM; [get_stats] moves every hourly
      record from Europe/Kyiv to Etc/GMT+3, sums the counters per day and
      keeps the month-to-date window; [format_date], [api_date_format],
      [get_weekday] and [get_monday_date] re-derive the reference date from
      its "M/D/YY" string; [get_worked_dates], [calc_week_targets],
      [calc_week_results], [get_daily_results], [format_worked_dates],
      [indicator_circle] and [month_targets] compute what is drawn.
    - src/image_editing.py: [write_stats] computes all of that, skips a
      manager with no entry on the reference date, computes the yaware month
      target and draws the picture; src/variables.py holds its tables.

    ** Files, in dependency order, and what they model
    - [Prelude] (this file): the [result] error monad over the Python
      exceptions [py_exn] with stdpp's [x ← c; k] notation, [foldM]/[mapM]
      for loops that may raise, the hint databases [fu] and [fu_rw], the
      tactic [inv_ok] and the list lemmas shared by the components.
    - [PyStr]: the string builtins at their call sites: [str.split]
      ([py_split]), [str.join], [str.zfill], [int()] ([py_int]), [str()] of
      an int ([py_str_int], with [Z.log2]-bounded fuel that is proved
      enough), ["%0Nd"] ([pct0d]), [c in s].
    - [Calendar]: [datetime.date] as CPython implements it: the
      constructor's checks ([mk_date], ValueError), [toordinal], [weekday],
      [d -/+ timedelta(days=1)] with OverflowError at 0001-01-01 and
      9999-12-31, isoformat ([date_str]).
    - [RefDate]: [strptime(s, "%m/%d/%y")] with CPython's directive regexes
      and century rule, and the four hand-written re-derivations.
    - [Pytz]: the library pytz as [get_stats] uses it: the Europe/Kyiv
      zone as pytz's transition table (the tz database from 1880 to
      2037) and [DstTzInfo.localize(dt, is_dst=False)] with its two
      probes, its set of results, its recursion on gaps and its choice in
      overlaps.
    - [Timezone]: [strptime] of the records' timestamps, the call of
      [localize] for Europe/Kyiv and [astimezone] to Etc/GMT+3: the day a
      record is counted on.
    - [Stats]: the statistics dict ([gmap string day_stats]) and its
      well-formedness [stats_wf], the contract between [get_stats] and the
      weekly functions.
    - [Api]: decoded JSON ([json]), the network as the class [Http] (an
      oracle from URL and header to a connection failure or a response),
      [request_manager_stats], [request_manager_name].
    - [Aggregator]: [get_stats] as its two loops over [gmap date tally].
    - [Weekly]: every weekly and monthly function, over [gmap string day_stats].
    - [Report]: [write_stats] as the folder, the file and the drawing calls
      it produces, or [None] when it skips, with [Image.open] of the
      template and the circles raising OSError when a file is missing;
      [str()]/[repr()] of JSON values for the manager's name; the
      positions of variables.py.
    - [Draw]: [draw_text_centered]'s centring and Python's [round], with
      the font's text width as a parameter.
    - [Generator]: [generate_followups], [create_date_folder] and [submit]
      over a [world] of directories, files and message boxes.
    - [Form]: the values the widgets hold, [select_folder], the buttons'
      commands and [root.mainloop()] as a transition system ([handle],
      [step], [reachable]) over the form and the world.
    - [Rerun]: two runs of [generate_followups] in a row, the saves of a
      run as a list replayed on the files ([apply_writes]), and the
      regimes of the date's folder ([ready], [blocked]).
    - [Outcome]: the messages of a valid run, each manager's outcome
      ([outcome_message]) being that of its [submit_body] alone.

    ** What the theorems show
    - refinement: [get_stats] is the declarative per-day sums of the
      records falling in the month window ([get_stats_refines]); its result
      is well formed ([get_stats_wf]), which is the hypothesis of the
      weekly theorems; a failed request gives the empty dict; the dict
      does not depend on the order of the records
      ([get_stats_order_independent]); the dates [request_manager_stats]
      asks the CRM for cover every record counted in the window
      ([request_range_covers_window]); the spec's window and zero-fill
      examples are checked by evaluation.
    - the weekly window: [get_worked_dates] is the [k] greatest keys in
      ascending order; every key from Monday on is worked; but keys of the
      previous week are taken when days are missing (a divergence from the
      spec), exactly when a day from Tuesday on has no entry and an older
      key exists ([worked_dates_exactly_week]); the results, circles and
      labels are what the spec describes; the spec's worked examples are
      checked by evaluation.
    - the timezone: a record is counted on its Kyiv date, or the day
      before exactly when its time of day is below the Kyiv offset plus
      three hours ([bucket_date_spec]); pytz's [localize] raises only on
      the first and last day, and on a table whose transitions are more
      than two days apart its two probes find every offset at which the
      wall time exists and it returns the preferred one
      ([localize_refines], [kyiv_localize_refines]).
    - equivalence: the re-derivations of the reference date agree with
      strptime for years 2000-2068 and are one weekday off for 1969-1999.
    - the report: [write_stats] skips exactly when the dict has no entry for
      the reference date and otherwise raises nothing; column [i] of the
      picture shows the [i]-th worked date's label and counts
      ([write_stats_columns]); its tuple unpacking never raises
      and every date column is drawn ([labels_unpack]); a missing template or circle turns the picture
      into OSError and changes nothing else ([write_stats_images]); the
      yaware target is 7.5 hours a day; a text is drawn centred in its
      cell to within half a pixel ([centered_in_cell]).
    - the form: invalid input changes nothing but one message; a valid run
      processes every manager and completes; on a file system, two managers
      whose names cannot be fetched get one file, where the first one's
      picture never survives ([unknown_manager_overwrite], a bug); a failed request
      ends in a silent skip; without the template nothing is ever written
      ([missing_template_writes_nothing]); on a disk where no directory
      is a file and the ancestors of a directory are directories, a second
      run with the same inputs leaves the same files as the first
      ([rerun_same_files]): once the date's folder is made or found
      blocked by a file, the directories no longer change, and the run
      replays the same saves; the managers do not interfere: the messages
      of a valid run are the folder's, each manager's outcome alone on the
      world the folder step left, in order, then "Completed"
      ([managers_independent]).
    - the event loop: by induction on [reachable], every reachable state
      writes no file but reports; cancelling the folder dialog forgets the folder (a bug).
    - roundtrips: [int(str(n))], timestamps.

    ** Bounds and fuel
    [py_str_int] recurses on fuel [S (Z.to_nat (Z.log2 n))], at least the
    number of decimal digits ([dec_fuel_enough]), and any larger fuel
    prints the same string ([py_str_int_fuel]); [sub_days] recurses on the
    number of days; pytz's [localize] recurses on gaps with fuel
    [dt / 6 hours + 1], enough because every call needs a day before [dt]
    and goes 6 hours back ([localize_go_fuel]); every other definition is
    structural.  Integers are
    unbounded [Z], as in Python; the float [total_seconds()] of the yaware
    target is exact at the sizes involved (under 2^53).

    ** Not modelled
    The window's layout (grid, labels, padding: no state); the texts of
    the exceptions in the message boxes (their class is kept); PIL's font
    metrics (a parameter of [Draw]) and the loading of arial.ttf when
    image_editing.py is imported; the pixels of the images (whether each
    file is there is modelled, and the drawing calls are kept); which
    release of the tz database pytz ships (the table is that of release
    2026b); JSON floats and code points above 255; and [managers_ids]
    (absent from the repository; the ids are a parameter). *)

From stdpp Require Export base list gmap strings sorting.
From Stdlib Require Export ZArith Lia.

(** ** Python exceptions and the [result] monad *)

(** The exceptions the modelled code can raise and that matter to its
    callers: [ValueError] (int(), strptime, the date constructor, tuple
    unpacking), [OverflowError] (date arithmetic past year 1 or 9999),
    [KeyError] (dict subscription), [IndexError] (list subscription),
    [TypeError] (subscription or iteration of a value of the wrong type,
    [int + str]), [OSError] (a file operation that fails). *)
Inductive py_exn : Type :=
| ValueError
| OverflowError
| KeyError
| IndexError
| TypeError
| OSError.

#[export] Instance py_exn_eq_dec : EqDecision py_exn.
Proof. solve_decision. Defined.

(** A computation that returns an [A] or raises. *)
Inductive result (A : Type) : Type :=
| Ok (a : A)
| Err (e : py_exn).
Arguments Ok {A} a.
Arguments Err {A} e.

#[export] Instance result_ret : MRet result := λ A a, Ok a.
#[export] Instance result_bind : MBind result :=
  λ A B f r, match r with Ok a => f a | Err e => Err e end.
#[export] Instance result_fmap : FMap result :=
  λ A B f r, match r with Ok a => Ok (f a) | Err e => Err e end.

(** [raise_if_none e o]: the value of [o], or raise [e]. *)
Definition of_option {A} (e : py_exn) (o : option A) : result A :=
  match o with Some a => Ok a | None => Err e end.

Definition is_ok {A} (r : result A) : bool :=
  match r with Ok _ => true | Err _ => false end.

(** [foldM f acc l]: a Python [for] loop over [l] whose body may raise. *)
Fixpoint foldM {A B} (f : A → B → result A) (acc : A) (l : list B) : result A :=
  match l with
  | [] => Ok acc
  | x :: l' => acc' ← f acc x; foldM f acc' l'
  end.

(** [mapM f l]: [[f(x) for x in l]] where [f] may raise. *)
Fixpoint mapM {A B} (f : A → result B) (l : list A) : result (list B) :=
  match l with
  | [] => Ok []
  | x :: l' => y ← f x; ys ← mapM f l'; Ok (y :: ys)
  end.

Declare Scope fu_scope.
Delimit Scope fu_scope with fu.
Notation "r ⇓ a" := (r = Ok a) (at level 70, no associativity) : fu_scope.
Open Scope fu_scope.

(** ** Hint database and tactics *)

Create HintDb fu discriminated.
#[export] Hint Constants Transparent : fu.
Create Rewrite HintDb fu_rw.

Lemma bind_Ok {A B} (a : A) (f : A → result B) : (x ← Ok a; f x) = f a.
Proof. reflexivity. Qed.

Lemma bind_Err {A B} (e : py_exn) (f : A → result B) : (x ← Err e; f x) = Err e.
Proof. reflexivity. Qed.

Lemma bind_eq_Ok {A B} (r : result A) (f : A → result B) b :
  (x ← r; f x) = Ok b ↔ ∃ a, r = Ok a ∧ f a = Ok b.
Proof. destruct r; simpl; split; naive_solver. Qed.

Lemma bind_eq_Err {A B} (r : result A) (f : A → result B) e :
  (x ← r; f x) = Err e ↔ r = Err e ∨ ∃ a, r = Ok a ∧ f a = Err e.
Proof. destruct r; simpl; split; naive_solver. Qed.

Lemma of_option_Ok {A} e (o : option A) a : of_option e o = Ok a ↔ o = Some a.
Proof. destruct o; simpl; split; congruence. Qed.

Lemma of_option_Some {A} e (a : A) : of_option e (Some a) = Ok a.
Proof. reflexivity. Qed.

Lemma bind_ext_Ok {A B} (r : result A) (f g : A → result B) :
  (∀ a, r = Ok a → f a = g a) → (x ← r; f x) = (x ← r; g x).
Proof. destruct r as [a|e]; simpl; [auto|done]. Qed.

Lemma bind_assoc {A B C} (r : result A) (f : A → result B) (g : B → result C) :
  (y ← (x ← r; f x); g y) = (x ← r; y ← f x; g y).
Proof. by destruct r. Qed.

#[export] Hint Rewrite @bind_Ok @bind_Err @of_option_Some : fu_rw.

(** [inv_ok H]: split a hypothesis [H : (x ← r; k) = Ok b] into its steps. *)
Ltac inv_ok :=
  repeat match goal with
  | H : mbind _ _ = Ok _ |- _ =>
      apply bind_eq_Ok in H as (? & ? & ?)
  | H : of_option _ _ = Ok _ |- _ => apply of_option_Ok in H
  | H : Ok _ = Ok _ |- _ => injection H; clear H; intro
  | H : Err _ = Ok _ |- _ => discriminate H
  end; subst.

Lemma foldM_app {A B} (f : A → B → result A) acc l1 l2 :
  foldM f acc (l1 ++ l2) = (acc' ← foldM f acc l1; foldM f acc' l2).
Proof.
  revert acc. induction l1 as [|x l1 IH]; intros acc; simpl; [done|].
  destruct (f acc x); simpl; auto.
Qed.

Lemma mapM_Ok_length {A B} (f : A → result B) l ys :
  mapM f l = Ok ys → length ys = length l.
Proof.
  revert ys. induction l as [|x l IH]; intros ys H; simpl in H; inv_ok; simpl; auto.
Qed.

(** An invariant preserved by every successful step of a [foldM] holds at
    its end. *)
Lemma foldM_invariant {A B} (P : A → Prop) (f : A → B → result A) acc l acc' :
  (∀ a x a', P a → f a x = Ok a' → P a') →
  P acc → foldM f acc l = Ok acc' → P acc'.
Proof.
  intros Hstep. revert acc. induction l as [|x l IH]; intros acc Hacc H;
    simpl in H; inv_ok; eauto.
Qed.

(** ** Shared list lemmas *)

Lemma take_reverse_elem {A} (l : list A) k x :
  x ∈ reverse (take k l) ↔ x ∈ take k l.
Proof. apply elem_of_reverse. Qed.

#[export] Hint Resolve take_reverse_elem : fu.

Lemma filter_Forall_none {A} (P : A → Prop) `{∀ x, Decision (P x)} l :
  Forall (λ x, ¬ P x) l → filter P l = [].
Proof. induction 1; [done|]. rewrite filter_cons_False; auto. Qed.

Lemma filter_Forall_all {A} (P : A → Prop) `{∀ x, Decision (P x)} l :
  Forall P l → filter P l = l.
Proof. induction 1; [done|]. rewrite filter_cons_True; auto. f_equal; auto. Qed.

(** In a list sorted by [R], a property closed upwards along [R] holds on a
    prefix: the list is the elements that have it followed by the rest. *)
Lemma sorted_filter_split {A} (R : relation A) (P : A → Prop) `{∀ x, Decision (P x)} l :
  StronglySorted R l → (∀ y z, R y z → P z → P y) →
  l = filter P l ++ filter (λ x, ¬ P x) l.
Proof.
  intros HS Hup. induction HS as [|x l HS IH HF]; [done|].
  destruct (decide (P x)) as [Hx|Hx].
  - rewrite filter_cons_True, filter_cons_False by tauto. simpl. by f_equal.
  - rewrite filter_cons_False, filter_cons_True by done.
    assert (Forall (λ z, ¬ P z) l) as Hn.
    { eapply Forall_impl; [exact HF|]. intros z Hz Pz. eauto. }
    rewrite filter_Forall_none, filter_Forall_all; [done|exact Hn|exact Hn].
Qed.

(** A duplicate-free list of integers inside an interval of [n] integers has
    at most [n] elements. *)
Lemma NoDup_interval_length (l : list Z) (lo : Z) (n : nat) :
  NoDup l → (∀ x, x ∈ l → (lo ≤ x < lo + Z.of_nat n)%Z) → length l ≤ n.
Proof.
  intros ND Hin. transitivity (length (seqZ lo (Z.of_nat n))); [|rewrite length_seqZ; lia].
  apply submseteq_length, NoDup_submseteq; [done|].
  intros x Hx. apply elem_of_seqZ. auto.
Qed.

(** A loop whose body succeeds on every element succeeds. *)
Lemma mapM_Ok {A B} (f : A → result B) l :
  (∀ x, x ∈ l → ∃ y, f x = Ok y) → ∃ ys, mapM f l = Ok ys ∧ length ys = length l.
Proof.
  induction l as [|x l IH]; intros Hf; [by exists []|].
  destruct (Hf x (list_elem_of_here x l)) as [y Hy].
  destruct IH as [ys [Hys Hl]]; [intros z Hz; apply Hf; by apply list_elem_of_further|].
  exists (y :: ys). simpl. rewrite Hy, bind_Ok, Hys, bind_Ok. simpl. auto.
Qed.

(** A loop raises the exception of the first element that raises. *)
Lemma mapM_app_Err {A B} (f : A → result B) l1 x l2 ys e :
  mapM f l1 = Ok ys → f x = Err e → mapM f (l1 ++ x :: l2) = Err e.
Proof.
  revert ys. induction l1 as [|y l1 IH]; intros ys H1 Hx; simpl in *.
  - by rewrite Hx.
  - apply bind_eq_Ok in H1 as (z & Hz & H1). apply bind_eq_Ok in H1 as (zs & Hzs & _).
    rewrite Hz, bind_Ok, (IH zs Hzs Hx). done.
Qed.

(** What a successful loop computed, element by element. *)
Lemma mapM_Forall2 {A B} (f : A → result B) (Q : A → B → Prop) l ys :
  mapM f l = Ok ys → (∀ x y, x ∈ l → f x = Ok y → Q x y) → Forall2 Q l ys.
Proof.
  revert ys. induction l as [|x l IH]; intros ys H HQ; simpl in H; inv_ok; constructor.
  - apply HQ; [apply list_elem_of_here|done].
  - apply IH; [done|]. intros x' y' Hx'. apply HQ. by apply list_elem_of_further.
Qed.

(** A boolean test that holds on every integer of [lo..hi], checked by
    computation, holds of each of them. *)
Lemma forallb_seqZ (f : Z → bool) (lo hi : Z) :
  forallb f (seqZ lo (hi - lo + 1)) = true → ∀ x, (lo ≤ x ≤ hi)%Z → f x = true.
Proof.
  rewrite forallb_forall. intros H x Hx. apply H, list_elem_of_In, elem_of_seqZ. lia.
Qed.

(** A dict comprehension with a condition that holds on every element
    keeps every element, in order. *)
Lemma omap_Forall2 {A B} (f : A → option B) l :
  (∀ x, x ∈ l → is_Some (f x)) → Forall2 (λ x y, f x = Some y) l (omap f l).
Proof.
  induction l as [|x l IH]; intros Hf; simpl; [constructor|].
  destruct (Hf x (list_elem_of_here x l)) as [y Hy]. rewrite Hy. constructor; [done|].
  apply IH. intros z Hz. apply Hf. by apply list_elem_of_further.
Qed.

(** Blocks of one size, concatenated. *)
Lemma length_concat_const {A} (n : nat) (L : list (list A)) :
  Forall (λ l, length l = n) L → length (concat L) = (length L * n)%nat.
Proof. induction 1 as [|l L Hl _ IH]; simpl; [done|]. rewrite length_app, Hl, IH. lia. Qed.

(** An element of the [i]-th block is an element of the concatenation. *)
Lemma elem_of_concat_lookup {A} (L : list (list A)) i l x :
  L !! i = Some l → x ∈ l → x ∈ concat L.
Proof.
  revert i. induction L as [|l' L IH]; intros [|i] Hi Hx; simplify_eq/=; rewrite elem_of_app; eauto.
Qed.

(** A loop whose body is a function of the element alone, run over a
    permutation of the elements, succeeds with a permutation of the results. *)
Lemma mapM_perm {A B} (f : A → result B) l l' ys :
  l ≡ₚ l' → mapM f l = Ok ys → ∃ ys', mapM f l' = Ok ys' ∧ ys ≡ₚ ys'.
Proof.
  intros Hp. revert ys. induction Hp as [|x l l' _ IH|x y l|l l' l'' _ IH1 _ IH2]; intros ys H.
  - by exists ys.
  - simpl in H. apply bind_eq_Ok in H as (y & Hy & H). apply bind_eq_Ok in H as (zs & Hzs & [= <-]).
    destruct (IH zs Hzs) as (zs' & H' & P). exists (y :: zs'). simpl.
    rewrite Hy, bind_Ok, H', bind_Ok. split; [done|by constructor].
  - simpl in H. apply bind_eq_Ok in H as (b & Hb & H). apply bind_eq_Ok in H as (ys0 & H0 & [= <-]).
    apply bind_eq_Ok in H0 as (a & Ha & H0). apply bind_eq_Ok in H0 as (zs & Hzs & [= <-]).
    exists (a :: b :: zs). simpl. rewrite Ha, bind_Ok, Hb, bind_Ok, Hzs, bind_Ok.
    split; [done|constructor].
  - destruct (IH1 ys H) as (ys1 & H1 & P1). destruct (IH2 ys1 H1) as (ys2 & H2 & P2).
    exists ys2. split; [done|]. by etrans.
Qed.
