(* ===== verification/PyStr.v ===== *)
(** * Python string builtins used by data_handling.py

    The code turns dates into strings and back with [str.split("/")],
    [str.split("-")], [str.zfill(2)], [int(...)], [str(...)] of an int and
    the ["%04d-%02d-%02d"] of [str(date)]; it tests ["/" in s].  Each is
    modelled here on [string] (ASCII) as CPython defines it, with the
    lemmas the components share: [int(str(n)) = n], split after join, and
    that equal-width digit strings compare like the numbers they spell.

    Strings are sequences of 8-bit characters, read as the code points
    0-255.  Not modelled: [int()] also accepts '_' between digits and
    digits of other scripts; the strings the program passes to [int()]
    (pieces of a calendar date, results of [str()]) contain neither. *)

From S2P Require Import Prelude.
From Stdlib Require Import Ascii.

Local Open Scope Z_scope.

(** ** Digits *)

(** The character of a decimal digit [d] (0 <= d <= 9). *)
Definition digit_char (d : Z) : ascii := ascii_of_N (48 + Z.to_N d).

(** The value of a decimal digit character, [None] for any other. *)
Definition char_digit (c : ascii) : option Z :=
  let n := N_of_ascii c in
  if ((48 <=? n)%N && (n <=? 57)%N)%bool then Some (Z.of_N n - 48) else None.

(** [digits_val acc s]: the value of the digits of [s] read after [acc];
    [None] as soon as a character is not a digit. *)
Fixpoint digits_val (acc : Z) (s : string) : option Z :=
  match s with
  | EmptyString => Some acc
  | String c s' =>
      match char_digit c with
      | Some d => digits_val (10 * acc + d) s'
      | None => None
      end
  end.

(** [digits_us acc s]: the digits of [s] read after [acc], where a single
    underscore may separate two digits, as [int()] allows. *)
Fixpoint digits_us (acc : Z) (s : string) : option Z :=
  match s with
  | EmptyString => Some acc
  | String c s' =>
      match char_digit c with
      | Some d => digits_us (10 * acc + d) s'
      | None =>
          if Ascii.eqb c "_"%char then
            match s' with
            | String c' s'' => d ← char_digit c'; digits_us (10 * acc + d) s''
            | EmptyString => None
            end
          else None
      end
  end.

(** The digits of [int()]: a digit first, then digits and single
    underscores between them. *)
Definition parse_digits (s : string) : option Z :=
  match s with
  | EmptyString => None
  | String c s' => d ← char_digit c; digits_us d s'
  end.

(** The code points below 256 that [str.strip()] and [int()] treat as
    whitespace: tab to carriage return, the four separators 0x1c-0x1f,
    space, NEL (0x85) and the no-break space (0xa0). *)
Definition is_py_space (c : ascii) : bool :=
  let n := N_of_ascii c in
  ((9 <=? n)%N && (n <=? 13)%N) || ((28 <=? n)%N && (n <=? 32)%N) || (n =? 133)%N || (n =? 160)%N.

Fixpoint lstrip (s : string) : string :=
  match s with
  | String c r => if is_py_space c then lstrip r else s
  | EmptyString => EmptyString
  end.

Fixpoint rstrip (s : string) : string :=
  match s with
  | String c r =>
      match rstrip r with
      | EmptyString => if is_py_space c then EmptyString else String c EmptyString
      | r' => String c r'
      end
  | EmptyString => EmptyString
  end.

(** [int(s)] for a string [s]: surrounding whitespace, an optional sign
    and one or more digits, single underscores allowed between digits;
    anything else raises [ValueError]. *)
Definition py_int (s : string) : result Z :=
  let t := lstrip (rstrip s) in
  of_option ValueError
    (match t with
     | String c r =>
         if Ascii.eqb c "-"%char then Z.opp <$> parse_digits r
         else if Ascii.eqb c "+"%char then parse_digits r
         else parse_digits t
     | EmptyString => None
     end).

(** [dec_digits fuel n acc]: the decimal digits of [n >= 0] in front of
    [acc], least significant digit produced first. *)
Fixpoint dec_digits (fuel : nat) (n : Z) (acc : string) : string :=
  match fuel with
  | O => acc
  | S f =>
      let acc' := String (digit_char (n mod 10)) acc in
      if n <? 10 then acc' else dec_digits f (n / 10) acc'
  end.

(** The fuel: [n] has at most [log2 n + 1] decimal digits. *)
Definition dec_fuel (n : Z) : nat := S (Z.to_nat (Z.log2 n)).

(** [str(z)] for an int [z]. *)
Definition py_str_int (z : Z) : string :=
  if z <? 0 then String "-"%char (dec_digits (dec_fuel (- z)) (- z) EmptyString)
  else dec_digits (dec_fuel z) z EmptyString.

(** ** [str.zfill], ["%0Nd"], [str.split], [in] *)

Fixpoint zeros (k : nat) : string :=
  match k with O => EmptyString | S k' => String "0"%char (zeros k') end.

(** [s.zfill(width)]: pad with '0' on the left to [width], after a leading
    sign if there is one (CPython's [stringlib_zfill]). *)
Definition zfill (width : nat) (s : string) : string :=
  let n := String.length s in
  if (width <=? n)%nat then s
  else
    let fill := zeros (width - n) in
    match s with
    | String c r =>
        if (Ascii.eqb c "+"%char || Ascii.eqb c "-"%char)%bool
        then String c (String.append fill r)
        else String.append fill s
    | EmptyString => fill
    end.

(** ["%0{w}d" % z], equally [f"{z:0{w}d}"]: [str(z)] zero-filled to [w]. *)
Definition pct0d (w : nat) (z : Z) : string := zfill w (py_str_int z).

(** [s.split(sep)] for a one-character separator: every occurrence splits;
    [""] splits into [[""]]. *)
Fixpoint py_split (sep : ascii) (s : string) : list string :=
  match s with
  | EmptyString => [EmptyString]
  | String c s' =>
      let rest := py_split sep s' in
      if Ascii.eqb c sep then EmptyString :: rest
      else match rest with
           | piece :: ps => String c piece :: ps
           | [] => [String c EmptyString]
           end
  end.

(** [sep.join(parts)] for a one-character separator. *)
Fixpoint py_join (sep : ascii) (parts : list string) : string :=
  match parts with
  | [] => EmptyString
  | [p] => p
  | p :: ps => String.append p (String sep (py_join sep ps))
  end.

(** [c in s] for a one-character string [c]. *)
Fixpoint has_char (c : ascii) (s : string) : bool :=
  match s with
  | EmptyString => false
  | String c' s' => Ascii.eqb c c' || has_char c s'
  end.

Example py_str_int_ex : py_str_int 1300 = "1300" ∧ py_str_int (-7) = "-7" ∧ py_str_int 0 = "0".
Proof. vm_compute. repeat split. Qed.

Example py_int_ex : py_int "03" = Ok 3 ∧ py_int "-12" = Ok (-12) ∧ py_int "" = Err ValueError
  ∧ py_int "1a" = Err ValueError ∧ py_int " 5" = Ok 5 ∧ py_int "- 5" = Err ValueError
  ∧ py_int "1_000" = Ok 1000 ∧ py_int "1__0" = Err ValueError ∧ py_int "_1" = Err ValueError
  ∧ py_int "1_" = Err ValueError.
Proof. vm_compute. repeat split. Qed.

Example zfill_ex : zfill 2 "3" = "03" ∧ zfill 2 "12" = "12" ∧ zfill 3 "-5" = "-05"
  ∧ pct0d 4 24 = "0024".
Proof. vm_compute. repeat split. Qed.

Example py_split_ex : py_split "/" "3/15/24" = ["3"; "15"; "24"] ∧ py_split "/" "" = [""]
  ∧ py_split "/" "/" = [""; ""].
Proof. vm_compute. repeat split. Qed.

(** ** Digit strings *)

Lemma str_length_app s1 s2 :
  String.length (String.append s1 s2) = (String.length s1 + String.length s2)%nat.
Proof. induction s1; simpl; auto. Qed.

Lemma char_digit_Some c d :
  char_digit c = Some d → 0 ≤ d ≤ 9 ∧ N_of_ascii c = Z.to_N (48 + d).
Proof.
  unfold char_digit.
  destruct (N.leb_spec 48 (N_of_ascii c)), (N.leb_spec (N_of_ascii c) 57);
    simpl; intros Hs; inversion Hs; subst; lia.
Qed.

Lemma char_digit_digit_char d : 0 ≤ d ≤ 9 → char_digit (digit_char d) = Some d.
Proof.
  intros Hd. unfold char_digit, digit_char.
  rewrite N_ascii_embedding by lia.
  destruct (N.leb_spec 48 (48 + Z.to_N d)), (N.leb_spec (48 + Z.to_N d) 57);
    simpl; [f_equal|..]; lia.
Qed.

(** The digits of [s] read after [acc] shift [acc] by [length s] places. *)
Lemma digits_val_acc acc s :
  digits_val acc s = (λ w, acc * 10 ^ Z.of_nat (String.length s) + w) <$> digits_val 0 s.
Proof.
  revert acc. induction s as [|c s IH]; intros acc; simpl.
  - f_equal. lia.
  - destruct (char_digit c) as [d|]; [|done].
    rewrite (IH (10 * acc + d)), (IH (10 * 0 + d)).
    destruct (digits_val 0 s); simpl; [f_equal|done].
    rewrite Nat2Z.inj_succ, Z.pow_succ_r by lia. lia.
Qed.

Lemma digits_val_bound s v :
  digits_val 0 s = Some v → 0 ≤ v < 10 ^ Z.of_nat (String.length s).
Proof.
  revert v. induction s as [|c s IH]; intros v H; simpl in H.
  - inversion H; simpl; lia.
  - destruct (char_digit c) as [d|] eqn:Hc; [|done].
    apply char_digit_Some in Hc as [Hd _].
    rewrite digits_val_acc in H.
    destruct (digits_val 0 s) as [w|] eqn:Hw; simpl in H; inversion H; subst.
    specialize (IH w eq_refl). simpl String.length.
    rewrite Nat2Z.inj_succ, Z.pow_succ_r by lia. nia.
Qed.

Lemma digits_val_app acc s1 s2 :
  digits_val acc (String.append s1 s2) = digits_val acc s1 ≫= λ v, digits_val v s2.
Proof.
  revert acc. induction s1 as [|c s1 IH]; intros acc; simpl; [done|].
  destruct (char_digit c); auto.
Qed.

Lemma digits_val_zeros k s :
  digits_val 0 (String.append (zeros k) s) = digits_val 0 s.
Proof.
  induction k as [|k IH]; [done|]. exact IH.
Qed.

Lemma dec_digits_app fuel n s1 s2 :
  dec_digits fuel n (String.append s1 s2) = String.append (dec_digits fuel n s1) s2.
Proof.
  revert n s1. induction fuel as [|f IH]; intros n s1; simpl; [done|].
  destruct (n <? 10); [done|].
  change (String (digit_char (n mod 10)) (String.append s1 s2))
    with (String.append (String (digit_char (n mod 10)) s1) s2).
  apply IH.
Qed.

(** With enough fuel, [dec_digits] spells [n] in at most as many digits as
    any width [w] with [n < 10^w]. *)
Lemma dec_digits_S f n acc :
  dec_digits (S f) n acc =
  if n <? 10 then String (digit_char (n mod 10)) acc
  else dec_digits f (n / 10) (String (digit_char (n mod 10)) acc).
Proof. reflexivity. Qed.

Lemma dec_digits_spec fuel n :
  0 ≤ n < 10 ^ Z.of_nat (S fuel) →
  let D := dec_digits (S fuel) n EmptyString in
  digits_val 0 D = Some n ∧ D ≠ EmptyString ∧
  ∀ w : nat, (1 ≤ w)%nat → n < 10 ^ Z.of_nat w → (String.length D ≤ w)%nat.
Proof.
  revert n. induction fuel as [|f IH]; intros n Hn;
    pose proof (Z.mod_pos_bound n 10 ltac:(lia)) as Hm;
    cbn zeta; rewrite dec_digits_S; destruct (Z.ltb_spec n 10).
  1,3: simpl; rewrite char_digit_digit_char by lia;
    rewrite Z.mod_small by lia; repeat split; [done|]; intros w Hw _; simpl; lia.
  { simpl in Hn. lia. }
  rewrite Nat2Z.inj_succ, Z.pow_succ_r in Hn by lia.
  destruct (IH (n / 10)) as (Hv & Hne & Hlen);
    [split; [apply Z.div_pos|apply Z.div_lt_upper_bound]; lia|].
  change (String (digit_char (n mod 10)) EmptyString)
    with (String.append EmptyString (String (digit_char (n mod 10)) EmptyString)).
  rewrite dec_digits_app, digits_val_app, Hv. cbn [mbind option_bind digits_val].
  rewrite char_digit_digit_char by lia. repeat split.
  - f_equal. pose proof (Z.div_mod n 10). lia.
  - intros Habs. apply (f_equal String.length) in Habs.
    rewrite str_length_app in Habs. simpl in Habs. lia.
  - intros w Hw Hnw. rewrite str_length_app. cbn [String.length].
    destruct w as [|[|w]]; [lia| change (n < 10) in Hnw; exfalso; lia |].
    assert (String.length (dec_digits (S f) (n / 10) "") ≤ S w)%nat; [|lia].
    apply Hlen; [lia|]. apply Z.div_lt_upper_bound; [lia|].
    rewrite Nat2Z.inj_succ, Z.pow_succ_r in Hnw by lia. lia.
Qed.

Lemma dec_fuel_enough n : 0 ≤ n → n < 10 ^ Z.of_nat (dec_fuel n).
Proof.
  intros Hn. unfold dec_fuel. rewrite Nat2Z.inj_succ, Z2Nat.id by apply Z.log2_nonneg.
  destruct (Z.eq_dec n 0) as [->|]; [simpl; lia|].
  pose proof (Z.log2_spec n ltac:(lia)) as [_ Hlt].
  eapply Z.lt_le_trans; [exact Hlt|].
  apply Z.pow_le_mono_l. pose proof (Z.log2_nonneg n). lia.
Qed.

(** The digits of a nonnegative [z] as [str(z)] prints them. *)
Definition str_nonneg (n : Z) : string := dec_digits (dec_fuel n) n EmptyString.

Lemma str_nonneg_spec n :
  0 ≤ n →
  digits_val 0 (str_nonneg n) = Some n ∧ str_nonneg n ≠ EmptyString ∧
  ∀ w : nat, (1 ≤ w)%nat → n < 10 ^ Z.of_nat w → (String.length (str_nonneg n) ≤ w)%nat.
Proof. intros Hn. apply dec_digits_spec. split; [done|]. by apply dec_fuel_enough. Qed.

Lemma py_str_int_nonneg z : 0 ≤ z → py_str_int z = str_nonneg z.
Proof. intros Hz. unfold py_str_int. destruct (Z.ltb_spec z 0); [lia|done]. Qed.

(** A string of digits starts with neither sign. *)
Lemma digits_head_not_sign c r v :
  digits_val 0 (String c r) = Some v →
  Ascii.eqb c "-"%char = false ∧ Ascii.eqb c "+"%char = false.
Proof.
  simpl. destruct (char_digit c) as [d|] eqn:Hc; [|done]. intros _.
  apply char_digit_Some in Hc as [Hd Hc].
  split; apply Ascii.eqb_neq; intros ->; simpl in Hc; lia.
Qed.

Fixpoint has_space (s : string) : bool :=
  match s with EmptyString => false | String c r => is_py_space c || has_space r end.

Lemma strip_no_space s : has_space s = false → lstrip (rstrip s) = s.
Proof.
  assert (∀ s, has_space s = false → rstrip s = s) as Hr.
  { induction s0 as [|c r IH]; simpl; [done|].
    intros [Hc Hs]%orb_false_iff. rewrite IH by done. destruct r; simpl; by rewrite ?Hc. }
  intros H. rewrite Hr by done. destruct s as [|c r]; simpl in *; [done|].
  apply orb_false_iff in H as [-> _]. done.
Qed.

(** A string of digits holds no whitespace. *)
Lemma digits_no_space s acc v : digits_val acc s = Some v → has_space s = false.
Proof.
  revert acc. induction s as [|c r IH]; intros acc; simpl; [done|].
  destruct (char_digit c) as [d|] eqn:Hc; [|done]. intros H.
  apply char_digit_Some in Hc as [Hd Hn]. rewrite (IH _ H), orb_false_r.
  unfold is_py_space. rewrite Hn.
  destruct (N.leb_spec 9 (Z.to_N (48 + d))), (N.leb_spec (Z.to_N (48 + d)) 13),
    (N.leb_spec 28 (Z.to_N (48 + d))), (N.leb_spec (Z.to_N (48 + d)) 32),
    (N.eqb_spec (Z.to_N (48 + d)) 133), (N.eqb_spec (Z.to_N (48 + d)) 160); simpl; try done; lia.
Qed.

Lemma digits_val_us acc s v : digits_val acc s = Some v → digits_us acc s = Some v.
Proof.
  revert acc. induction s as [|c s IH]; intros acc; simpl; [done|].
  destruct (char_digit c); [apply IH|discriminate].
Qed.

(** A plain digit string reads the same with or without underscores allowed. *)
Lemma parse_digits_val s v : digits_val 0 s = Some v → s ≠ EmptyString → parse_digits s = Some v.
Proof.
  destruct s as [|c r]; [done|]. simpl. intros Hv _.
  destruct (char_digit c); [|discriminate]. by apply digits_val_us.
Qed.

Lemma str_nonneg_parse n : 0 ≤ n → parse_digits (str_nonneg n) = Some n.
Proof.
  intros Hn. destruct (str_nonneg_spec n Hn) as (Hv & Hne & _). by apply parse_digits_val.
Qed.

(** [int(str(z)) == z]: the targets [calc_week_targets] returns as strings
    are read back by [indicator_circle] without loss. *)
Theorem py_int_str_int z : py_int (py_str_int z) = Ok z.
Proof.
  unfold py_str_int. destruct (Z.ltb_spec z 0).
  - fold (str_nonneg (- z)).
    destruct (str_nonneg_spec (- z) ltac:(lia)) as (Hv & _).
    unfold py_int. rewrite (strip_no_space (String "-" (str_nonneg (- z)))).
    2: { simpl. apply digits_no_space in Hv. by rewrite Hv. }
    rewrite Ascii.eqb_refl, str_nonneg_parse by lia. simpl. f_equal. lia.
  - fold (str_nonneg z). pose proof (str_nonneg_parse z ltac:(lia)) as Hp.
    destruct (str_nonneg_spec z ltac:(lia)) as (Hv & _).
    unfold py_int. rewrite strip_no_space by (by eapply digits_no_space).
    destruct (str_nonneg z) as [|c r] eqn:E; [done|].
    destruct (digits_head_not_sign c r z Hv) as [-> ->]. by rewrite Hp.
Qed.

Lemma str_app_nil s : String.append s EmptyString = s.
Proof. induction s as [|c s IH]; [done|]. exact (f_equal (String c) IH). Qed.

Lemma str_app_cons c a b : String.append (String c a) b = String c (String.append a b).
Proof. reflexivity. Qed.

Lemma str_app_assoc a b c : String.append (String.append a b) c = String.append a (String.append b c).
Proof. induction a as [|x a IH]; [done|]. exact (f_equal (String x) IH). Qed.

Lemma str_compare_refl s : String.compare s s = Eq.
Proof.
  induction s as [|c s IH]; [done|]. simpl. unfold Ascii.compare.
  by rewrite N.compare_refl.
Qed.

Lemma zeros_length k : String.length (zeros k) = k.
Proof. induction k; simpl; auto. Qed.

(** ["%0{w}d" % n] for [0 <= n < 10^w] is exactly [w] digits spelling [n]. *)
Lemma pct0d_spec (w : nat) n :
  (1 ≤ w)%nat → 0 ≤ n < 10 ^ Z.of_nat w →
  digits_val 0 (pct0d w n) = Some n ∧ String.length (pct0d w n) = w.
Proof.
  intros Hw Hn. unfold pct0d. rewrite py_str_int_nonneg by lia.
  destruct (str_nonneg_spec n ltac:(lia)) as (Hv & Hne & Hlen).
  specialize (Hlen w Hw ltac:(lia)).
  unfold zfill. destruct (Nat.leb_spec w (String.length (str_nonneg n))); [split; [done|lia]|].
  destruct (str_nonneg n) as [|c r] eqn:E; [done|].
  destruct (digits_head_not_sign c r n Hv) as [-> ->]. simpl orb. cbv iota.
  rewrite digits_val_zeros, str_length_app, zeros_length. split; [done|lia].
Qed.

(** Two digit strings of the same width compare, character by character, as
    the numbers they spell; what follows them decides only on a tie. *)
Lemma compare_digits s1 s2 t1 t2 v1 v2 :
  digits_val 0 s1 = Some v1 → digits_val 0 s2 = Some v2 →
  String.length s1 = String.length s2 →
  String.compare (String.append s1 t1) (String.append s2 t2) =
  match Z.compare v1 v2 with Eq => String.compare t1 t2 | c => c end.
Proof.
  revert s2 v1 v2. induction s1 as [|c1 s1 IH]; intros [|c2 s2] v1 v2 H1 H2 Hl;
    simpl in Hl; try discriminate.
  { simpl in H1, H2. inversion H1; inversion H2; subst. done. }
  injection Hl as Hl.
  pose proof (digits_val_bound _ _ H1) as B1. pose proof (digits_val_bound _ _ H2) as B2.
  simpl in H1, H2 |- *.
  destruct (char_digit c1) as [d1|] eqn:C1, (char_digit c2) as [d2|] eqn:C2; try done.
  rewrite digits_val_acc in H1, H2.
  destruct (digits_val 0 s1) as [w1|] eqn:W1, (digits_val 0 s2) as [w2|] eqn:W2;
    simpl in H1, H2; try done.
  injection H1 as <-. injection H2 as <-.
  pose proof (digits_val_bound _ _ W1) as B1'. pose proof (digits_val_bound _ _ W2) as B2'.
  rewrite <- Hl in B2' |- *.
  apply char_digit_Some in C1 as [D1 N1], C2 as [D2 N2].
  unfold Ascii.compare. rewrite N1, N2.
  rewrite (IH s2 w1 w2 eq_refl W2 Hl).
  set (p := 10 ^ Z.of_nat (String.length s1)) in *.
  destruct (Z.compare_spec d1 d2) as [->|Hlt|Hgt].
  - rewrite N.compare_refl.
    replace (Z.compare ((10 * 0 + d2) * p + w1) ((10 * 0 + d2) * p + w2)) with (Z.compare w1 w2)
      by (symmetry; apply Z.add_compare_mono_l).
    done.
  - rewrite (proj2 (N.compare_lt_iff _ _)) by lia.
    rewrite (proj2 (Z.compare_lt_iff _ _)); [done|nia].
  - rewrite (proj2 (N.compare_gt_iff _ _)) by lia.
    rewrite (proj2 (Z.compare_gt_iff _ _)); [done|nia].
Qed.

Lemma py_split_no_sep sep p :
  has_char sep p = false → py_split sep p = [p].
Proof.
  induction p as [|c p IH]; simpl; [done|].
  intros [Hc Hp]%orb_false_iff. rewrite IH by done.
  rewrite Ascii.eqb_sym, Hc. done.
Qed.

Lemma py_split_app sep p rest :
  has_char sep p = false →
  py_split sep (String.append p (String sep rest)) = p :: py_split sep rest.
Proof.
  induction p as [|c p IH]; simpl.
  - rewrite Ascii.eqb_refl. done.
  - intros [Hc Hp]%orb_false_iff. rewrite IH by done.
    rewrite Ascii.eqb_sym, Hc. done.
Qed.


(** [sep.join(parts).split(sep) == parts] when no part contains [sep]. *)
Theorem py_split_join sep parts :
  parts ≠ [] → Forall (λ p, has_char sep p = false) parts →
  py_split sep (py_join sep parts) = parts.
Proof.
  intros Hne Hall. induction Hall as [|p ps Hp Hps IH]; [done|].
  destruct ps as [|q qs].
  - by apply py_split_no_sep.
  - change (py_join sep (p :: q :: qs)) with (String.append p (String sep (py_join sep (q :: qs)))).
    rewrite py_split_app by done. f_equal. by apply IH.
Qed.

Lemma char_digit_inv c d : char_digit c = Some d → c = digit_char d ∧ 0 ≤ d ≤ 9.
Proof.
  intros H. apply char_digit_Some in H as [Hd Hn]. split; [|done].
  unfold digit_char. rewrite <- (ascii_N_embedding c), Hn. f_equal. lia.
Qed.

(** [digit_cases d]: split a goal over the ten digits [0 <= d <= 9]. *)
Ltac digit_cases d :=
  let H := fresh "Hd" in
  assert (H : d = 0 ∨ d = 1 ∨ d = 2 ∨ d = 3 ∨ d = 4 ∨ d = 5 ∨ d = 6 ∨ d = 7 ∨
              d = 8 ∨ d = 9) by lia;
  repeat destruct H as [H|H]; subst d.

(** [int()] reads back a digit string. *)
Lemma py_int_digits s v : digits_val 0 s = Some v → s ≠ EmptyString → py_int s = Ok v.
Proof.
  intros Hv Hne. unfold py_int. rewrite strip_no_space by (by eapply digits_no_space).
  destruct s as [|c r]; [done|].
  destruct (digits_head_not_sign c r v Hv) as [-> ->].
  by rewrite (parse_digits_val _ v).
Qed.

Lemma py_int_pct0d (w : nat) n : (1 ≤ w)%nat → 0 ≤ n < 10 ^ Z.of_nat w → py_int (pct0d w n) = Ok n.
Proof.
  intros Hw Hn. destruct (pct0d_spec w n Hw Hn) as [Hv Hl].
  apply py_int_digits; [done|]. intros E. rewrite E in Hl. simpl in Hl. lia.
Qed.

(** A digit string holds none of the characters that are not digits. *)
Lemma digits_no_char c s acc v :
  char_digit c = None → digits_val acc s = Some v → has_char c s = false.
Proof.
  intros Hc. revert acc. induction s as [|c' r IH]; intros acc; simpl; [done|].
  destruct (char_digit c') as [d|] eqn:Hc'; [|done]. intros H.
  rewrite (IH _ H), orb_false_r. apply Ascii.eqb_neq. congruence.
Qed.

Lemma py_split_ne sep s : py_split sep s ≠ [].
Proof.
  destruct s as [|c s]; simpl; [done|].
  destruct (Ascii.eqb c sep); [done|]. by destruct (py_split sep s).
Qed.

(** Splitting a string whose prefix [p] holds no separator: [p] is glued to
    the first piece of the rest. *)
Lemma py_split_prefix sep p rest :
  has_char sep p = false →
  py_split sep (String.append p rest) =
    match py_split sep rest with q :: qs => String.append p q :: qs | [] => [p] end.
Proof.
  induction p as [|c p IH]; intros Hp.
  - change (String.append EmptyString rest) with rest. pose proof (py_split_ne sep rest).
    by destruct (py_split sep rest).
  - change (String.append (String c p) rest) with (String c (String.append p rest)).
    simpl in Hp. apply orb_false_iff in Hp as [Hc Hp].
    cbn [py_split]. rewrite IH by done. rewrite Ascii.eqb_sym, Hc.
    by destruct (py_split sep rest).
Qed.

Lemma py_join_cons_char sep c p ps :
  py_join sep (String c p :: ps) = String c (py_join sep (p :: ps)).
Proof. by destruct ps. Qed.

(** [sep.join(s.split(sep)) == s]. *)
Lemma py_join_split sep s : py_join sep (py_split sep s) = s.
Proof.
  induction s as [|c s IH]; [done|]. cbn [py_split]. cbv zeta.
  pose proof (py_split_ne sep s) as Hne.
  destruct (Ascii.eqb_spec c sep) as [->|_].
  - destruct (py_split sep s) as [|p ps]; [done|]. rewrite <- IH. reflexivity.
  - destruct (py_split sep s) as [|p ps]; [done|]. by rewrite py_join_cons_char, IH.
Qed.

(** A character absent from a string is absent from every piece of its split. *)
Lemma has_char_split c sep s :
  has_char c s = false → Forall (λ p, has_char c p = false) (py_split sep s).
Proof.
  induction s as [|c' s IH]; simpl; [repeat constructor|].
  intros [Hc Hs]%orb_false_iff. specialize (IH Hs).
  destruct (Ascii.eqb c' sep); [by constructor|].
  destruct (py_split sep s) as [|p ps]; inversion IH; subst; repeat constructor; simpl;
    rewrite ?Hc; auto.
Qed.

Lemma has_char_app c a b : has_char c (String.append a b) = has_char c a || has_char c b.
Proof. induction a as [|c' a IH]; [done|]. simpl. rewrite IH. apply orb_assoc. Qed.

(** ** Python's [<] on strings: lexicographic by code point *)

Lemma str_compare_lt_trans a b c :
  String.compare a b = Lt → String.compare b c = Lt → String.compare a c = Lt.
Proof.
  revert b c. induction a as [|x a IH]; intros [|y b] [|z c]; simpl; try done.
  unfold Ascii.compare.
  destruct (N.compare_spec (N_of_ascii x) (N_of_ascii y)),
    (N.compare_spec (N_of_ascii y) (N_of_ascii z)); intros H1 H2; try done.
  - rewrite (proj2 (N.compare_eq_iff _ _)) by lia. eauto.
  - rewrite (proj2 (N.compare_lt_iff _ _)) by lia. done.
  - rewrite (proj2 (N.compare_lt_iff _ _)) by lia. done.
  - rewrite (proj2 (N.compare_lt_iff _ _)) by lia. done.
Qed.

Lemma str_compare_gt_lt a b : String.compare a b = Gt ↔ String.compare b a = Lt.
Proof. rewrite String.compare_antisym. destruct (String.compare b a); simpl; intuition congruence. Qed.

Lemma str_leb_spec a b : String.leb a b = true ↔ String.compare a b ≠ Gt.
Proof. unfold String.leb. destruct (String.compare a b); intuition congruence. Qed.

Lemma str_leb_trans a b c : String.leb a b = true → String.leb b c = true → String.leb a c = true.
Proof.
  rewrite !str_leb_spec.
  destruct (String.compare a b) eqn:Eab; [apply String.compare_eq_iff in Eab as ->; done| |done].
  destruct (String.compare b c) eqn:Ebc; [apply String.compare_eq_iff in Ebc as ->; by rewrite Eab| |done].
  by rewrite (str_compare_lt_trans a b c).
Qed.

(** The digit loop stops before its fuel runs out: once the fuel covers
    the digits of [n], more fuel gives the same string. *)
Lemma dec_digits_fuel f1 f2 n acc :
  0 ≤ n < 10 ^ Z.of_nat (S f1) → (f1 ≤ f2)%nat →
  dec_digits (S f1) n acc = dec_digits (S f2) n acc.
Proof.
  revert f2 n acc. induction f1 as [|f1 IH]; intros f2 n acc Hn Hf;
    rewrite !dec_digits_S; destruct (Z.ltb_spec n 10); try done.
  - simpl in Hn. lia.
  - destruct f2 as [|f2]; [lia|]. apply IH; [|lia].
    rewrite Nat2Z.inj_succ, Z.pow_succ_r in Hn by lia.
    split; [apply Z.div_pos|apply Z.div_lt_upper_bound]; lia.
Qed.

(** ** Properties *)

(** [int()] reads back what [str()] and ["%0{w}d"] print: the targets that
    [calc_week_targets] prints are the integers [indicator_circle]
    compares, and the zero-padded fields of a date parse to its numbers. *)
Theorem int_str_roundtrip z :
  py_int (py_str_int z) = Ok z ∧
  ∀ w : nat, (1 ≤ w)%nat → 0 ≤ z < 10 ^ Z.of_nat w → py_int (pct0d w z) = Ok z.
Proof. split; [apply py_int_str_int|]. intros w Hw Hz. by apply py_int_pct0d. Qed.


Lemma int_str_roundtrip_witness :
  (1 ≤ 2)%nat ∧ 0 ≤ 7 < 10 ^ Z.of_nat 2 ∧ py_int (pct0d 2 7) = Ok 7.
Proof.
  split; [lia|]. split; [simpl; lia|].
  apply (proj2 (int_str_roundtrip 7) 2%nat); simpl; lia.
Defined.


(** The loop that prints an int terminates within the fuel
    [dec_fuel]: any larger fuel prints the same string, so [str(z)] never
    depends on the bound. *)
Theorem py_str_int_fuel z fuel :
  (dec_fuel (Z.abs z) ≤ fuel)%nat →
  py_str_int z = if z <? 0 then String "-"%char (dec_digits fuel (- z) EmptyString)
                 else dec_digits fuel z EmptyString.
Proof.
  intros Hf. unfold py_str_int.
  assert (Hd : ∀ n, 0 ≤ n → (dec_fuel n ≤ fuel)%nat →
                 dec_digits (dec_fuel n) n EmptyString = dec_digits fuel n EmptyString).
  { intros n Hn Hle. pose proof (dec_fuel_enough n Hn) as He. unfold dec_fuel in *.
    destruct fuel as [|fuel]; [lia|]. apply dec_digits_fuel; [lia|lia]. }
  destruct (Z.ltb_spec z 0).
  - rewrite Z.abs_neq in Hf by lia. by rewrite Hd by lia.
  - rewrite Z.abs_eq in Hf by lia. by rewrite Hd.
Qed.

Lemma py_str_int_fuel_witness : py_str_int (-1234) = String "-"%char (dec_digits 64 1234 EmptyString).
Proof. apply (py_str_int_fuel (-1234) 64). vm_compute. lia. Defined.
