(* ===== verification/Calendar.v ===== *)
(** * [datetime.date] as the code uses it

    [data_handling.py] builds dates with [date(y, m, d)] (which raises
    ValueError outside the calendar), asks [.weekday()], subtracts
    [timedelta(days=k)] ([get_monday_date]), adds one day
    ([request_manager_stats]), compares dates ([get_stats]) and prints them
    with [str(date)].  This file models CPython's [datetime] module for
    these: [_is_leap], [_days_in_month], [_days_before_year],
    [_days_before_month], [_ymd2ord] ([toordinal]), [weekday], the range
    checks, and [date +/- timedelta(days=1)] stepwise (the theorems
    [toordinal_prev_day] and [toordinal_next_day] show that a step moves
    the ordinal by exactly one, which is how CPython defines the
    arithmetic: [fromordinal(toordinal() + k)], OverflowError out of
    range).  The main theorem, [date_str_compare], shows that the
    ["YYYY-MM-DD"] keys of the statistics dict sort like the dates. *)

From S2P Require Import Prelude PyStr.
From Stdlib Require Import Ascii.

Local Open Scope Z_scope.

Record date : Type := mkDate { year : Z; month : Z; day : Z }.

#[export] Instance date_eq_dec : EqDecision date.
Proof. solve_decision. Defined.

#[export] Program Instance date_countable : Countable date :=
  inj_countable' (λ d, (year d, month d, day d)) (λ '(y, m, d), mkDate y m d) _.
Next Obligation. by intros []. Qed.

Definition MINYEAR : Z := 1.
Definition MAXYEAR : Z := 9999.

(** [_is_leap(year)] *)
Definition is_leap (y : Z) : bool :=
  (y mod 4 =? 0) && (negb (y mod 100 =? 0) || (y mod 400 =? 0)).

(** [_DAYS_IN_MONTH] with the leap February of [_days_in_month]; the
    [leap] argument is [_is_leap(year)]. *)
Definition dim_tab (leap : bool) (m : Z) : Z :=
  match m with
  | 1 => 31 | 2 => if leap then 29 else 28 | 3 => 31 | 4 => 30 | 5 => 31 | 6 => 30
  | 7 => 31 | 8 => 31 | 9 => 30 | 10 => 31 | 11 => 30 | 12 => 31 | _ => -1
  end.

(** [_days_in_month(year, month)] *)
Definition days_in_month (y m : Z) : Z := dim_tab (is_leap y) m.

(** [_DAYS_BEFORE_MONTH[month] + (month > 2 and leap)] *)
Definition dbm_tab (leap : bool) (m : Z) : Z :=
  let base := match m with
    | 1 => 0 | 2 => 31 | 3 => 59 | 4 => 90 | 5 => 120 | 6 => 151 | 7 => 181
    | 8 => 212 | 9 => 243 | 10 => 273 | 11 => 304 | 12 => 334 | _ => -1 end in
  base + (if (2 <? m) && leap then 1 else 0).

(** [_days_before_month(year, month)] *)
Definition days_before_month (y m : Z) : Z := dbm_tab (is_leap y) m.

(** [_days_before_year(year)] *)
Definition days_before_year (y : Z) : Z :=
  let y' := y - 1 in y' * 365 + y' / 4 - y' / 100 + y' / 400.

(** [date.toordinal()] = [_ymd2ord(y, m, d)]; 0001-01-01 has ordinal 1. *)
Definition toordinal (d : date) : Z :=
  days_before_year (year d) + days_before_month (year d) (month d) + day d.

(** [date.weekday()]: Monday is 0, Sunday is 6. *)
Definition weekday (d : date) : Z := (toordinal d + 6) mod 7.

(** The checks of [_check_date_fields]. *)
Definition valid_date (d : date) : bool :=
  (MINYEAR <=? year d) && (year d <=? MAXYEAR) &&
  (1 <=? month d) && (month d <=? 12) &&
  (1 <=? day d) && (day d <=? days_in_month (year d) (month d)).

(** [date(y, m, d)]: ValueError unless the fields name a day. *)
Definition mk_date (y m d : Z) : result date :=
  let dt := mkDate y m d in if valid_date dt then Ok dt else Err ValueError.

(** [d - timedelta(days=1)]; OverflowError before 0001-01-01. *)
Definition prev_day (d : date) : result date :=
  if 1 <? day d then Ok (mkDate (year d) (month d) (day d - 1))
  else if 1 <? month d then
    Ok (mkDate (year d) (month d - 1) (days_in_month (year d) (month d - 1)))
  else if MINYEAR <? year d then Ok (mkDate (year d - 1) 12 31)
  else Err OverflowError.

(** [d + timedelta(days=1)]; OverflowError after 9999-12-31. *)
Definition next_day (d : date) : result date :=
  if day d <? days_in_month (year d) (month d) then Ok (mkDate (year d) (month d) (day d + 1))
  else if month d <? 12 then Ok (mkDate (year d) (month d + 1) 1)
  else if year d <? MAXYEAR then Ok (mkDate (year d + 1) 1 1)
  else Err OverflowError.

(** [d - timedelta(days=k)] for [k >= 0]. *)
Fixpoint sub_days (k : nat) (d : date) : result date :=
  match k with
  | O => Ok d
  | S k' => d' ← prev_day d; sub_days k' d'
  end.

(** [d.replace(day=1)] *)
Definition month_start (d : date) : date := mkDate (year d) (month d) 1.

(** The comparison of two dates: by year, then month, then day. *)
Definition date_cmp (d1 d2 : date) : comparison :=
  match Z.compare (year d1) (year d2) with
  | Eq => match Z.compare (month d1) (month d2) with
          | Eq => Z.compare (day d1) (day d2)
          | c => c
          end
  | c => c
  end.

Definition date_le (d1 d2 : date) : bool :=
  match date_cmp d1 d2 with Gt => false | _ => true end.

(** [str(d)] = [d.isoformat()] = ["%04d-%02d-%02d" % (y, m, d)]. *)
Definition date_str (d : date) : string :=
  String.append (pct0d 4 (year d))
    (String "-"%char (String.append (pct0d 2 (month d))
      (String "-"%char (pct0d 2 (day d))))).

Example date_ex :
  date_str (mkDate 2024 3 11) = "2024-03-11" ∧ weekday (mkDate 2024 3 11) = 0 ∧
  toordinal (mkDate 1 1 1) = 1 ∧ prev_day (mkDate 2024 3 1) = Ok (mkDate 2024 2 29) ∧
  sub_days 2 (mkDate 2024 3 13) = Ok (mkDate 2024 3 11) ∧
  next_day (mkDate 2023 12 31) = Ok (mkDate 2024 1 1) ∧
  mk_date 2023 2 29 = Err ValueError ∧ prev_day (mkDate 1 1 1) = Err OverflowError.
Proof. vm_compute. repeat split. Qed.

(** ** Calendar arithmetic *)

(** [month_cases m]: split a goal over the twelve months [1 <= m <= 12]. *)
Ltac month_cases m :=
  let H := fresh "Hm" in
  assert (H : m = 1 ∨ m = 2 ∨ m = 3 ∨ m = 4 ∨ m = 5 ∨ m = 6 ∨ m = 7 ∨ m = 8 ∨
              m = 9 ∨ m = 10 ∨ m = 11 ∨ m = 12) by lia;
  repeat destruct H as [H|H]; subst m.

Lemma days_before_year_succ y :
  days_before_year (y + 1) = days_before_year y + 365 + (if is_leap y then 1 else 0).
Proof.
  unfold days_before_year, is_leap. replace (y + 1 - 1) with y by lia.
  destruct (Z.eqb_spec (y mod 4) 0), (Z.eqb_spec (y mod 100) 0), (Z.eqb_spec (y mod 400) 0);
    simpl; Z.div_mod_to_equations; lia.
Qed.

Lemma days_before_year_mono y1 y2 : y1 ≤ y2 → days_before_year y1 ≤ days_before_year y2.
Proof. unfold days_before_year. intros. Z.div_mod_to_equations. lia. Qed.

Lemma dim_tab_bounds b m : 1 ≤ m ≤ 12 → 28 ≤ dim_tab b m ≤ 31.
Proof. intros. month_cases m; destruct b; unfold dbm_tab, dim_tab; simpl; lia. Qed.

Lemma dbm_tab_succ b m : 1 ≤ m ≤ 11 → dbm_tab b (m + 1) = dbm_tab b m + dim_tab b m.
Proof. intros. month_cases m; destruct b; (reflexivity || lia). Qed.

Lemma dbm_tab_year b m :
  1 ≤ m ≤ 12 → 0 ≤ dbm_tab b m ∧ dbm_tab b m + dim_tab b m ≤ 365 + (if b then 1 else 0).
Proof. intros. month_cases m; destruct b; unfold dbm_tab, dim_tab; simpl; lia. Qed.

Lemma dbm_tab_mono b m1 m2 :
  1 ≤ m1 < m2 → m2 ≤ 12 → dbm_tab b m1 + dim_tab b m1 ≤ dbm_tab b m2.
Proof. intros. month_cases m2; month_cases m1; destruct b; unfold dbm_tab, dim_tab; simpl; lia. Qed.

Lemma valid_date_spec d :
  valid_date d = true ↔
  1 ≤ year d ≤ 9999 ∧ 1 ≤ month d ≤ 12 ∧ 1 ≤ day d ≤ days_in_month (year d) (month d).
Proof.
  unfold valid_date, MINYEAR, MAXYEAR. rewrite !andb_true_iff, !Z.leb_le. tauto.
Qed.

(** The ordinal of a valid date lies inside its year. *)
Lemma toordinal_in_year d :
  valid_date d = true →
  days_before_year (year d) < toordinal d ≤ days_before_year (year d + 1).
Proof.
  intros (Hy & Hm & Hd)%valid_date_spec. unfold toordinal, days_before_month.
  rewrite days_before_year_succ. unfold days_in_month in Hd.
  pose proof (dbm_tab_year (is_leap (year d)) (month d) Hm). lia.
Qed.

Lemma date_cmp_antisym d1 d2 : date_cmp d2 d1 = CompOpp (date_cmp d1 d2).
Proof.
  unfold date_cmp. rewrite (Z.compare_antisym (year d1)), (Z.compare_antisym (month d1)),
    (Z.compare_antisym (day d1)).
  destruct (year d1 ?= year d2), (month d1 ?= month d2), (day d1 ?= day d2); reflexivity.
Qed.

Lemma date_cmp_Lt_ord d1 d2 :
  valid_date d1 = true → valid_date d2 = true →
  date_cmp d1 d2 = Lt → toordinal d1 < toordinal d2.
Proof.
  intros V1 V2. pose proof (toordinal_in_year _ V1). pose proof (toordinal_in_year _ V2).
  apply valid_date_spec in V1 as (Y1 & M1 & D1), V2 as (Y2 & M2 & D2).
  destruct d1 as [y1 m1 dd1], d2 as [y2 m2 dd2]; simpl in *.
  unfold date_cmp; simpl.
  destruct (Z.compare_spec y1 y2) as [<-|Hy|Hy]; [|intros _|done].
  - destruct (Z.compare_spec m1 m2) as [<-|Hm|Hm]; [|intros _|done].
    + intros Hd. pose proof (proj1 (Z.compare_lt_iff _ _) Hd). unfold toordinal. simpl. lia.
    + unfold toordinal, days_before_month, days_in_month in *. simpl in *.
      pose proof (dbm_tab_mono (is_leap y1) m1 m2 ltac:(lia) ltac:(lia)). lia.
  - pose proof (days_before_year_mono (y1 + 1) y2 ltac:(lia)). lia.
Qed.

Lemma date_cmp_Eq d1 d2 : date_cmp d1 d2 = Eq → d1 = d2.
Proof.
  destruct d1 as [y1 m1 dd1], d2 as [y2 m2 dd2]. unfold date_cmp; simpl.
  destruct (Z.compare_spec y1 y2), (Z.compare_spec m1 m2), (Z.compare_spec dd1 dd2);
    try done; subst; done.
Qed.

(** On valid dates, comparing dates is comparing their ordinals. *)
Theorem date_cmp_toordinal d1 d2 :
  valid_date d1 = true → valid_date d2 = true →
  date_cmp d1 d2 = Z.compare (toordinal d1) (toordinal d2).
Proof.
  intros V1 V2. destruct (date_cmp d1 d2) eqn:E.
  - apply date_cmp_Eq in E as ->. symmetry. apply Z.compare_refl.
  - symmetry. apply Z.compare_lt_iff. by apply date_cmp_Lt_ord.
  - symmetry. apply Z.compare_gt_iff. apply date_cmp_Lt_ord; [done|done|].
    rewrite date_cmp_antisym, E. done.
Qed.

Lemma toordinal_inj d1 d2 :
  valid_date d1 = true → valid_date d2 = true → toordinal d1 = toordinal d2 → d1 = d2.
Proof.
  intros V1 V2 E. apply date_cmp_Eq. rewrite date_cmp_toordinal by done.
  by apply Z.compare_eq_iff.
Qed.

(** ** [date -/+ timedelta(days=1)] *)

(** One day back: a valid date again, one ordinal less; the only date with
    no predecessor is 0001-01-01, where CPython raises OverflowError. *)
Theorem toordinal_prev_day d :
  valid_date d = true →
  match prev_day d with
  | Ok d' => valid_date d' = true ∧ toordinal d' = toordinal d - 1
  | Err e => e = OverflowError ∧ d = mkDate 1 1 1
  end.
Proof.
  intros V. pose proof V as (Y & M & D)%valid_date_spec.
  destruct d as [y m dd]; simpl in *. unfold prev_day, MINYEAR; simpl.
  unfold toordinal, days_before_month, days_in_month in *; simpl.
  destruct (Z.ltb_spec 1 dd); [|destruct (Z.ltb_spec 1 m); [|destruct (Z.ltb_spec 1 y)]].
  - split; [apply valid_date_spec; unfold days_in_month; simpl; lia | simpl; lia].
  - pose proof (dim_tab_bounds (is_leap y) (m - 1) ltac:(lia)).
    pose proof (dbm_tab_succ (is_leap y) (m - 1) ltac:(lia)) as Hs.
    replace (m - 1 + 1) with m in Hs by lia.
    split; [apply valid_date_spec; unfold days_in_month; simpl; lia | simpl; lia].
  - pose proof (days_before_year_succ (y - 1)) as Hy. replace (y - 1 + 1) with y in Hy by lia.
    assert (m = 1) as -> by lia.
    split; [apply valid_date_spec; unfold days_in_month; simpl; destruct (is_leap (y - 1)); lia|].
    simpl. unfold dbm_tab. simpl. destruct (is_leap (y - 1)), (is_leap y); simpl; lia.
  - split; [done|]. f_equal; lia.
Qed.

(** One day forward; the only date with no successor is 9999-12-31. *)
Theorem toordinal_next_day d :
  valid_date d = true →
  match next_day d with
  | Ok d' => valid_date d' = true ∧ toordinal d' = toordinal d + 1
  | Err e => e = OverflowError ∧ d = mkDate 9999 12 31
  end.
Proof.
  intros V. pose proof V as (Y & M & D)%valid_date_spec.
  destruct d as [y m dd]; simpl in *. unfold next_day, MAXYEAR; simpl.
  unfold toordinal, days_before_month, days_in_month in *; simpl.
  destruct (Z.ltb_spec dd (dim_tab (is_leap y) m));
    [|destruct (Z.ltb_spec m 12); [|destruct (Z.ltb_spec y 9999)]].
  - split; [apply valid_date_spec; unfold days_in_month; simpl; lia | simpl; lia].
  - pose proof (dim_tab_bounds (is_leap y) (m + 1) ltac:(lia)).
    pose proof (dbm_tab_succ (is_leap y) m ltac:(lia)) as Hs.
    split; [apply valid_date_spec; unfold days_in_month; simpl; lia | simpl; lia].
  - pose proof (days_before_year_succ y) as Hy.
    assert (m = 12) as -> by lia. unfold dim_tab in *.
    split; [apply valid_date_spec; unfold days_in_month; simpl; destruct (is_leap (y + 1)); lia|].
    simpl. unfold dbm_tab. simpl. destruct (is_leap y), (is_leap (y + 1)); simpl; lia.
  - assert (m = 12) as -> by lia. unfold dim_tab in *.
    split; [done|]. f_equal; lia.
Qed.

Lemma toordinal_pos d : valid_date d = true → 1 ≤ toordinal d.
Proof.
  intros V. pose proof (toordinal_in_year d V). apply valid_date_spec in V as (Y & _).
  pose proof (days_before_year_mono 1 (year d) ltac:(lia)).
  assert (days_before_year 1 = 0) by reflexivity. lia.
Qed.

(** The ordinals run from 1 (0001-01-01) to that of 9999-12-31. *)
Lemma toordinal_max d : valid_date d = true → toordinal d ≤ toordinal (mkDate 9999 12 31).
Proof.
  intros V. pose proof (toordinal_in_year d V) as H. apply valid_date_spec in V as (Y & _).
  pose proof (days_before_year_mono (year d + 1) 10000 ltac:(lia)).
  assert (days_before_year 10000 = toordinal (mkDate 9999 12 31)) by reflexivity. lia.
Qed.

(** [d - timedelta(days=k)]: a valid date [k] ordinals earlier, and it
    exists exactly when that ordinal is at least 1. *)
Theorem sub_days_spec k d :
  valid_date d = true →
  match sub_days k d with
  | Ok d' => valid_date d' = true ∧ toordinal d' = toordinal d - Z.of_nat k
  | Err e => e = OverflowError ∧ toordinal d ≤ Z.of_nat k
  end.
Proof.
  revert d. induction k as [|k IH]; intros d V; simpl; [split; [done|lia]|].
  pose proof (toordinal_prev_day d V) as Hp. destruct (prev_day d) as [d'|e]; simpl.
  - destruct Hp as [V' Ho]. specialize (IH d' V').
    destruct (sub_days k d'); destruct IH; split; auto; lia.
  - destruct Hp as [-> ->]. split; [done|]. vm_compute toordinal. lia.
Qed.

(** The weekday is the ordinal modulo 7. *)
Lemma weekday_shift d d' k :
  toordinal d' = toordinal d - k → weekday d' = (weekday d - k) mod 7.
Proof. unfold weekday. intros ->. rewrite Zminus_mod_idemp_l. f_equal. lia. Qed.

Lemma weekday_range d : 0 ≤ weekday d < 7.
Proof. unfold weekday. apply Z.mod_pos_bound. lia. Qed.

(** ** [str(date)] orders like the dates *)

Lemma compare_dash a b :
  String.compare (String "-"%char a) (String "-"%char b) = String.compare a b.
Proof. reflexivity. Qed.

(** The isoformat strings of valid dates compare exactly as the dates do;
    in particular [sorted()] on the keys of the statistics dict sorts them
    chronologically. *)
Theorem date_str_compare d1 d2 :
  valid_date d1 = true → valid_date d2 = true →
  String.compare (date_str d1) (date_str d2) = date_cmp d1 d2.
Proof.
  intros (Y1 & M1 & D1)%valid_date_spec (Y2 & M2 & D2)%valid_date_spec.
  unfold days_in_month in *.
  pose proof (dim_tab_bounds (is_leap (year d1)) (month d1) M1).
  pose proof (dim_tab_bounds (is_leap (year d2)) (month d2) M2).
  destruct (pct0d_spec 4 (year d1)) as [Vy1 Ly1]; [lia|simpl; lia|].
  destruct (pct0d_spec 4 (year d2)) as [Vy2 Ly2]; [lia|simpl; lia|].
  destruct (pct0d_spec 2 (month d1)) as [Vm1 Lm1]; [lia|simpl; lia|].
  destruct (pct0d_spec 2 (month d2)) as [Vm2 Lm2]; [lia|simpl; lia|].
  destruct (pct0d_spec 2 (day d1)) as [Vd1 Ld1]; [lia|simpl; lia|].
  destruct (pct0d_spec 2 (day d2)) as [Vd2 Ld2]; [lia|simpl; lia|].
  unfold date_str, date_cmp.
  rewrite (compare_digits _ _ _ _ _ _ Vy1 Vy2 ltac:(congruence)).
  destruct (year d1 ?= year d2); [|done|done].
  rewrite compare_dash, (compare_digits _ _ _ _ _ _ Vm1 Vm2 ltac:(congruence)).
  destruct (month d1 ?= month d2); [|done|done].
  rewrite compare_dash, <- (str_app_nil (pct0d 2 (day d1))), <- (str_app_nil (pct0d 2 (day d2))).
  rewrite (compare_digits _ _ _ _ _ _ Vd1 Vd2 ltac:(congruence)).
  by destruct (day d1 ?= day d2).
Qed.

Lemma date_str_inj d1 d2 :
  valid_date d1 = true → valid_date d2 = true → date_str d1 = date_str d2 → d1 = d2.
Proof.
  intros V1 V2 E. apply date_cmp_Eq. rewrite <- date_str_compare by done.
  rewrite E. apply str_compare_refl.
Qed.

Lemma date_le_ord d1 d2 :
  valid_date d1 = true → valid_date d2 = true →
  date_le d1 d2 = true ↔ toordinal d1 ≤ toordinal d2.
Proof.
  intros V1 V2. unfold date_le. rewrite date_cmp_toordinal by done.
  destruct (Z.compare_spec (toordinal d1) (toordinal d2)); split; intros; try done; lia.
Qed.

(** [str(d1) <= str(d2)] as Python compares strings, on valid dates. *)
Lemma date_str_leb d1 d2 :
  valid_date d1 = true → valid_date d2 = true →
  String.leb (date_str d1) (date_str d2) = date_le d1 d2.
Proof. intros V1 V2. unfold String.leb, date_le. by rewrite date_str_compare. Qed.

(** The first of a valid date's month is valid and not after it. *)
Lemma month_start_valid d :
  valid_date d = true → valid_date (month_start d) = true ∧ toordinal (month_start d) ≤ toordinal d.
Proof.
  intros V. pose proof V as (Y & M & D)%valid_date_spec. unfold days_in_month in D.
  pose proof (dim_tab_bounds (is_leap (year d)) (month d) M).
  split; [apply valid_date_spec; unfold month_start, days_in_month; cbn [year month day]; lia|].
  unfold toordinal, month_start. cbn [year month day]. lia.
Qed.

Lemma toordinal_year_2000 d : valid_date d = true → 2000 ≤ year d → 730000 ≤ toordinal d.
Proof.
  intros V Hy. pose proof (toordinal_in_year d V) as [Hlo _].
  pose proof (days_before_year_mono 2000 (year d) Hy).
  assert (days_before_year 2000 = 730119) by reflexivity. lia.
Qed.

(** ** Properties *)

(** [get_monday_date] subtracts [weekday] days: for any valid date past the
    first week of year 1 this succeeds and lands on the Monday of the
    date's week, [weekday] days earlier. *)
Theorem monday_of_week d :
  valid_date d = true → 7 ≤ toordinal d →
  ∃ m, sub_days (Z.to_nat (weekday d)) d = Ok m ∧ valid_date m = true ∧
       weekday m = 0 ∧ toordinal m = toordinal d - weekday d.
Proof.
  intros V Ho. pose proof (weekday_range d) as Hw.
  pose proof (sub_days_spec (Z.to_nat (weekday d)) d V) as Hs.
  destruct (sub_days _ d) as [m|e]; [|lia]. destruct Hs as [Vm Om].
  rewrite Z2Nat.id in Om by lia. exists m. repeat split; [done..| |done].
  rewrite (weekday_shift d m (weekday d) Om), Z.sub_diag. done.
Qed.

(** The isoformat strings of valid dates compare, as Python compares
    strings, exactly as the dates' ordinals do. *)
Theorem isoformat_order d1 d2 :
  valid_date d1 = true → valid_date d2 = true →
  String.compare (date_str d1) (date_str d2) = Z.compare (toordinal d1) (toordinal d2).
Proof. intros V1 V2. by rewrite date_str_compare, date_cmp_toordinal. Qed.


