(* ===== verification/RefDate.v ===== *)
(** * The reference date and its re-derivations

    The form hands the program one string, the selected date, in the
    "M/D/YY" form of the calendar widget.  [get_stats] and
    [request_manager_stats] parse it with [datetime.strptime(s,
    "%m/%d/%y")] ([strptime_mdy]); the weekly functions re-derive it from
    the string by hand: [format_date] and [api_date_format] (data_handling.py
    lines 10-17), [get_weekday] (19-24) and [get_monday_date] (26-32).

    [strptime_mdy] follows CPython's [_strptime]: the directives [%m]
    ([1[0-2]|0[1-9]|[1-9]]), [%d] ([3[01]|[12]\d|0[1-9]|[1-9]| [1-9]]) and
    [%y] ([\d\d]) must match the whole string; the two-digit year maps
    00..68 to 2000..2068 and 69..99 to 1969..1999; the date constructor
    then rejects days past the end of the month.  The hand-written
    re-derivations instead glue "20" in front of the year ([format_date])
    or add 2000 ([get_monday_date]).  The theorems show when the four
    agree and exhibit where they do not. *)

From S2P Require Import Prelude PyStr Calendar.
From Stdlib Require Import Ascii.

Local Open Scope Z_scope.

(** ** [strptime(s, "%m/%d/%y")] *)

(** The [%m] directive: [1[0-2]|0[1-9]|[1-9]]. *)
Definition month_tok (s : string) : option Z :=
  match s with
  | String a EmptyString =>
      da ← char_digit a; if 1 <=? da then Some da else None
  | String a (String b EmptyString) =>
      da ← char_digit a; db ← char_digit b;
      if (da =? 1) && (db <=? 2) then Some (10 + db)
      else if (da =? 0) && (1 <=? db) then Some db
      else None
  | _ => None
  end.

(** The [%d] directive: [3[01]|[12]\d|0[1-9]|[1-9]| [1-9]]. *)
Definition day_tok (s : string) : option Z :=
  match s with
  | String a EmptyString =>
      da ← char_digit a; if 1 <=? da then Some da else None
  | String a (String b EmptyString) =>
      if Ascii.eqb a " "%char then
        db ← char_digit b; if 1 <=? db then Some db else None
      else
        da ← char_digit a; db ← char_digit b;
        if ((da =? 3) && (db <=? 1)) || (da =? 1) || (da =? 2) then Some (10 * da + db)
        else if (da =? 0) && (1 <=? db) then Some db
        else None
  | _ => None
  end.

(** The [%y] directive: exactly two digits. *)
Definition yy_tok (s : string) : option Z :=
  match s with
  | String a (String b EmptyString) =>
      da ← char_digit a; db ← char_digit b; Some (10 * da + db)
  | _ => None
  end.

(** [_strptime]'s century rule for [%y]. *)
Definition century (yy : Z) : Z := if yy <=? 68 then 2000 + yy else 1900 + yy.

(** [datetime.strptime(s, "%m/%d/%y")], as a date.  The format has no
    other directive, so the string is the three tokens joined by "/". *)
Definition strptime_mdy (s : string) : result date :=
  match py_split "/" s with
  | [ms; ds; ys] =>
      match month_tok ms, day_tok ds, yy_tok ys with
      | Some m, Some d, Some yy => mk_date (century yy) m d
      | _, _, _ => Err ValueError
      end
  | _ => Err ValueError
  end.

(** ** The hand-written re-derivations (data_handling.py lines 10-32) *)

(** [format_date]: [month, day, year = s.split("/")] (ValueError unless
    there are three parts), then [f"20{year}-{month.zfill(2)}-{day.zfill(2)}"]. *)
Definition format_date (inserted_date : string) : result string :=
  match py_split "/" inserted_date with
  | [month; day; year] =>
      Ok (String.append (String.append "20" year)
            (String "-"%char (String.append (zfill 2 month)
              (String "-"%char (zfill 2 day)))))
  | _ => Err ValueError
  end.

(** [api_date_format] returns [format_date]'s result. *)
Definition api_date_format (inserted_date : string) : result string :=
  format_date inserted_date.

(** [get_weekday]: an "M/D/YY" string is first passed through
    [format_date]; then [year, month, day = map(int, s.split("-"))] and
    [date(year, month, day).weekday()]. *)
Definition get_weekday (inserted_date : string) : result Z :=
  s ← (if has_char "/"%char inserted_date then format_date inserted_date
       else Ok inserted_date);
  match py_split "-" s with
  | [ys; ms; ds] =>
      y ← py_int ys; m ← py_int ms; d ← py_int ds;
      dt ← mk_date y m d; Ok (weekday dt)
  | _ => Err ValueError
  end.

(** [get_monday_date]: the weekday, then
    [month, day, year = map(int, s.split("/"))], [year += 2000] for a year
    below 100, and [date(year, month, day) - timedelta(days=weekday)]. *)
Definition get_monday_date (inserted_date : string) : result date :=
  wd ← get_weekday inserted_date;
  match py_split "/" inserted_date with
  | [ms; ds; ys] =>
      m ← py_int ms; d ← py_int ds; y ← py_int ys;
      let y' := if y <? 100 then y + 2000 else y in
      dt ← mk_date y' m d; sub_days (Z.to_nat wd) dt
  | _ => Err ValueError
  end.

Example refdate_ex :
  strptime_mdy "3/15/24" = Ok (mkDate 2024 3 15) ∧
  strptime_mdy "03/15/24" = Ok (mkDate 2024 3 15) ∧
  strptime_mdy "2/30/24" = Err ValueError ∧ strptime_mdy "13/1/24" = Err ValueError ∧
  strptime_mdy "3/15/2024" = Err ValueError ∧
  format_date "3/11/24" = Ok "2024-03-11" ∧ get_weekday "3/13/24" = Ok 2 ∧
  get_weekday "2024-03-11" = Ok 0 ∧
  get_monday_date "3/13/24" = Ok (mkDate 2024 3 11) ∧
  strptime_mdy "1/15/70" = Ok (mkDate 1970 1 15).
Proof. vm_compute. repeat split. Qed.

(** ** What a matched token is *)

(** [tok_digits]: turn every digit character of the token into
    [digit_char d] and enumerate the digits, leaving closed goals. *)
Ltac tok_digits :=
  repeat match goal with
  | |- context [char_digit ?a] =>
      let d := fresh "d" in let Hc := fresh "Hc" in
      destruct (char_digit a) as [d|] eqn:Hc; simpl;
      [apply char_digit_inv in Hc as [-> ?]; digit_cases d | ]
  end;
  intros Htok; vm_compute in Htok;
  first [ discriminate Htok
        | injection Htok as <-; vm_compute; repeat split; congruence ].

Lemma month_tok_facts ms m :
  month_tok ms = Some m →
  1 ≤ m ≤ 12 ∧ py_int ms = Ok m ∧ zfill 2 ms = pct0d 2 m.
Proof.
  destruct ms as [|a [|b [|c r]]]; simpl; try discriminate.
  all: try (destruct (Ascii.eqb a " "%char)); tok_digits.
Qed.

Lemma day_tok_facts ds dd :
  day_tok ds = Some dd →
  1 ≤ dd ≤ 31 ∧ py_int ds = Ok dd ∧ py_int (zfill 2 ds) = Ok dd ∧
  has_char "-"%char (zfill 2 ds) = false ∧
  (has_char " "%char ds = false → zfill 2 ds = pct0d 2 dd).
Proof.
  destruct ds as [|a [|b [|c r]]]; simpl; try discriminate.
  all: try (destruct (Ascii.eqb a " "%char) eqn:Ha;
            [apply Ascii.eqb_eq in Ha as ->|]); tok_digits.
Qed.

Lemma yy_tok_facts ys yy :
  yy_tok ys = Some yy →
  0 ≤ yy ≤ 99 ∧ py_int ys = Ok yy ∧ String.append "20" ys = pct0d 4 (2000 + yy) ∧
  has_char "-"%char (String.append "20" ys) = false.
Proof. destruct ys as [|a [|b [|c r]]]; simpl; try discriminate. all: tok_digits. Qed.

Lemma month_tok_dash ms m : month_tok ms = Some m → has_char "-"%char (zfill 2 ms) = false.
Proof.
  intros (Hm & _ & ->)%month_tok_facts.
  destruct (pct0d_spec 2 m) as [Hv _]; [lia|simpl; lia|].
  by eapply digits_no_char.
Qed.

(** Three "/"-separated parts mean the string contains "/". *)
Lemma py_split_three_has sep s a b c :
  py_split sep s = [a; b; c] → has_char sep s = true.
Proof.
  destruct (has_char sep s) eqn:E; [done|]. rewrite py_split_no_sep by done. discriminate.
Qed.

(** The tokens of a reference date accepted by [strptime_mdy]. *)
Lemma strptime_mdy_inv s d :
  strptime_mdy s = Ok d →
  ∃ ms ds ys m dd yy, py_split "/" s = [ms; ds; ys] ∧ month_tok ms = Some m ∧
    day_tok ds = Some dd ∧ yy_tok ys = Some yy ∧ d = mkDate (century yy) m dd ∧
    valid_date d = true.
Proof.
  unfold strptime_mdy. destruct (py_split "/" s) as [|ms [|ds [|ys [|]]]]; try discriminate.
  destruct (month_tok ms) as [m|] eqn:Hm, (day_tok ds) as [dd|] eqn:Hd,
    (yy_tok ys) as [yy|] eqn:Hy; try discriminate.
  unfold mk_date. destruct (valid_date (mkDate (century yy) m dd)) eqn:V; [|discriminate].
  intros [= <-]. eauto 12.
Qed.

(** [format_date] splits back, at "-", into the year, month and day it glued. *)
Lemma format_date_split s ms ds ys m dd yy :
  py_split "/" s = [ms; ds; ys] → month_tok ms = Some m → day_tok ds = Some dd →
  yy_tok ys = Some yy →
  ∃ f, format_date s = Ok f ∧
    py_split "-" f = [String.append "20" ys; zfill 2 ms; zfill 2 ds].
Proof.
  intros Hs Hm Hd Hy. unfold format_date. rewrite Hs. eexists; split; [done|].
  apply (py_split_join "-" [_; _; _]); [done|].
  repeat constructor.
  - by destruct (yy_tok_facts _ _ Hy) as (_ & _ & _ & ->).
  - by eapply month_tok_dash.
  - by destruct (day_tok_facts _ _ Hd) as (_ & _ & _ & -> & _).
Qed.

(** ** Agreement and divergence of the re-derivations *)

Lemma mk_date_ok y m dd : valid_date (mkDate y m dd) = true → mk_date y m dd = Ok (mkDate y m dd).
Proof. unfold mk_date. by intros ->. Qed.

Lemma century_cases yy :
  0 ≤ yy ≤ 99 →
  (yy ≤ 68 ∧ century yy = 2000 + yy) ∨ (69 ≤ yy ∧ century yy = 1900 + yy).
Proof. unfold century. destruct (Z.leb_spec yy 68); lia. Qed.

(** [get_weekday] on a reference string reads the date [20YY-MM-DD]. *)
Lemma get_weekday_mdy s ms ds ys m dd yy :
  py_split "/" s = [ms; ds; ys] → month_tok ms = Some m → day_tok ds = Some dd →
  yy_tok ys = Some yy →
  get_weekday s = (dt ← mk_date (2000 + yy) m dd; Ok (weekday dt)).
Proof.
  intros Hs Hm Hd Hy. unfold get_weekday. rewrite (py_split_three_has _ _ _ _ _ Hs).
  destruct (format_date_split s ms ds ys m dd yy Hs Hm Hd Hy) as (f & -> & Hf).
  rewrite bind_Ok, Hf.
  destruct (month_tok_facts _ _ Hm) as (Hm1 & _ & ->).
  destruct (day_tok_facts _ _ Hd) as (_ & _ & -> & _).
  destruct (yy_tok_facts _ _ Hy) as (Hy1 & _ & -> & _).
  rewrite !py_int_pct0d by (simpl; lia). done.
Qed.

Lemma get_weekday_ref s d :
  strptime_mdy s = Ok d → 2000 ≤ year d → get_weekday s = Ok (weekday d).
Proof.
  intros H Hy.
  destruct (strptime_mdy_inv s d H) as (ms & ds & ys & m & dd & yy & Hs & Hm & Hd & Hyy & -> & V).
  rewrite (get_weekday_mdy s ms ds ys m dd yy Hs Hm Hd Hyy).
  destruct (yy_tok_facts _ _ Hyy) as (Hy1 & _ & _ & _).
  simpl in Hy. destruct (century_cases yy Hy1) as [[Hle Hc]|[_ Hc]]; rewrite Hc in V, Hy |- *; [|lia].
  by rewrite (mk_date_ok _ _ _ V).
Qed.

Lemma get_monday_date_ref s d :
  strptime_mdy s = Ok d → 2000 ≤ year d →
  get_monday_date s = sub_days (Z.to_nat (weekday d)) d.
Proof.
  intros H Hy. pose proof (get_weekday_ref s d H Hy) as Hw.
  destruct (strptime_mdy_inv s d H) as (ms & ds & ys & m & dd & yy & Hs & Hm & Hd & Hyy & -> & V).
  destruct (yy_tok_facts _ _ Hyy) as (Hy1 & Iy & _ & _).
  simpl in Hy. destruct (century_cases yy Hy1) as [[Hle Hc]|[_ Hc]]; rewrite Hc in V, Hy, Hw |- *; [|lia].
  unfold get_monday_date. rewrite Hw, bind_Ok, Hs.
  destruct (month_tok_facts _ _ Hm) as (_ & -> & _).
  destruct (day_tok_facts _ _ Hd) as (_ & -> & _).
  rewrite Iy, !bind_Ok. destruct (Z.ltb_spec yy 100); [|lia]. cbv iota beta.
  replace (yy + 2000) with (2000 + yy) by lia. rewrite (mk_date_ok _ _ _ V). done.
Qed.

Lemma api_date_format_ref s d :
  strptime_mdy s = Ok d → 2000 ≤ year d → has_char " "%char s = false →
  api_date_format s = Ok (date_str d).
Proof.
  intros H Hy Hsp.
  destruct (strptime_mdy_inv s d H) as (ms & ds & ys & m & dd & yy & Hs & Hm & Hd & Hyy & -> & V).
  destruct (yy_tok_facts _ _ Hyy) as (Hy1 & _ & Ey & _).
  simpl in Hy. destruct (century_cases yy Hy1) as [[Hle Hc]|[_ Hc]]; rewrite Hc in Hy |- *; [|lia].
  pose proof (has_char_split " "%char "/"%char s Hsp) as Hparts. rewrite Hs in Hparts.
  inversion Hparts as [|? ? _ Hparts']. inversion Hparts' as [|? ? Hds _]. subst.
  unfold api_date_format, format_date. rewrite Hs, Ey.
  destruct (month_tok_facts _ _ Hm) as (_ & _ & ->).
  destruct (day_tok_facts _ _ Hd) as (_ & _ & _ & _ & Hz). by rewrite (Hz Hds).
Qed.

Lemma is_leap_add100 y : 1 ≤ y mod 100 → is_leap (y + 100) = is_leap y.
Proof.
  intros H. unfold is_leap.
  rewrite <- (Z.add_mod_idemp_r y 100 4), <- (Z.add_mod_idemp_r y 100 100),
    <- (Z.add_mod_idemp_r y 100 400) by lia.
  replace (100 mod 4) with 0 by reflexivity. replace (100 mod 100) with 0 by reflexivity.
  rewrite !Z.add_0_r.
  destruct (Z.eqb_spec (y mod 100) 0); [lia|]. simpl. rewrite !andb_true_r. done.
Qed.

(** C7: For a year [YY >= 69], [strptime] gives 19YY but [get_weekday] reads
    20YY: a century later, 36525 days, so its weekday is one less than the
    weekday of the date [get_stats] filters on. *)
Theorem rederivation_century_divergence s d :
  strptime_mdy s = Ok d → year d < 2000 →
  get_weekday s = Ok ((weekday d + 6) mod 7).
Proof.
  intros H Hy.
  destruct (strptime_mdy_inv s d H) as (ms & ds & ys & m & dd & yy & Hs & Hm & Hd & Hyy & -> & V).
  rewrite (get_weekday_mdy s ms ds ys m dd yy Hs Hm Hd Hyy).
  destruct (yy_tok_facts _ _ Hyy) as (Hy1 & _ & _ & _).
  simpl in Hy. destruct (century_cases yy Hy1) as [[_ Hc]|[Hge Hc]]; rewrite Hc in V, Hy |- *; [lia|].
  pose proof V as (_ & HM & HD)%valid_date_spec. simpl in HM, HD.
  assert (Hl : is_leap (2000 + yy) = is_leap (1900 + yy)).
  { replace (2000 + yy) with (1900 + yy + 100) by lia. apply is_leap_add100. Z.div_mod_to_equations. lia. }
  unfold mk_date. replace (valid_date (mkDate (2000 + yy) m dd)) with true.
  2: { symmetry. apply valid_date_spec. unfold days_in_month in *. simpl. rewrite Hl. lia. }
  rewrite bind_Ok. f_equal.
  rewrite (weekday_shift (mkDate (1900 + yy) m dd) (mkDate (2000 + yy) m dd) (-36525)).
  - replace (weekday (mkDate (1900 + yy) m dd) - -36525)
      with (weekday (mkDate (1900 + yy) m dd) + 6 + 5217 * 7) by lia.
    apply Z.mod_add. lia.
  - unfold toordinal, days_before_month. simpl. rewrite Hl.
    unfold days_before_year. Z.div_mod_to_equations. lia.
Qed.

(** The pieces of an isoformat string. *)
Lemma date_str_split d :
  valid_date d = true →
  py_split "-" (date_str d) = [pct0d 4 (year d); pct0d 2 (month d); pct0d 2 (day d)] ∧
  has_char "/"%char (date_str d) = false.
Proof.
  intros V. pose proof V as (Y & M & D)%valid_date_spec. unfold days_in_month in D.
  pose proof (dim_tab_bounds (is_leap (year d)) (month d) M).
  destruct (pct0d_spec 4 (year d)) as [Vy _]; [lia|simpl; lia|].
  destruct (pct0d_spec 2 (month d)) as [Vm _]; [lia|simpl; lia|].
  destruct (pct0d_spec 2 (day d)) as [Vd _]; [lia|simpl; lia|].
  split.
  - apply (py_split_join "-" [_; _; _]); [done|].
    repeat constructor; by eapply digits_no_char.
  - unfold date_str. rewrite !has_char_app. simpl.
    rewrite !has_char_app. simpl.
    rewrite !(digits_no_char "/"%char _ _ _ eq_refl Vy), !(digits_no_char "/"%char _ _ _ eq_refl Vm),
      !(digits_no_char "/"%char _ _ _ eq_refl Vd). done.
Qed.

(** [get_weekday] on a key of the statistics dict is the weekday of the
    date the key prints. *)
Theorem get_weekday_iso d : valid_date d = true → get_weekday (date_str d) = Ok (weekday d).
Proof.
  intros V. pose proof V as (Y & M & D)%valid_date_spec. unfold days_in_month in D.
  pose proof (dim_tab_bounds (is_leap (year d)) (month d) M).
  destruct (date_str_split d V) as [Hs Hc].
  unfold get_weekday. rewrite Hc, bind_Ok, Hs.
  rewrite !py_int_pct0d by (simpl; lia). rewrite !bind_Ok.
  destruct d as [y m dd]. cbn [year month day]. by rewrite (mk_date_ok _ _ _ V).
Qed.

(** The date an isoformat key names, read the way [get_weekday] reads it
    (split at "-", [int()] each piece, [date(...)]).  Used to measure keys
    in days. *)
Definition parse_iso (s : string) : result date :=
  match py_split "-" s with
  | [ys; ms; ds] => y ← py_int ys; m ← py_int ms; d ← py_int ds; mk_date y m d
  | _ => Err ValueError
  end.

Lemma parse_iso_date_str d : valid_date d = true → parse_iso (date_str d) = Ok d.
Proof.
  intros V. pose proof V as (Y & M & D)%valid_date_spec. unfold days_in_month in D.
  pose proof (dim_tab_bounds (is_leap (year d)) (month d) M).
  destruct (date_str_split d V) as [Hs _].
  unfold parse_iso. rewrite Hs, !py_int_pct0d by (simpl; lia). rewrite !bind_Ok.
  destruct d as [y m dd]. cbn [year month day]. by rewrite (mk_date_ok _ _ _ V).
Qed.

Lemma get_weekday_range s wd : get_weekday s = Ok wd → 0 ≤ wd < 7.
Proof.
  unfold get_weekday. intros H. apply bind_eq_Ok in H as (s' & _ & H).
  destruct (py_split "-" s') as [|ys [|ms [|ds [|]]]]; try discriminate.
  inv_ok. apply weekday_range.
Qed.

(** The only exception [strptime] raises here is ValueError. *)
Lemma strptime_mdy_Err s e : strptime_mdy s = Err e → e = ValueError.
Proof.
  unfold strptime_mdy. destruct (py_split "/" s) as [|a [|b [|c [|]]]]; try (by intros [= <-]).
  destruct (month_tok a), (day_tok b), (yy_tok c); try (by intros [= <-]).
  unfold mk_date. destruct (valid_date _); by intros [= <-].
Qed.

(** The dates [strptime(s, "%m/%d/%y")] can produce lie in 1969..2068. *)
Lemma strptime_mdy_year s d :
  strptime_mdy s = Ok d → valid_date d = true ∧ 1969 ≤ year d ≤ 2068.
Proof.
  intros (ms & ds & ys & m & dd & yy & _ & _ & _ & Hy & -> & V)%strptime_mdy_inv.
  split; [done|]. apply yy_tok_facts in Hy as (Hy & _). cbn [year].
  destruct (century_cases yy Hy) as [[? ->]|[? ->]]; lia.
Qed.

(** [d + timedelta(days=1)] never overflows on such a date. *)
Lemma strptime_mdy_next_day s d :
  strptime_mdy s = Ok d →
  ∃ d', next_day d = Ok d' ∧ valid_date d' = true ∧ toordinal d' = toordinal d + 1.
Proof.
  intros H. apply strptime_mdy_year in H as [V Hy].
  pose proof (toordinal_next_day d V) as Hn. destruct (next_day d) as [d'|e].
  - exists d'. destruct Hn. auto.
  - destruct Hn as [_ ->]. simpl in Hy. lia.
Qed.

(** ** Properties *)

(** C6: For a reference string that [strptime] reads as a date of 2000..2068,
    the hand-written re-derivations agree with it: [get_weekday] gives its
    weekday, [get_monday_date] the date [weekday] days before it, and,
    unless the day is space-padded (which [%d] accepts), [api_date_format]
    gives [str()] of it, the key the guard of [write_stats] looks up. *)
Theorem rederivations_agree s d :
  strptime_mdy s = Ok d → 2000 ≤ year d →
  get_weekday s = Ok (weekday d) ∧
  get_monday_date s = sub_days (Z.to_nat (weekday d)) d ∧
  (has_char " "%char s = false → api_date_format s = Ok (date_str d)).
Proof.
  intros H Hy. split; [by apply get_weekday_ref|]. split; [by apply get_monday_date_ref|].
  intros. by apply api_date_format_ref.
Qed.

(** A key [str(d)] of the statistics dict reads back, the way
    [get_weekday] splits and parses it, as the date [d] and its weekday. *)
Theorem iso_key_roundtrip d :
  valid_date d = true →
  parse_iso (date_str d) = Ok d ∧ get_weekday (date_str d) = Ok (weekday d).
Proof. intros V. split; [by apply parse_iso_date_str|by apply get_weekday_iso]. Qed.

Lemma rederivations_agree_witness :
  strptime_mdy "3/13/24" = Ok (mkDate 2024 3 13) ∧ get_weekday "3/13/24" = Ok 2.
Proof.
  split; [reflexivity|].
  destruct (rederivations_agree "3/13/24" (mkDate 2024 3 13)) as [H _]; [reflexivity|simpl; lia|].
  rewrite H. reflexivity.
Defined.

Lemma rederivation_century_divergence_witness :
  strptime_mdy "1/15/70" = Ok (mkDate 1970 1 15) ∧ weekday (mkDate 1970 1 15) = 3 ∧
  get_weekday "1/15/70" = Ok 2.
Proof.
  split; [reflexivity|]. split; [reflexivity|].
  rewrite (rederivation_century_divergence "1/15/70" (mkDate 1970 1 15)); [reflexivity|reflexivity|simpl; lia].
Defined.

Lemma iso_key_roundtrip_witness :
  parse_iso "2024-02-29" = Ok (mkDate 2024 2 29) ∧ get_weekday "2024-02-29" = Ok 3.
Proof.
  destruct (iso_key_roundtrip (mkDate 2024 2 29)) as [H1 H2]; [reflexivity|].
  split; [exact H1|]. etransitivity; [exact H2|reflexivity].
Defined.
