(* ===== verification/Pytz.v ===== *)
(** * pytz's [localize] and the Europe/Kyiv zone

    [get_stats] (data_handling.py line 73) takes
    [pytz.timezone('Europe/Kyiv')] and (line 81) calls its [localize] on a
    naive [datetime], with the default [is_dst=False].  pytz is a library
    the code calls; this file models the two parts of it that the call
    runs, from pytz's [tzfile.py] and [tzinfo.py]:

    - the zone, a [DstTzInfo]: [_utc_transition_times] ([datetime.min],
      then every transition of the tz database's compiled file, in UTC)
      and [_transition_info] (the UTC offset, rounded to the minute, and
      the DST amount, of which [localize] only asks whether it is zero).
      [kyiv] is that table for Europe/Kyiv, transcribed from the tz
      database (release 2026b): LMT/KMT (+2:02:04, rounded to +2:02)
      until 1924, EET, Moscow time from 1930, Central European time during
      the war, Moscow time with Soviet summer time from 1981, Eastern
      European time from 1990 and the EU rule from 1996 to 2037, the end
      of the table (the file holds no transition after 2037, so later
      times stay at EET, UTC+2);
    - [DstTzInfo.localize(dt, is_dst=False)]: for [delta] in [-1 day,
      +1 day] it takes the [tzinfo] in force at [dt + delta] read as UTC
      ([bisect_right] on the transition times), normalises
      [dt.replace(tzinfo=tzinfo)] and keeps the result when its wall time
      is still [dt].  The results go into a [set], where aware datetimes
      of the same UTC instant are equal.  One result is the answer; none
      (a wall time in a spring-forward gap) makes it localize
      [dt - 6 hours] and add the 6 hours back, keeping that [tzinfo]; two
      (an autumn overlap) are filtered to the standard one, and when that
      does not decide, the one of the latest UTC instant wins.

    Times are seconds since [datetime.min] (0001-01-01 00:00:00).  The
    gap recursion is a [Fixpoint] with fuel [dt / 6 hours + 1], which is
    enough because each call needs [dt >= 1 day] and goes 6 hours back
    ([localize_go_fuel]).

    The theorems: [localize] raises only OverflowError, only on the first
    and the last day of the calendar, and returns a [tzinfo] of the table;
    on a table whose transitions are more than two days apart and whose
    offsets lie strictly between 0 and 24 hours, its two probes find every
    offset at which the wall time exists, so it returns one of them,
    standard time before summer time and then the later instant
    ([localize_refines]); in a gap it answers for 6 hours earlier
    ([localize_gap]).  [kyiv] is such a table. *)

From S2P Require Import Prelude Calendar.

Local Open Scope Z_scope.

(** ** The zone *)

(** [memorized_ttinfo(utcoffset, dst, tzname)]: the offset in seconds and
    whether the DST amount is nonzero. *)
Record ttinfo : Type := mkTTInfo { utcoffset : Z; isdst : bool }.

#[export] Instance ttinfo_eq_dec : EqDecision ttinfo.
Proof. solve_decision. Defined.

(** A [DstTzInfo]: the [tzinfo] of [datetime.min] and the transitions
    after it, each a UTC time and the [tzinfo] from then on. *)
Record dst_tzinfo : Type := mkDstTzInfo {
  tz_first : ttinfo;
  tz_transitions : list (Z * ttinfo)
}.

Definition tz_infos (tz : dst_tzinfo) : list ttinfo := tz_first tz :: (snd <$> tz_transitions tz).

Definition day_secs : Z := 86400.

(** One second past [datetime.max] (9999-12-31 23:59:59). *)
Definition max_secs : Z := toordinal (mkDate 9999 12 31) * day_secs.

(** [bisect_right] then [max(0, idx - 1)] on the sorted transition times:
    the [tzinfo] of the last transition at or before [t]. *)
Fixpoint bisect_info (cur : ttinfo) (trs : list (Z * ttinfo)) (t : Z) : ttinfo :=
  match trs with
  | [] => cur
  | (T, inf) :: trs' => if T <=? t then bisect_info inf trs' t else cur
  end.

(** [self._transition_info[max(0, bisect_right(self._utc_transition_times, t) - 1)]]. *)
Definition info_at (tz : dst_tzinfo) (t : Z) : ttinfo := bisect_info (tz_first tz) (tz_transitions tz) t.

(** ** [localize(dt, is_dst=False)] *)

(** One turn of the loop of [localize] for [delta]: the [tzinfo] at
    [dt + delta], then [tzinfo.normalize(dt.replace(tzinfo=tzinfo))],
    i.e. [fromutc(dt - offset)], whose [tzinfo] is the one in force at
    [dt - offset]; kept when its wall time is [dt]. *)
Definition probe (tz : dst_tzinfo) (dt delta : Z) : option ttinfo :=
  let inf := info_at tz (dt + delta) in
  let utc := dt - utcoffset inf in
  let inf' := info_at tz utc in
  if bool_decide (utc + utcoffset inf' = dt) then Some inf' else None.

(** [possible_loc_dt.add(loc_dt)]: a result of the same UTC instant, i.e.
    of the same offset, as one already there is not added. *)
Definition set_add (l : list ttinfo) (o : option ttinfo) : list ttinfo :=
  match o with
  | Some inf => if bool_decide (Exists (λ i, utcoffset i = utcoffset inf) l) then l else l ++ [inf]
  | None => l
  end.

(** [dates[max(dates)]] for two results: the later UTC instant
    [dt - offset], i.e. the smaller offset. *)
Definition latest (a b : ttinfo) : ttinfo := if utcoffset b <? utcoffset a then b else a.

(** [localize] with the fuel that bounds its recursion on gaps; the
    probes [dt -/+ timedelta(days=1)] raise OverflowError at the ends of
    the calendar. *)
Fixpoint localize_go (tz : dst_tzinfo) (fuel : nat) (dt : Z) : result ttinfo :=
  match fuel with
  | O => Err OverflowError
  | S fuel' =>
      if bool_decide (dt - day_secs < 0 ∨ max_secs ≤ dt + day_secs) then Err OverflowError else
      match set_add (set_add [] (probe tz dt (- day_secs))) (probe tz dt day_secs) with
      | [] => localize_go tz fuel' (dt - 6 * 3600)
      | [inf] => Ok inf
      | a :: b :: _ =>
          match filter (λ i, isdst i = false) [a; b] with
          | [inf] => Ok inf
          | _ => Ok (latest a b)
          end
      end
  end.

(** Each recursive call goes 6 hours back and needs a day before it. *)
Definition localize_fuel (dt : Z) : nat := S (Z.to_nat (dt / (6 * 3600))).

Definition localize (tz : dst_tzinfo) (dt : Z) : result ttinfo := localize_go tz (localize_fuel dt) dt.

(** ** Europe/Kyiv *)

Definition LMT : ttinfo := mkTTInfo 7320 false.
Definition KMT : ttinfo := mkTTInfo 7320 false.
Definition EET : ttinfo := mkTTInfo 7200 false.
Definition EEST : ttinfo := mkTTInfo 10800 true.
Definition MSK : ttinfo := mkTTInfo 10800 false.
Definition MSD : ttinfo := mkTTInfo 14400 true.
Definition CET : ttinfo := mkTTInfo 3600 false.
Definition CEST : ttinfo := mkTTInfo 7200 true.

(** A UTC time of the table as seconds since [datetime.min]. *)
Definition utc_secs (y m d h mi s : Z) : Z :=
  (toordinal (mkDate y m d) - 1) * day_secs + h * 3600 + mi * 60 + s.

Definition transition (row : Z * Z * Z * Z * Z * Z * ttinfo) : Z * ttinfo :=
  let '(y, m, d, h, mi, s, inf) := row in (utc_secs y m d h mi s, inf).

(** The transitions of Europe/Kyiv in UTC. *)
Definition kyiv_rows : list (Z * Z * Z * Z * Z * Z * ttinfo) :=
  [(1879, 12, 31, 21, 57, 56, KMT);
   (1924, 5, 1, 21, 57, 56, EET); (1930, 6, 20, 22, 0, 0, MSK); (1941, 9, 19, 21, 0, 0, CEST);
   (1942, 11, 2, 1, 0, 0, CET); (1943, 3, 29, 1, 0, 0, CEST); (1943, 10, 4, 1, 0, 0, CET);
   (1943, 11, 5, 23, 0, 0, MSK); (1981, 3, 31, 21, 0, 0, MSD); (1981, 9, 30, 20, 0, 0, MSK);
   (1982, 3, 31, 21, 0, 0, MSD); (1982, 9, 30, 20, 0, 0, MSK); (1983, 3, 31, 21, 0, 0, MSD);
   (1983, 9, 30, 20, 0, 0, MSK); (1984, 3, 31, 21, 0, 0, MSD); (1984, 9, 29, 23, 0, 0, MSK);
   (1985, 3, 30, 23, 0, 0, MSD); (1985, 9, 28, 23, 0, 0, MSK); (1986, 3, 29, 23, 0, 0, MSD);
   (1986, 9, 27, 23, 0, 0, MSK); (1987, 3, 28, 23, 0, 0, MSD); (1987, 9, 26, 23, 0, 0, MSK);
   (1988, 3, 26, 23, 0, 0, MSD); (1988, 9, 24, 23, 0, 0, MSK); (1989, 3, 25, 23, 0, 0, MSD);
   (1989, 9, 23, 23, 0, 0, MSK); (1990, 3, 24, 23, 0, 0, MSD); (1990, 6, 30, 22, 0, 0, EEST);
   (1991, 9, 29, 0, 0, 0, EET); (1992, 3, 29, 0, 0, 0, EEST); (1992, 9, 27, 0, 0, 0, EET);
   (1993, 3, 28, 0, 0, 0, EEST); (1993, 9, 26, 0, 0, 0, EET); (1994, 3, 27, 0, 0, 0, EEST);
   (1994, 9, 25, 0, 0, 0, EET); (1995, 3, 26, 0, 0, 0, EEST); (1995, 9, 24, 0, 0, 0, EET);
   (1996, 3, 31, 0, 0, 0, EEST); (1996, 10, 27, 1, 0, 0, EET); (1997, 3, 30, 1, 0, 0, EEST);
   (1997, 10, 26, 1, 0, 0, EET); (1998, 3, 29, 1, 0, 0, EEST); (1998, 10, 25, 1, 0, 0, EET);
   (1999, 3, 28, 1, 0, 0, EEST); (1999, 10, 31, 1, 0, 0, EET); (2000, 3, 26, 1, 0, 0, EEST);
   (2000, 10, 29, 1, 0, 0, EET); (2001, 3, 25, 1, 0, 0, EEST); (2001, 10, 28, 1, 0, 0, EET);
   (2002, 3, 31, 1, 0, 0, EEST); (2002, 10, 27, 1, 0, 0, EET); (2003, 3, 30, 1, 0, 0, EEST);
   (2003, 10, 26, 1, 0, 0, EET); (2004, 3, 28, 1, 0, 0, EEST); (2004, 10, 31, 1, 0, 0, EET);
   (2005, 3, 27, 1, 0, 0, EEST); (2005, 10, 30, 1, 0, 0, EET); (2006, 3, 26, 1, 0, 0, EEST);
   (2006, 10, 29, 1, 0, 0, EET); (2007, 3, 25, 1, 0, 0, EEST); (2007, 10, 28, 1, 0, 0, EET);
   (2008, 3, 30, 1, 0, 0, EEST); (2008, 10, 26, 1, 0, 0, EET); (2009, 3, 29, 1, 0, 0, EEST);
   (2009, 10, 25, 1, 0, 0, EET); (2010, 3, 28, 1, 0, 0, EEST); (2010, 10, 31, 1, 0, 0, EET);
   (2011, 3, 27, 1, 0, 0, EEST); (2011, 10, 30, 1, 0, 0, EET); (2012, 3, 25, 1, 0, 0, EEST);
   (2012, 10, 28, 1, 0, 0, EET); (2013, 3, 31, 1, 0, 0, EEST); (2013, 10, 27, 1, 0, 0, EET);
   (2014, 3, 30, 1, 0, 0, EEST); (2014, 10, 26, 1, 0, 0, EET); (2015, 3, 29, 1, 0, 0, EEST);
   (2015, 10, 25, 1, 0, 0, EET); (2016, 3, 27, 1, 0, 0, EEST); (2016, 10, 30, 1, 0, 0, EET);
   (2017, 3, 26, 1, 0, 0, EEST); (2017, 10, 29, 1, 0, 0, EET); (2018, 3, 25, 1, 0, 0, EEST);
   (2018, 10, 28, 1, 0, 0, EET); (2019, 3, 31, 1, 0, 0, EEST); (2019, 10, 27, 1, 0, 0, EET);
   (2020, 3, 29, 1, 0, 0, EEST); (2020, 10, 25, 1, 0, 0, EET); (2021, 3, 28, 1, 0, 0, EEST);
   (2021, 10, 31, 1, 0, 0, EET); (2022, 3, 27, 1, 0, 0, EEST); (2022, 10, 30, 1, 0, 0, EET);
   (2023, 3, 26, 1, 0, 0, EEST); (2023, 10, 29, 1, 0, 0, EET); (2024, 3, 31, 1, 0, 0, EEST);
   (2024, 10, 27, 1, 0, 0, EET); (2025, 3, 30, 1, 0, 0, EEST); (2025, 10, 26, 1, 0, 0, EET);
   (2026, 3, 29, 1, 0, 0, EEST); (2026, 10, 25, 1, 0, 0, EET); (2027, 3, 28, 1, 0, 0, EEST);
   (2027, 10, 31, 1, 0, 0, EET); (2028, 3, 26, 1, 0, 0, EEST); (2028, 10, 29, 1, 0, 0, EET);
   (2029, 3, 25, 1, 0, 0, EEST); (2029, 10, 28, 1, 0, 0, EET); (2030, 3, 31, 1, 0, 0, EEST);
   (2030, 10, 27, 1, 0, 0, EET); (2031, 3, 30, 1, 0, 0, EEST); (2031, 10, 26, 1, 0, 0, EET);
   (2032, 3, 28, 1, 0, 0, EEST); (2032, 10, 31, 1, 0, 0, EET); (2033, 3, 27, 1, 0, 0, EEST);
   (2033, 10, 30, 1, 0, 0, EET); (2034, 3, 26, 1, 0, 0, EEST); (2034, 10, 29, 1, 0, 0, EET);
   (2035, 3, 25, 1, 0, 0, EEST); (2035, 10, 28, 1, 0, 0, EET); (2036, 3, 30, 1, 0, 0, EEST);
   (2036, 10, 26, 1, 0, 0, EET); (2037, 3, 29, 1, 0, 0, EEST); (2037, 10, 25, 1, 0, 0, EET)].

(** [pytz.timezone('Europe/Kyiv')]. *)
Definition kyiv : dst_tzinfo := mkDstTzInfo LMT (transition <$> kyiv_rows).

(** The offset [localize] gives a local wall time of Kyiv, [y-m-d h:mi:00]. *)
Definition kyiv_offset_at (y m d h mi : Z) : result Z :=
  utcoffset <$> localize kyiv (utc_secs y m d h mi 0).

Example kyiv_ex :
  kyiv_offset_at 2024 1 15 12 0 = Ok 7200 ∧ kyiv_offset_at 2024 7 1 12 0 = Ok 10800 ∧
  kyiv_offset_at 2024 3 31 3 30 = Ok 7200 ∧ kyiv_offset_at 2024 3 31 4 0 = Ok 10800 ∧
  kyiv_offset_at 2024 10 27 3 30 = Ok 7200 ∧ kyiv_offset_at 2024 10 27 2 59 = Ok 10800 ∧
  kyiv_offset_at 1975 6 1 12 0 = Ok 10800 ∧ kyiv_offset_at 1985 7 1 12 0 = Ok 14400 ∧
  kyiv_offset_at 1996 7 1 12 0 = Ok 10800 ∧ kyiv_offset_at 1943 1 1 12 0 = Ok 3600 ∧
  kyiv_offset_at 1900 1 1 12 0 = Ok 7320 ∧ kyiv_offset_at 2050 7 1 12 0 = Ok 7200 ∧
  kyiv_offset_at 1 1 1 12 0 = Err OverflowError ∧ kyiv_offset_at 9999 12 31 0 0 = Err OverflowError.
Proof. vm_compute. repeat split. Qed.

(** ** The table lookup *)

Lemma bisect_info_in cur trs t : bisect_info cur trs t ∈ cur :: (snd <$> trs).
Proof.
  revert cur. induction trs as [|[T inf] trs IH]; intros cur; simpl; [by left|].
  destruct (T <=? t); [|by left]. specialize (IH inf). set_solver.
Qed.

Lemma info_at_in tz t : info_at tz t ∈ tz_infos tz.
Proof. apply bisect_info_in. Qed.

(** With no transition in [(a, b]], the lookup is the same all over [[a, b]]. *)
Lemma bisect_info_const cur trs a b t :
  (∀ T inf, (T, inf) ∈ trs → ¬ (a < T ≤ b)) → a ≤ t ≤ b →
  bisect_info cur trs t = bisect_info cur trs a.
Proof.
  revert cur. induction trs as [|[T inf] trs IH]; intros cur Hn Ht; simpl; [done|].
  assert (HT : ¬ (a < T ≤ b)) by (apply (Hn T inf); left).
  destruct (Z.leb_spec T t), (Z.leb_spec T a); try lia; [|done].
  apply IH; [|done]. intros T' inf' H'. apply (Hn T' inf'). by right.
Qed.

Lemma info_at_const tz a b t :
  (∀ T inf, (T, inf) ∈ tz_transitions tz → ¬ (a < T ≤ b)) → a ≤ t ≤ b →
  info_at tz t = info_at tz a.
Proof. apply bisect_info_const. Qed.

(** Before every transition the zone is at its first [tzinfo]. *)
Lemma info_at_before tz t :
  (∀ T inf, (T, inf) ∈ tz_transitions tz → t < T) → info_at tz t = tz_first tz.
Proof.
  unfold info_at. destruct (tz_transitions tz) as [|[T inf] trs] eqn:E; intros H; simpl; [done|].
  assert (t < T) by (apply (H T inf); left). by destruct (Z.leb_spec T t); [lia|].
Qed.

(** ** What the probes and the set hold *)

(** The wall time [dt] exists at [i]: read with [i]'s offset it is an
    instant at which the zone is at [i]. *)
Definition exists_at (tz : dst_tzinfo) (dt : Z) (i : ttinfo) : Prop := info_at tz (dt - utcoffset i) = i.

Lemma probe_exists tz dt delta i : probe tz dt delta = Some i → exists_at tz dt i ∧ i ∈ tz_infos tz.
Proof.
  unfold probe, exists_at. case_bool_decide as E; intros [= <-]. split; [|apply info_at_in].
  by replace (dt - utcoffset _) with (dt - utcoffset (info_at tz (dt + delta))) by lia.
Qed.

Lemma set_add_elem l o x : x ∈ set_add l o → x ∈ l ∨ o = Some x.
Proof.
  unfold set_add. destruct o as [inf|]; [|by left].
  case_bool_decide; [by left|]. rewrite elem_of_app, list_elem_of_singleton. naive_solver.
Qed.

(** Every result of the two probes exists at [dt] and is a [tzinfo] of the zone. *)
Lemma possible_exists tz dt x :
  x ∈ set_add (set_add [] (probe tz dt (- day_secs))) (probe tz dt day_secs) →
  exists_at tz dt x ∧ x ∈ tz_infos tz.
Proof.
  intros [[Hx|Hx]%set_add_elem|Hx]%set_add_elem; [set_solver|by apply probe_exists in Hx..].
Qed.

(** ** Termination of the gap recursion *)

Lemma localize_fuel_step dt : day_secs ≤ dt → localize_fuel (dt - 6 * 3600) = pred (localize_fuel dt).
Proof.
  unfold localize_fuel, day_secs. intros Hd. simpl pred.
  replace (dt - 6 * 3600) with (dt + (-1) * (6 * 3600)) by lia. rewrite Z.div_add by lia.
  assert (1 ≤ dt / (6 * 3600)) by (apply Z.div_le_lower_bound; lia). lia.
Qed.

Lemma localize_go_fuel_eq tz n m dt :
  (localize_fuel dt ≤ n)%nat → (localize_fuel dt ≤ m)%nat → localize_go tz n dt = localize_go tz m dt.
Proof.
  revert m dt. induction n as [|n IH]; intros [|m] dt Hn Hm; try (unfold localize_fuel in *; lia).
  simpl. case_bool_decide as G; [done|].
  destruct (set_add _ _) as [|a [|b l]]; [|done..].
  assert (Hs := localize_fuel_step dt ltac:(lia)).
  apply IH; rewrite Hs; unfold localize_fuel in *; lia.
Qed.

Lemma localize_go_fuel tz n dt : (localize_fuel dt ≤ n)%nat → localize_go tz n dt = localize tz dt.
Proof. intros Hn. by apply localize_go_fuel_eq. Qed.

(** One turn of [localize] inside the calendar. *)
Lemma localize_unfold tz dt :
  day_secs ≤ dt → dt + day_secs < max_secs →
  localize tz dt =
    match set_add (set_add [] (probe tz dt (- day_secs))) (probe tz dt day_secs) with
    | [] => localize tz (dt - 6 * 3600)
    | [inf] => Ok inf
    | a :: b :: _ =>
        match filter (λ i, isdst i = false) [a; b] with
        | [inf] => Ok inf
        | _ => Ok (latest a b)
        end
    end.
Proof.
  intros H1 H2. unfold localize at 1. unfold localize_fuel. simpl.
  rewrite bool_decide_false by lia.
  destruct (set_add _ _) as [|a [|b l]]; [|done..].
  apply localize_go_fuel. rewrite localize_fuel_step by lia. unfold localize_fuel. lia.
Qed.

(** [localize] raises OverflowError and nothing else. *)
Lemma localize_go_Err tz n dt e : localize_go tz n dt = Err e → e = OverflowError.
Proof.
  revert dt. induction n as [|n IH]; intros dt; simpl; [congruence|].
  case_bool_decide; [congruence|]. destruct (set_add _ _) as [|a [|b l]]; [apply IH|..].
  all: intros He; repeat case_match; congruence.
Qed.

(** ** [localize] inside the calendar *)

Section Calendar.
Context (tz : dst_tzinfo).
(** Every offset of the zone is more than zero and less than a day... *)
Hypothesis H_offsets : ∀ i, i ∈ tz_infos tz → 0 < utcoffset i < day_secs.
(** ... and nothing happens in the first three days of the calendar. *)
Hypothesis H_late : ∀ T inf, (T, inf) ∈ tz_transitions tz → 3 * day_secs ≤ T.

(** Two days into the calendar, a wall time exists at the first [tzinfo]
    and nowhere else, so the probes find it. *)
Lemma probes_early dt :
  dt < 2 * day_secs →
  set_add (set_add [] (probe tz dt (- day_secs))) (probe tz dt day_secs) ≠ [].
Proof.
  intros Hd. assert (Hf := H_offsets (tz_first tz) ltac:(left)).
  assert (Hb : ∀ t, t < 3 * day_secs → info_at tz t = tz_first tz).
  { intros t Ht. apply info_at_before. intros T inf HT. specialize (H_late T inf HT). lia. }
  assert (Hp : probe tz dt (- day_secs) = Some (tz_first tz)).
  { unfold probe. rewrite (Hb (dt + - day_secs)) by lia.
    rewrite (Hb (dt - utcoffset (tz_first tz))) by lia. rewrite bool_decide_true by lia. done. }
  rewrite Hp. simpl. destruct (probe tz dt day_secs); simpl; [|done].
  case_bool_decide; [done|]. by destruct ([tz_first tz] ++ [t]).
Qed.

(** Between the first and the last day [localize] returns a [tzinfo] of the zone. *)
Lemma localize_ok dt :
  day_secs ≤ dt → dt + day_secs < max_secs → ∃ i, localize tz dt = Ok i ∧ i ∈ tz_infos tz.
Proof.
  unfold localize. generalize (le_n (localize_fuel dt)).
  generalize (localize_fuel dt) at -1 as n. intros n. revert dt.
  induction n as [|n IH]; intros dt Hn H1 H2; [unfold localize_fuel in Hn; lia|].
  simpl. rewrite bool_decide_false by lia.
  destruct (set_add _ _) as [|a [|b l]] eqn:E.
  - destruct (Z.lt_ge_cases dt (2 * day_secs)); [by destruct (probes_early dt)|].
    apply IH; [rewrite localize_fuel_step by lia; lia|unfold day_secs in *; lia..].
  - exists a. split; [done|]. apply (possible_exists tz dt). rewrite E. by left.
  - assert (Ha : a ∈ tz_infos tz) by (apply (possible_exists tz dt); rewrite E; by left).
    assert (Hb : b ∈ tz_infos tz) by (apply (possible_exists tz dt); rewrite E; set_solver).
    assert (Hl : latest a b ∈ tz_infos tz) by (unfold latest; by case_match).
    destruct (filter _ [a; b]) as [|x [|y l']] eqn:F; [eauto| |eauto].
    exists x. split; [done|].
    assert (Hx : x ∈ filter (λ i, isdst i = false) [a; b]) by (rewrite F; set_solver).
    apply list_elem_of_filter in Hx as [_ Hx]. set_solver.
Qed.

End Calendar.

(** ** The probes find every offset at which the wall time exists *)

(** [r] is the answer [is_dst=False] prefers to [i]: the same offset,
    standard time before summer time, or the later instant. *)
Definition preferred (r i : ttinfo) : Prop :=
  utcoffset i = utcoffset r ∨ (isdst i = true ∧ isdst r = false) ∨
  (isdst i = isdst r ∧ utcoffset r < utcoffset i).

Lemma StronglySorted_pair {A} (R : relation A) l x y :
  StronglySorted R l → x ∈ l → y ∈ l → x = y ∨ R x y ∨ R y x.
Proof.
  induction l as [|a l IH]; intros Hs; [set_solver|].
  apply StronglySorted_cons in Hs as [Ha Hs]. rewrite Forall_forall in Ha.
  rewrite !elem_of_cons. intros [->|Hx] [->|Hy]; auto.
Qed.

Lemma set_add_single a b :
  set_add [a] (Some b) = if bool_decide (utcoffset a = utcoffset b) then [a] else [a; b].
Proof.
  unfold set_add. rewrite (bool_decide_ext _ (utcoffset a = utcoffset b)); [done|].
  rewrite Exists_cons, Exists_nil. naive_solver.
Qed.

(** Two results of different offsets: what the filter and [dates[max(dates)]] choose. *)
Lemma overlap_choice a b :
  utcoffset a ≠ utcoffset b →
  ∃ r, match filter (λ i, isdst i = false) [a; b] with [inf] => Ok inf | _ => Ok (latest a b) end = Ok r ∧
       (r = a ∨ r = b) ∧ preferred r a ∧ preferred r b.
Proof.
  intros Hab. unfold preferred, latest. rewrite !filter_cons, filter_nil.
  destruct (isdst a) eqn:Ea, (isdst b) eqn:Eb; repeat case_decide; try congruence;
    try destruct (Z.ltb_spec (utcoffset b) (utcoffset a));
    eexists; (split; [done|]); split_and!; rewrite ?Ea, ?Eb; auto with lia.
Qed.

Section Refinement.
Context (tz : dst_tzinfo).
Hypothesis H_offsets : ∀ i, i ∈ tz_infos tz → 0 < utcoffset i < day_secs.
(** Transitions are more than two days apart. *)
Hypothesis H_spaced : StronglySorted (λ a b, a + 2 * day_secs < b) (fst <$> tz_transitions tz).

Lemma exists_at_window dt i : exists_at tz dt i → 0 < utcoffset i < day_secs.
Proof. intros E. apply H_offsets. rewrite <- E. apply info_at_in. Qed.

(** At most one transition lies in the two days around [dt]. *)
Lemma window_unique dt T1 i1 T2 i2 :
  (T1, i1) ∈ tz_transitions tz → (T2, i2) ∈ tz_transitions tz →
  dt - day_secs < T1 ≤ dt + day_secs → dt - day_secs < T2 ≤ dt + day_secs → T1 = T2.
Proof.
  intros E1 E2 W1 W2.
  assert (M1 : T1 ∈ fst <$> tz_transitions tz) by (apply (list_elem_of_fmap_2 fst _ (T1, i1)), E1).
  assert (M2 : T2 ∈ fst <$> tz_transitions tz) by (apply (list_elem_of_fmap_2 fst _ (T2, i2)), E2).
  destruct (StronglySorted_pair _ _ _ _ H_spaced M1 M2) as [|[|]]; unfold day_secs in *; lia.
Qed.

Lemma set_add_nil o : set_add [] o = match o with Some x => [x] | None => [] end.
Proof. by destruct o. Qed.

(** Without a transition in the two days around [dt], both probes find the
    one [tzinfo] of that stretch. *)
Lemma probes_const dt A :
  (∀ t, dt - day_secs ≤ t ≤ dt + day_secs → info_at tz t = A) → 0 < utcoffset A < day_secs →
  set_add (set_add [] (probe tz dt (- day_secs))) (probe tz dt day_secs) = [A].
Proof.
  intros HA Ho.
  assert (Hp : ∀ d, - day_secs ≤ d ≤ day_secs → probe tz dt d = Some A).
  { intros d Hd. unfold probe. rewrite (HA (dt + d)), (HA (dt - utcoffset A)) by lia.
    by rewrite bool_decide_true by lia. }
  rewrite !Hp by (unfold day_secs; lia). rewrite set_add_nil, set_add_single.
  by rewrite bool_decide_true.
Qed.

Section Window.
(** The one transition [T] of the two days around [dt], from [A] to [B]. *)
Context (dt T : Z) (A B : ttinfo).
Hypothesis HA : ∀ t, dt - day_secs ≤ t < T → info_at tz t = A.
Hypothesis HB : ∀ t, T ≤ t ≤ dt + day_secs → info_at tz t = B.
Hypothesis HT : dt - day_secs < T ≤ dt + day_secs.
Hypothesis HoA : 0 < utcoffset A < day_secs.
Hypothesis HoB : 0 < utcoffset B < day_secs.

Lemma probe_lo :
  probe tz dt (- day_secs) =
    if bool_decide (dt - utcoffset A < T) then Some A
    else if bool_decide (utcoffset A = utcoffset B) then Some B else None.
Proof.
  unfold probe. rewrite (HA (dt + - day_secs)) by lia.
  destruct (decide (dt - utcoffset A < T)).
  - rewrite (bool_decide_true (_ < T)), HA by lia. by rewrite bool_decide_true by lia.
  - rewrite (bool_decide_false (_ < T)), HB by lia.
    by destruct (decide (utcoffset A = utcoffset B));
      [rewrite !bool_decide_true by lia|rewrite !bool_decide_false by lia].
Qed.

Lemma probe_hi :
  probe tz dt day_secs =
    if bool_decide (T ≤ dt - utcoffset B) then Some B
    else if bool_decide (utcoffset A = utcoffset B) then Some A else None.
Proof.
  unfold probe. rewrite (HB (dt + day_secs)) by lia.
  destruct (decide (T ≤ dt - utcoffset B)).
  - rewrite (bool_decide_true (T ≤ _)), HB by lia. by rewrite bool_decide_true by lia.
  - rewrite (bool_decide_false (T ≤ _)), HA by lia.
    by destruct (decide (utcoffset A = utcoffset B));
      [rewrite !bool_decide_true by lia|rewrite !bool_decide_false by lia].
Qed.

Lemma exists_split i :
  exists_at tz dt i → (i = A ∧ dt - utcoffset A < T) ∨ (i = B ∧ T ≤ dt - utcoffset B).
Proof.
  intros E. pose proof (exists_at_window dt i E) as Hi. unfold exists_at in E.
  destruct (Z.lt_ge_cases (dt - utcoffset i) T).
  - rewrite HA in E by lia. subst. by left.
  - rewrite HB in E by lia. subst. by right.
Qed.

Lemma exists_A : dt - utcoffset A < T → exists_at tz dt A.
Proof. intros. unfold exists_at. apply HA. lia. Qed.

Lemma exists_B : T ≤ dt - utcoffset B → exists_at tz dt B.
Proof. intros. unfold exists_at. apply HB. lia. Qed.

Lemma preferred_refl r : preferred r r.
Proof. by left. Qed.

Lemma localize_window :
  day_secs ≤ dt → dt + day_secs < max_secs → (∃ i, exists_at tz dt i) →
  ∃ r, localize tz dt = Ok r ∧ exists_at tz dt r ∧ ∀ i, exists_at tz dt i → preferred r i.
Proof.
  intros H1 H2 [i0 Hi0]. rewrite localize_unfold, probe_lo, probe_hi by done.
  pose proof (exists_split i0 Hi0) as Hs0.
  destruct (decide (dt - utcoffset A < T)), (decide (T ≤ dt - utcoffset B)),
    (decide (utcoffset A = utcoffset B)); try (exfalso; lia);
    repeat (case_bool_decide; try (exfalso; lia)); rewrite ?set_add_nil, ?set_add_single;
    cbn [set_add]; repeat (case_bool_decide; try (exfalso; lia)).
  - destruct (overlap_choice A B) as (r & -> & Hr & HrA & HrB); [done|].
    exists r. split; [done|]. split; [destruct Hr as [->| ->]; auto using exists_A, exists_B|].
    intros i [[-> _]|[-> _]]%exists_split; done.
  - exists A. split_and!; auto using exists_A. intros i [[-> _]|[-> ?]]%exists_split; [by left|lia].
  - exists A. split_and!; auto using exists_A. intros i [[-> _]|[-> ?]]%exists_split; [by left|lia].
  - exists B. split_and!; auto using exists_B. intros i [[-> ?]|[-> _]]%exists_split; [lia|by left].
  - exists B. split_and!; auto using exists_B. intros i [[-> ?]|[-> _]]%exists_split; [lia|by left].
Qed.

End Window.

(** pytz's [localize] refines the contract [is_dst=False] promises: when
    the wall time exists at some offset, the answer is one at which it
    exists, and the preferred one among them. *)
Lemma localize_refines dt :
  day_secs ≤ dt → dt + day_secs < max_secs → (∃ i, exists_at tz dt i) →
  ∃ r, localize tz dt = Ok r ∧ exists_at tz dt r ∧ ∀ i, exists_at tz dt i → preferred r i.
Proof.
  intros H1 H2 Hex.
  assert (Hoff : ∀ t, 0 < utcoffset (info_at tz t) < day_secs) by (intros t; apply H_offsets, info_at_in).
  destruct (decide (Exists (λ e, dt - day_secs < e.1 ≤ dt + day_secs) (tz_transitions tz)))
    as [HT|HnT].
  - apply Exists_exists in HT as ([T iT] & HTin & HTw). simpl in HTw.
    apply (localize_window dt T (info_at tz (dt - day_secs)) (info_at tz (dt + day_secs))); auto.
    + intros t Ht. apply (info_at_const tz _ t); [|lia]. intros T' i' HT' W'.
      pose proof (window_unique dt T' i' T iT HT' HTin ltac:(lia) HTw). lia.
    + intros t Ht. symmetry. apply (info_at_const tz _ (dt + day_secs)); [|lia]. intros T' i' HT' W'.
      pose proof (window_unique dt T' i' T iT HT' HTin ltac:(lia) HTw). lia.
  - assert (Hc : ∀ t, dt - day_secs ≤ t ≤ dt + day_secs → info_at tz t = info_at tz (dt - day_secs)).
    { intros t Ht. apply (info_at_const tz _ (dt + day_secs)); [|lia]. intros T' i' HT' W'. apply HnT, Exists_exists.
      by exists (T', i'). }
    exists (info_at tz (dt - day_secs)).
    rewrite localize_unfold, (probes_const dt (info_at tz (dt - day_secs))) by auto.
    split; [done|]. split.
    + unfold exists_at. apply Hc. specialize (Hoff (dt - day_secs)). lia.
    + intros i Hi. pose proof (exists_at_window dt i Hi). unfold exists_at in Hi.
      rewrite Hc in Hi by lia. subst. apply preferred_refl.
Qed.

End Refinement.

(** In a gap, [localize] answers for the wall time 6 hours earlier. *)
Lemma localize_gap tz dt :
  day_secs ≤ dt → dt + day_secs < max_secs → (∀ i, ¬ exists_at tz dt i) →
  localize tz dt = localize tz (dt - 6 * 3600).
Proof.
  intros H1 H2 Hn. rewrite localize_unfold by done.
  destruct (set_add _ _) as [|a l] eqn:E; [done|].
  exfalso. apply (Hn a), (possible_exists tz dt). rewrite E. by left.
Qed.

(** ** Europe/Kyiv is such a zone *)

Fixpoint spaced (gap : Z) (l : list Z) : bool :=
  match l with
  | x :: (y :: _) as l' => (x + gap <? y) && spaced gap l'
  | _ => true
  end.

Lemma spaced_sorted gap l : 0 ≤ gap → spaced gap l = true → StronglySorted (λ a b, a + gap < b) l.
Proof.
  intros Hg Hs. apply Sorted_StronglySorted; [intros x y z; lia|].
  induction l as [|x [|y l] IH]; simpl in *; constructor; auto.
  - apply andb_true_iff in Hs as [_ Hs]. auto.
  - apply andb_true_iff in Hs as [Hxy _]. constructor. lia.
Qed.

Lemma kyiv_offsets i : i ∈ tz_infos kyiv → 3600 ≤ utcoffset i ≤ 14400.
Proof.
  assert (H : forallb (λ i, (3600 <=? utcoffset i) && (utcoffset i <=? 14400)) (tz_infos kyiv) = true)
    by (vm_compute; reflexivity).
  rewrite forallb_forall in H. intros Hi%list_elem_of_In. apply H in Hi. lia.
Qed.

Lemma kyiv_spaced : StronglySorted (λ a b, a + 2 * day_secs < b) (fst <$> tz_transitions kyiv).
Proof. apply spaced_sorted; [done|]. vm_compute. reflexivity. Qed.

Lemma kyiv_late T inf : (T, inf) ∈ tz_transitions kyiv → 3 * day_secs ≤ T.
Proof.
  assert (H : forallb (λ e, 3 * day_secs <=? e.1) (tz_transitions kyiv) = true)
    by (vm_compute; reflexivity).
  rewrite forallb_forall in H. intros Hi%list_elem_of_In. apply H in Hi. simpl in Hi. lia.
Qed.

Lemma kyiv_offsets_day i : i ∈ tz_infos kyiv → 0 < utcoffset i < day_secs.
Proof. intros Hi%kyiv_offsets. unfold day_secs. lia. Qed.
