(* ===== verification/Timezone.v ===== *)
(** * The timestamps of the hourly records and the day they are counted on

    [get_stats] (data_handling.py lines 80-83) reads every record's
    ["time"] with [datetime.strptime(time_str, '%Y-%m-%d %H:%M:%S')]
    ([strptime_ts]), attaches Europe/Kyiv with pytz's
    [localize] (default [is_dst=False]; [kyiv_localize]), converts with
    [astimezone] to [Etc/GMT+3], i.e. UTC-3, and keeps the [.date()]
    ([gmt_minus_3_date]).

    [strptime_ts] follows CPython's [_strptime]: the format becomes a regex
    whose space is [\s+] and whose fields have the alternatives of
    [_strptime]'s table ([year4], [field2], [day_field]); the match must
    cover the whole string.  Seconds 60 and 61 pass the regex and are
    rejected by the [datetime] constructor.

    pytz is a library the code calls; [Pytz] models its [localize] and
    the Europe/Kyiv table, and [kyiv_localize] is the call of line 81:
    the UTC offset of the [tzinfo] it attaches to the wall time.  The
    conversion to Etc/GMT+3 moves the wall time back by that offset plus
    three hours; since every offset of the zone lies between one and four
    hours, the result is on the same day or the day before.

    The theorems: the record is counted on its local date, or on the day
    before exactly when its time of day is below the offset plus three
    hours (5 hours in winter and 6 in summer since 1991, 6 and 7 under
    Moscow time); localize raises OverflowError exactly on the first and
    the last day of the calendar ([bucket_date_spec]); and the offset it
    attaches is one at which the wall time exists, the standard one when
    the hour repeats ([kyiv_localize_refines]).  The variable
    [time_gmt_plus_3] of the code is UTC+2 in winter. *)

From S2P Require Import Prelude PyStr Calendar RefDate Pytz.
From Stdlib Require Import Ascii.

Local Open Scope Z_scope.

(** A naive [datetime]: a date and a wall-clock time. *)
Record datetime : Type := mkDateTime { dt_date : date; hour : Z; minute : Z; second : Z }.

#[export] Instance datetime_eq_dec : EqDecision datetime.
Proof. solve_decision. Defined.

(** ** [datetime.strptime(s, '%Y-%m-%d %H:%M:%S')] *)

(** CPython compiles the format to the regex
    [(?P<Y>\d\d\d\d)-(?P<m>1[0-2]|0[1-9]|[1-9])-(?P<d>3[01]|[12]\d|0[1-9]|[1-9]| [1-9])\s+(?P<H>2[0-3]|[0-1]\d|\d):(?P<M>[0-5]\d|\d):(?P<S>6[0-1]|[0-5]\d|\d)]
    (the format's space becomes [\s+]), matches it at the start of the
    string and raises ValueError unless the match covers the whole string.
    Each field below reads the alternative the regex engine picks: a
    two-digit alternative when one matches, else a one-digit one; the
    engine never has to come back to a field, because what follows a
    field (a separator, whitespace or the end) never starts with a digit.
    A field returns its value and the rest of the string. *)

(** [\d\d\d\d]. *)
Definition year4 (s : string) : option (Z * string) :=
  match s with
  | String a (String b (String c (String d r))) =>
      da ← char_digit a; db ← char_digit b; dc ← char_digit c; dd ← char_digit d;
      Some (1000 * da + 100 * db + 10 * dc + dd, r)
  | _ => None
  end.

(** A field whose alternatives are the two-digit values [lo..max] and then
    the one-digit values [lo..9]: [%m] is [field2 1 12], [%H] [field2 0 23],
    [%M] [field2 0 59], [%S] [field2 0 61]. *)
Definition field2 (lo max : Z) (s : string) : option (Z * string) :=
  let one := match s with
             | String a r => da ← char_digit a; if lo <=? da then Some (da, r) else None
             | EmptyString => None
             end in
  match s with
  | String a (String b r) =>
      match char_digit a, char_digit b with
      | Some da, Some db =>
          if (lo <=? 10 * da + db) && (10 * da + db <=? max) then Some (10 * da + db, r) else one
      | _, _ => one
      end
  | _ => one
  end.

(** [%d]: the two-digit days, the one-digit days, then [" [1-9]"]. *)
Definition day_field (s : string) : option (Z * string) :=
  match field2 1 31 s with
  | Some x => Some x
  | None =>
      match s with
      | String c (String b r) =>
          if Ascii.eqb c " "%char
          then db ← char_digit b; if 1 <=? db then Some (db, r) else None
          else None
      | _ => None
      end
  end.

(** A literal character of the format. *)
Definition lit (c : ascii) (s : string) : option string :=
  match s with
  | String c' r => if Ascii.eqb c c' then Some r else None
  | EmptyString => None
  end.

Fixpoint skip_spaces (s : string) : string :=
  match s with
  | String c r => if is_py_space c then skip_spaces r else s
  | EmptyString => s
  end.

(** [\s+]: at least one whitespace character, and all that follow. *)
Definition spaces1 (s : string) : option string :=
  match s with
  | String c r => if is_py_space c then Some (skip_spaces r) else None
  | EmptyString => None
  end.

(** The match of the regex: the six fields and the unmatched rest. *)
Definition ts_match (s : string) : option (Z * Z * Z * Z * Z * Z * string) :=
  '(y, r) ← year4 s; r ← lit "-"%char r; '(m, r) ← field2 1 12 r; r ← lit "-"%char r;
  '(d, r) ← day_field r; r ← spaces1 r; '(h, r) ← field2 0 23 r; r ← lit ":"%char r;
  '(mi, r) ← field2 0 59 r; r ← lit ":"%char r; '(sec, r) ← field2 0 61 r;
  Some (y, m, d, h, mi, sec, r).

(** The parse: no match or unconverted data is a ValueError, then
    [datetime(y, m, d, H, M, S)] checks the date and [second <= 59]. *)
Definition strptime_ts (s : string) : result datetime :=
  match ts_match s with
  | Some (y, m, d, h, mi, sec, EmptyString) =>
      dt ← mk_date y m d;
      if sec <=? 59 then Ok (mkDateTime dt h mi sec) else Err ValueError
  | _ => Err ValueError
  end.

(** The form the API writes: [str(datetime)], ["%04d-%02d-%02d %02d:%02d:%02d"]. *)
Definition ts_str (t : datetime) : string :=
  String.append (date_str (dt_date t))
    (String " "%char (String.append (pct0d 2 (hour t))
      (String ":"%char (String.append (pct0d 2 (minute t))
        (String ":"%char (pct0d 2 (second t))))))).

Definition valid_time (t : datetime) : bool :=
  valid_date (dt_date t) && (0 <=? hour t) && (hour t <=? 23) &&
  (0 <=? minute t) && (minute t <=? 59) && (0 <=? second t) && (second t <=? 59).

(** ** [localize] and [astimezone] *)

(** The seconds of the wall time since midnight. *)
Definition day_seconds (t : datetime) : Z := hour t * 3600 + minute t * 60 + second t.

(** The naive [datetime] as seconds since [datetime.min]. *)
Definition dt_secs (t : datetime) : Z := (toordinal (dt_date t) - 1) * day_secs + day_seconds t.

(** [kyiv_timezone.localize(dt)] (line 81): the UTC offset, in seconds, of
    the [tzinfo] pytz attaches. *)
Definition kyiv_localize (t : datetime) : result Z :=
  inf ← localize kyiv (dt_secs t); Ok (utcoffset inf).

(** [localize(...).astimezone(Etc/GMT+3).date()] (lines 81-83): the wall
    time moves back by the Kyiv offset plus three hours.  Every offset of
    the zone lies between one and four hours, so the instant lands on the
    same day or on the day before. *)
Definition gmt_minus_3_date (t : datetime) : result date :=
  off ← kyiv_localize t;
  if 0 <=? day_seconds t - off - 3 * 3600 then Ok (dt_date t) else prev_day (dt_date t).

Example timezone_ex :
  strptime_ts "2024-03-13 04:00:00" = Ok (mkDateTime (mkDate 2024 3 13) 4 0 0) ∧
  strptime_ts "2024-3-5 7:5:9" = Ok (mkDateTime (mkDate 2024 3 5) 7 5 9) ∧
  strptime_ts "2024-03-13 04:00:60" = Err ValueError ∧
  strptime_ts "2024-03-13 24:00:00" = Err ValueError ∧
  strptime_ts "2024-03- 5  04:00:00" = Ok (mkDateTime (mkDate 2024 3 5) 4 0 0) ∧
  strptime_ts "2024-03-13 04:00:00 " = Err ValueError ∧
  strptime_ts "2024-13-01 04:00:00" = Err ValueError ∧
  gmt_minus_3_date (mkDateTime (mkDate 2024 3 13) 4 0 0) = Ok (mkDate 2024 3 12) ∧
  gmt_minus_3_date (mkDateTime (mkDate 2024 7 1) 5 30 0) = Ok (mkDate 2024 6 30) ∧
  gmt_minus_3_date (mkDateTime (mkDate 2024 7 1) 6 0 0) = Ok (mkDate 2024 7 1) ∧
  gmt_minus_3_date (mkDateTime (mkDate 1975 6 1) 5 30 0) = Ok (mkDate 1975 5 31) ∧
  gmt_minus_3_date (mkDateTime (mkDate 1985 7 1) 6 30 0) = Ok (mkDate 1985 6 30) ∧
  gmt_minus_3_date (mkDateTime (mkDate 2024 10 27) 3 30 0) = Ok (mkDate 2024 10 26) ∧
  gmt_minus_3_date (mkDateTime (mkDate 1 1 1) 12 0 0) = Err OverflowError.
Proof. vm_compute. repeat split. Qed.

(** ** The tokens of a printed timestamp *)

Lemma two_digits s n :
  digits_val 0 s = Some n → String.length s = 2%nat →
  ∃ da db, s = String (digit_char da) (String (digit_char db) EmptyString) ∧
           0 ≤ da ≤ 9 ∧ 0 ≤ db ≤ 9 ∧ n = 10 * da + db.
Proof.
  destruct s as [|a [|b [|c r]]]; simpl; intros H Hl; try discriminate.
  destruct (char_digit a) as [da|] eqn:Ha; [|done].
  destruct (char_digit b) as [db|] eqn:Hb; [|done].
  apply char_digit_inv in Ha as [-> ?], Hb as [-> ?]. injection H as <-.
  exists da, db. repeat split; auto; lia.
Qed.

(** A two-digit field printed with [%02d] reads back, the rest untouched. *)
Lemma field2_pct0d lo max n r :
  0 ≤ lo ≤ n → n ≤ max → max < 100 → field2 lo max (String.append (pct0d 2 n) r) = Some (n, r).
Proof.
  intros Hn Hm Hmax. destruct (pct0d_spec 2 n) as [Hv Hl]; [lia|simpl; lia|].
  destruct (two_digits _ _ Hv Hl) as (da & db & -> & Ha & Hb & ->).
  unfold field2. simpl. rewrite !char_digit_digit_char by done.
  destruct (Z.leb_spec lo (10 * da + db)), (Z.leb_spec (10 * da + db) max); try lia. done.
Qed.

Lemma year4_pct0d y r : 1 ≤ y ≤ 9999 → year4 (String.append (pct0d 4 y) r) = Some (y, r).
Proof.
  intros Hy. destruct (pct0d_spec 4 y) as [Hv Hl]; [lia|simpl; lia|].
  destruct (pct0d 4 y) as [|a [|b [|c [|d [|e r']]]]]; simpl in Hl; try discriminate.
  simpl in Hv |- *.
  destruct (char_digit a), (char_digit b), (char_digit c), (char_digit d); try discriminate.
  simpl. injection Hv as <-. do 2 f_equal. lia.
Qed.

Lemma day_field_pct0d d r : 1 ≤ d ≤ 31 → day_field (String.append (pct0d 2 d) r) = Some (d, r).
Proof. intros Hd. unfold day_field. by rewrite field2_pct0d by lia. Qed.

Lemma lit_same c r : lit c (String c r) = Some r.
Proof. unfold lit. by rewrite Ascii.eqb_refl. Qed.

(** The space before a two-digit hour. *)
Lemma spaces1_pct0d n r :
  0 ≤ n < 100 → spaces1 (String " "%char (String.append (pct0d 2 n) r)) = Some (String.append (pct0d 2 n) r).
Proof.
  intros Hn. destruct (pct0d_spec 2 n) as [Hv Hl]; [lia|simpl; lia|].
  destruct (two_digits _ _ Hv Hl) as (da & db & -> & Ha & Hb & _).
  simpl. f_equal.
  assert (is_py_space (digit_char da) = false) as ->; [|done].
  unfold digit_char. digit_cases da; reflexivity.
Qed.

Lemma pct0d_no_char c w n :
  char_digit c = None → (1 ≤ w)%nat → 0 ≤ n < 10 ^ Z.of_nat w → has_char c (pct0d w n) = false.
Proof. intros Hc Hw Hn. destruct (pct0d_spec w n Hw Hn) as [Hv _]. by eapply digits_no_char. Qed.

Lemma date_str_no_char c d :
  char_digit c = None → c ≠ "-"%char → valid_date d = true → has_char c (date_str d) = false.
Proof.
  intros Hc Hd V. pose proof V as (Y & M & D)%valid_date_spec. unfold days_in_month in D.
  pose proof (dim_tab_bounds (is_leap (year d)) (month d) M).
  unfold date_str. rewrite !has_char_app. cbn [has_char]. rewrite !has_char_app. cbn [has_char].
  rewrite !pct0d_no_char by (done || simpl; lia).
  assert (Ascii.eqb c "-" = false) as -> by (by apply Ascii.eqb_neq). done.
Qed.

Lemma valid_time_spec t :
  valid_time t = true ↔
  valid_date (dt_date t) = true ∧ 0 ≤ hour t ≤ 23 ∧ 0 ≤ minute t ≤ 59 ∧ 0 ≤ second t ≤ 59.
Proof. unfold valid_time. rewrite !andb_true_iff, !Z.leb_le. tauto. Qed.

Lemma field2_range lo max s n r : field2 lo max s = Some (n, r) → lo ≤ n ∧ 0 ≤ n ∧ (n ≤ max ∨ n ≤ 9).
Proof.
  unfold field2, mbind, option_bind. intros H. repeat (case_match; simplify_eq/=).
  all: repeat match goal with Hc : char_digit _ = Some _ |- _ => apply char_digit_Some in Hc end.
  all: rewrite ?andb_true_iff, ?andb_false_iff, ?Z.leb_le, ?Z.leb_gt in *; lia.
Qed.

(** The ranges the regex's hour, minute and second alternatives allow. *)
Lemma ts_match_range s y m d h mi sec r :
  ts_match s = Some (y, m, d, h, mi, sec, r) → 0 ≤ h ≤ 23 ∧ 0 ≤ mi ≤ 59 ∧ 0 ≤ sec ≤ 61.
Proof.
  unfold ts_match, mbind, option_bind. intros H. repeat (case_match; simplify_eq/=).
  repeat match goal with Hf : field2 _ _ _ = Some _ |- _ => apply field2_range in Hf end. lia.
Qed.

(** What [strptime] returns is a valid [datetime]. *)
Lemma strptime_ts_valid s t : strptime_ts s = Ok t → valid_time t = true.
Proof.
  unfold strptime_ts. destruct (ts_match s) as [[[[[[[y m] d] h] mi] sec] [|]]|] eqn:E;
    try discriminate.
  apply ts_match_range in E. unfold mk_date. destruct (valid_date _) eqn:V; [|discriminate].
  rewrite bind_Ok. destruct (Z.leb_spec sec 59); [|discriminate]. intros [= <-].
  apply valid_time_spec. simpl. split; [done|lia].
Qed.

Lemma gmt_minus_3_date_valid t d :
  valid_time t = true → gmt_minus_3_date t = Ok d → valid_date d = true.
Proof.
  intros (V & _)%valid_time_spec. pose proof (toordinal_prev_day _ V) as Hp.
  unfold gmt_minus_3_date. intros (off & _ & H)%bind_eq_Ok.
  destruct (0 <=? _); [by injection H as <-|]. rewrite H in Hp. apply Hp.
Qed.

(** The day a record is counted on is its local date or the day before. *)
Lemma gmt_minus_3_date_near t d :
  valid_time t = true → gmt_minus_3_date t = Ok d →
  valid_date d = true ∧ toordinal (dt_date t) - 1 ≤ toordinal d ≤ toordinal (dt_date t).
Proof.
  intros (V & _)%valid_time_spec. pose proof (toordinal_prev_day _ V) as Hp.
  unfold gmt_minus_3_date. intros (off & _ & H)%bind_eq_Ok.
  destruct (0 <=? _); [injection H as <-; split; [done|lia]|].
  rewrite H in Hp. destruct Hp as [Vd Od]. split; [done|lia].
Qed.

(** ** Where [localize] raises *)

Lemma day_seconds_range t : valid_time t = true → 0 ≤ day_seconds t < day_secs.
Proof. intros (_ & ? & ? & ?)%valid_time_spec. unfold day_seconds, day_secs. lia. Qed.

Lemma toordinal_ends d :
  valid_date d = true →
  (toordinal d = 1 → d = mkDate 1 1 1) ∧ (toordinal d = toordinal (mkDate 9999 12 31) → d = mkDate 9999 12 31).
Proof. intros V. split; intros E; apply toordinal_inj; done. Qed.

(** Away from the first and the last day, [dt] has a day on each side. *)
Lemma dt_secs_inside t :
  valid_time t = true → dt_date t ≠ mkDate 1 1 1 → dt_date t ≠ mkDate 9999 12 31 →
  day_secs ≤ dt_secs t ∧ dt_secs t + day_secs < max_secs.
Proof.
  intros Vt N1 N2. pose proof (day_seconds_range t Vt). apply valid_time_spec in Vt as (V & _).
  pose proof (toordinal_pos _ V). pose proof (toordinal_max _ V).
  destruct (toordinal_ends _ V) as [E1 E2].
  assert (toordinal (dt_date t) ≠ 1) by (intros E; by apply N1, E1).
  assert (toordinal (dt_date t) ≠ toordinal (mkDate 9999 12 31)) by (intros E; by apply N2, E2).
  unfold dt_secs, max_secs. unfold day_secs in *. lia.
Qed.

(** [kyiv_timezone.localize] raises OverflowError on the first and the
    last day, and otherwise attaches a [tzinfo] of the zone. *)
Lemma kyiv_localize_cases t :
  valid_time t = true →
  (kyiv_localize t = Err OverflowError ∧ (dt_date t = mkDate 1 1 1 ∨ dt_date t = mkDate 9999 12 31)) ∨
  (∃ i, kyiv_localize t = Ok (utcoffset i) ∧ localize kyiv (dt_secs t) = Ok i ∧ i ∈ tz_infos kyiv ∧
        dt_date t ≠ mkDate 1 1 1 ∧ dt_date t ≠ mkDate 9999 12 31).
Proof.
  intros Vt. unfold kyiv_localize.
  destruct (decide (dt_date t = mkDate 1 1 1 ∨ dt_date t = mkDate 9999 12 31)) as [Hd|Hd].
  - left. split; [|done].
    assert (Hout : dt_secs t - day_secs < 0 ∨ max_secs ≤ dt_secs t + day_secs).
    { pose proof (day_seconds_range t Vt). unfold dt_secs, max_secs.
      destruct Hd as [E|E]; rewrite E;
        [assert (toordinal (mkDate 1 1 1) = 1) as -> by reflexivity|]; unfold day_secs in *; lia. }
    unfold localize, localize_fuel. cbn [localize_go]. by rewrite bool_decide_true.
  - right. destruct (dt_secs_inside t Vt) as [H1 H2]; [naive_solver..|].
    destruct (localize_ok kyiv kyiv_offsets_day kyiv_late (dt_secs t) H1 H2) as (i & Hi & Hin).
    exists i. rewrite Hi. naive_solver.
Qed.

(** ** Properties *)

(** C34: [strptime] reads back the timestamps the API writes: a valid
    [datetime] printed as ["YYYY-MM-DD HH:MM:SS"] parses to itself. *)
Theorem timestamp_roundtrip t : valid_time t = true → strptime_ts (ts_str t) = Ok t.
Proof.
  destruct t as [[y m dd] h mi s]. intros (V & ? & ? & ?)%valid_time_spec.
  cbn [dt_date hour minute second] in *.
  pose proof V as (Y & M & D)%valid_date_spec. unfold days_in_month in D. cbn [year month day] in *.
  pose proof (dim_tab_bounds (is_leap y) m M).
  unfold strptime_ts, ts_match, ts_str, date_str. cbn [dt_date hour minute second year month day].
  rewrite <-(str_app_nil (pct0d 2 s)).
  repeat (rewrite str_app_assoc || rewrite str_app_cons).
  repeat (first [rewrite year4_pct0d by lia | rewrite lit_same | rewrite day_field_pct0d by lia
                | rewrite spaces1_pct0d by lia | rewrite field2_pct0d by lia];
          cbn [mbind option_bind]).
  rewrite (mk_date_ok _ _ _ V), bind_Ok. by destruct (Z.leb_spec s 59); [|lia].
Qed.

(** C20: The day a record is counted on: for a valid wall time in Kyiv,
    [localize(...).astimezone(Etc/GMT+3).date()] is the local date when the
    time of day is at least the Kyiv offset plus three hours, and the day
    before otherwise; the offset is one of the zone's, between one and four
    hours; it raises, with OverflowError, exactly on the first and the last
    day of the calendar. *)
Theorem bucket_date_spec t :
  valid_time t = true →
  match gmt_minus_3_date t with
  | Ok d => ∃ off, kyiv_localize t = Ok off ∧ 3600 ≤ off ≤ 14400 ∧ valid_date d = true ∧
            toordinal d = toordinal (dt_date t) - (if day_seconds t <? off + 3 * 3600 then 1 else 0)
  | Err e => e = OverflowError ∧ (dt_date t = mkDate 1 1 1 ∨ dt_date t = mkDate 9999 12 31)
  end.
Proof.
  intros Vt. pose proof Vt as (V & _)%valid_time_spec.
  pose proof (toordinal_prev_day _ V) as Hp. unfold gmt_minus_3_date.
  destruct (kyiv_localize_cases t Vt) as [[-> Hd]|(i & -> & _ & Hi & N1 & _)]; [done|].
  rewrite bind_Ok. pose proof (kyiv_offsets i Hi).
  destruct (Z.leb_spec 0 (day_seconds t - utcoffset i - 3 * 3600)).
  - exists (utcoffset i). rewrite (proj2 (Z.ltb_ge _ _)) by lia. split_and!; auto with lia.
  - destruct (prev_day (dt_date t)) as [p|e]; [|by destruct Hp].
    exists (utcoffset i). rewrite (proj2 (Z.ltb_lt _ _)) by lia. destruct Hp. split_and!; auto with lia.
Qed.

(** C21: [kyiv_timezone.localize] keeps the promise of [is_dst=False] on
    the tz database's Europe/Kyiv: for a valid wall time away from the
    first and the last day of the calendar that exists at some offset of
    the zone, the offset pytz attaches is one at which the wall time
    exists, and among several (the hour repeated when clocks go back) the
    standard-time one, then the later instant. *)
Theorem kyiv_localize_refines t :
  valid_time t = true → dt_date t ≠ mkDate 1 1 1 → dt_date t ≠ mkDate 9999 12 31 →
  (∃ i, exists_at kyiv (dt_secs t) i) →
  ∃ r, kyiv_localize t = Ok (utcoffset r) ∧ exists_at kyiv (dt_secs t) r ∧
       ∀ i, exists_at kyiv (dt_secs t) i → preferred r i.
Proof.
  intros Vt N1 N2 Hex. destruct (dt_secs_inside t Vt N1 N2) as [H1 H2].
  destruct (localize_refines kyiv kyiv_offsets_day kyiv_spaced (dt_secs t) H1 H2 Hex)
    as (r & Hr & Er & Pr).
  exists r. unfold kyiv_localize. rewrite Hr. auto.
Qed.

Lemma timestamp_roundtrip_witness :
  strptime_ts "2024-03-13 04:05:06" = Ok (mkDateTime (mkDate 2024 3 13) 4 5 6).
Proof. exact (timestamp_roundtrip (mkDateTime (mkDate 2024 3 13) 4 5 6) eq_refl). Defined.

Lemma bucket_date_spec_witness :
  ∃ off, kyiv_localize (mkDateTime (mkDate 2024 7 1) 5 30 0) = Ok off ∧ 3600 ≤ off ≤ 14400 ∧
    valid_date (mkDate 2024 6 30) = true ∧
    toordinal (mkDate 2024 6 30) =
      toordinal (mkDate 2024 7 1) - (if day_seconds (mkDateTime (mkDate 2024 7 1) 5 30 0) <? off + 3 * 3600 then 1 else 0).
Proof.
  pose proof (bucket_date_spec (mkDateTime (mkDate 2024 7 1) 5 30 0) eq_refl) as H.
  assert (E : gmt_minus_3_date (mkDateTime (mkDate 2024 7 1) 5 30 0) = Ok (mkDate 2024 6 30))
    by (vm_compute; reflexivity).
  rewrite E in H. exact H.
Defined.

(** 03:30 on 2024-10-27 happens twice; pytz takes the second, EET. *)
Lemma kyiv_localize_refines_witness :
  ∃ r, kyiv_localize (mkDateTime (mkDate 2024 10 27) 3 30 0) = Ok (utcoffset r) ∧
    exists_at kyiv (dt_secs (mkDateTime (mkDate 2024 10 27) 3 30 0)) r ∧
    ∀ i, exists_at kyiv (dt_secs (mkDateTime (mkDate 2024 10 27) 3 30 0)) i → preferred r i.
Proof.
  apply kyiv_localize_refines; [reflexivity|discriminate|discriminate|].
  exists EET. vm_compute. reflexivity.
Defined.
