(* ===== verification/Stats.v ===== *)
(** * The statistics dict: what [get_stats] hands to the weekly functions

    [get_stats] (data_handling.py lines 98-109) returns a dict mapping
    [str(date_)] to [{"date": str(date_), "calls": ..., "uniques": ...,
    "minutes": ...}].  The record [day_stats] is that inner dict and
    [gmap string day_stats] the outer one (dict order is never observed:
    every consumer sorts the keys or looks them up).  [stats_wf] is the
    contract between the two components: [Aggregator.get_stats_wf] proves
    that [get_stats] establishes it, and the theorems of [Weekly] assume
    it. *)

From S2P Require Import Prelude PyStr Calendar.

Local Open Scope Z_scope.

(** One entry of [total_stats]. *)
Record day_stats : Type := mkDayStats {
  ds_date : string;
  calls : Z;
  uniques : Z;
  minutes : Z
}.

#[export] Instance day_stats_eq_dec : EqDecision day_stats.
Proof. solve_decision. Defined.

(** The contract: every key is [str(d)] of a valid date [d] between the
    first of the reference date's month and the reference date, and the
    entry's "date" field repeats the key. *)
Definition stats_wf (ref : date) (stats : gmap string day_stats) : Prop :=
  ∀ k e, stats !! k = Some e →
    ∃ d, valid_date d = true ∧ k = date_str d ∧ ds_date e = k ∧
         date_le (month_start ref) d = true ∧ date_le d ref = true.

Lemma stats_wf_key ref stats k :
  stats_wf ref stats → k ∈ (map_to_list stats).*1 →
  ∃ d, valid_date d = true ∧ k = date_str d ∧ date_le d ref = true.
Proof.
  intros Hwf ((k', e) & -> & Hin)%list_elem_of_fmap.
  apply elem_of_map_to_list in Hin. destruct (Hwf _ _ Hin) as (d & ? & ? & _ & _ & ?).
  eauto.
Qed.

Lemma stats_wf_empty ref : stats_wf ref ∅.
Proof. intros k e. by rewrite lookup_empty. Qed.
