(* ===== verification/Api.v ===== *)
(** * The CRM API: decoded JSON, the HTTP oracle and the two requests

    [request_manager_stats] and [request_manager_name]
    (data_handling.py lines 36-68) call [requests.get] on the CRM, call
    [raise_for_status()] and index the decoded body.  The network is the
    class [Http]: [http_get url authorization] is what [requests.get] does
    with that URL and header, either a [RequestException] raised on the way
    ([ConnectionFailed]) or a response with a status code and a body that
    decodes as JSON or not.  [raise_for_status] raises [HTTPError] for
    400..599; [response.json()] raises [requests.JSONDecodeError] on a body
    that is not JSON (requests >= 2.27: a [RequestException]).  All three
    are caught by [except requests.RequestException]; a missing key
    ([KeyError]) or a value of the wrong type ([TypeError]) is not.

    JSON values are the [json] inductive; an object decodes to a dict in
    which the last of duplicate keys wins ([jlookup]).  Numbers are
    integers here: the counters the CRM sends are counts. *)

From S2P Require Import Prelude PyStr Calendar RefDate.

Local Open Scope Z_scope.

(** ** JSON values as Python sees them after [response.json()] *)

#[local] Set Warnings "-register-all".
Inductive json : Type :=
| JNull
| JBool (b : bool)
| JInt (z : Z)
| JStr (s : string)
| JList (l : list json)
| JObj (fields : list (string * json)).

(** [d[k]] on a dict decoded from [fields]: the value of the last field
    named [k]. *)
Fixpoint jlookup (k : string) (fields : list (string * json)) : option json :=
  match fields with
  | [] => None
  | (k', v) :: fs =>
      match jlookup k fs with
      | Some v' => Some v'
      | None => if String.eqb k k' then Some v else None
      end
  end.

(** [j[k]] for a string key: KeyError on a dict without [k], TypeError on
    a list, a string, a number, a bool or [None]. *)
Definition getitem (j : json) (k : string) : result json :=
  match j with
  | JObj fs => of_option KeyError (jlookup k fs)
  | _ => Err TypeError
  end.

(** The distinct keys of a dict, in order of first appearance. *)
Definition dict_keys {A} (fields : list (string * A)) : list string :=
  reverse (remove_dups (reverse fields.*1)).

(** The one-character strings of a string, in order. *)
Fixpoint str_chars (s : string) : list json :=
  match s with
  | EmptyString => []
  | String c s' => JStr (String c EmptyString) :: str_chars s'
  end.

(** [for x in j]: a list yields its items, a dict its keys, a string its
    characters; [None], a number or a bool is not iterable. *)
Definition py_iter (j : json) : result (list json) :=
  match j with
  | JList l => Ok l
  | JObj fs => Ok (JStr <$> dict_keys fs)
  | JStr s => Ok (str_chars s)
  | _ => Err TypeError
  end.

(** [x or 0] added to an int: a falsy value ([None], [False], [0], [""],
    [[]], [{}]) counts 0, [True] counts 1, an int itself; [int + str],
    [int + list] and [int + dict] raise TypeError. *)
Definition counter_value (j : json) : result Z :=
  match j with
  | JNull => Ok 0
  | JBool b => Ok (if b then 1 else 0)
  | JInt z => Ok z
  | JStr EmptyString => Ok 0
  | JList [] => Ok 0
  | JObj [] => Ok 0
  | _ => Err TypeError
  end.

(** ** The network *)

Inductive http_outcome : Type :=
| ConnectionFailed
| Response (status : Z) (body : option json).

(** [requests.get(url, headers={"authorization": auth})]. *)
Class Http := http_get : string → string → http_outcome.

(** [response.raise_for_status()] raises for a client or server error. *)
Definition raise_for_status (status : Z) : bool := (400 <=? status) && (status <? 600).

(** [response.json()] after [raise_for_status()], inside
    [try ... except requests.RequestException]: [None] when one of them
    (or [requests.get]) raised. *)
Definition fetch_json `{Http} (url auth : string) : option json :=
  match http_get url auth with
  | ConnectionFailed => None
  | Response status body => if raise_for_status status then None else body
  end.

Definition stats_url (manager_id start_of_month adjusted_date_str : string) : string :=
  ("https://licacrm.co/api/v2/calls/report/hour?manager_id=" ++ manager_id ++
   "&date=" ++ start_of_month ++ "|" ++ adjusted_date_str)%string.

Definition name_url (manager_id : string) : string :=
  ("https://licacrm.co/api/user/index/" ++ manager_id ++ "/callcenter")%string.

Section Requests.
Context `{Http}.

(** [request_manager_stats]: the hourly report from the first of the month
    to the day after the reference date ("Adjust for Lica timezone").  The
    strptime, the date arithmetic and the subscripts are inside the [try]
    but raise exceptions it does not catch.  [strftime("%Y-%m-%d")] is
    [str()] of the date: the years here are 1969..2068. *)
Definition request_manager_stats (inserted_date bearer manager_id : string) : result json :=
  formatted_date ← strptime_mdy inserted_date;
  adjusted_date ← next_day formatted_date;
  let start_of_month := date_str (month_start formatted_date) in
  let adjusted_date_str := date_str adjusted_date in
  match fetch_json (stats_url manager_id start_of_month adjusted_date_str) bearer with
  | None => Ok (JList [])
  | Some j => data ← getitem j "data"; getitem data "hours"
  end.

(** The value [request_manager_name] returns: ["Unknown Manager"], or the
    f-string [f"{first_name} {second_name}"] of the two JSON values. *)
Inductive manager_name : Type :=
| UnknownManager
| FullName (first_name second_name : json).

Definition request_manager_name (bearer manager_id : string) : result manager_name :=
  match fetch_json (name_url manager_id) bearer with
  | None => Ok UnknownManager
  | Some j =>
      data ← getitem j "data"; info ← getitem data "user_info";
      first_name ← getitem info "first_name"; second_name ← getitem info "second_name";
      Ok (FullName first_name second_name)
  end.

End Requests.

Example api_ex :
  getitem (JObj [("a", JInt 1); ("a", JInt 2)]) "a" = Ok (JInt 2) ∧
  getitem (JObj []) "data" = Err KeyError ∧ getitem (JList []) "data" = Err TypeError ∧
  py_iter (JObj [("k", JNull); ("j", JNull); ("k", JInt 1)]) = Ok [JStr "k"; JStr "j"] ∧
  counter_value JNull = Ok 0 ∧ counter_value (JStr "7") = Err TypeError ∧
  stats_url "42" "2024-03-01" "2024-03-14" =
    "https://licacrm.co/api/v2/calls/report/hour?manager_id=42&date=2024-03-01|2024-03-14".
Proof. vm_compute. repeat split. Qed.

(** ** What the stats request asks for *)

Section RequestSpec.
Context `{Http}.

(** For a reference date [d] that [strptime] reads, the request covers
    the first of [d]'s month to the day after [d]; a failed request (a
    [RequestException], an error status, a body that is not JSON) gives
    [[]], and a JSON body gives [body["data"]["hours"]]. *)
Lemma request_manager_stats_ok s bearer manager_id d :
  strptime_mdy s = Ok d →
  ∃ d', next_day d = Ok d' ∧ valid_date d' = true ∧ toordinal d' = toordinal d + 1 ∧
    request_manager_stats s bearer manager_id =
      match fetch_json (stats_url manager_id (date_str (month_start d)) (date_str d')) bearer with
      | None => Ok (JList [])
      | Some j => data ← getitem j "data"; getitem data "hours"
      end.
Proof.
  intros Hs. destruct (strptime_mdy_next_day s d Hs) as (d' & Hn & V & Ho).
  exists d'. do 3 (split; [done|]). unfold request_manager_stats. by rewrite Hs, bind_Ok, Hn, bind_Ok.
Qed.

End RequestSpec.

Lemma getitem_Err j k e : getitem j k = Err e → e = KeyError ∨ e = TypeError.
Proof.
  destruct j as [| | | | |fs]; simpl; try (intros [= <-]; auto).
  destruct (jlookup k fs); simpl; intros [= <-]; auto.
Qed.

(** ** Properties *)

Section RequestProps.
Context `{Http}.

(** C23: [request_manager_stats] lets through only the exceptions its
    [except requests.RequestException] does not name: a reference string
    [strptime] rejects (ValueError), or a JSON body without
    ["data"]["hours"] (KeyError, or TypeError on a value that is not a
    dict); the date arithmetic never overflows and a network failure
    never raises. *)
Theorem request_stats_errors s bearer manager_id e :
  request_manager_stats s bearer manager_id = Err e →
  (strptime_mdy s = Err ValueError ∧ e = ValueError) ∨
  (∃ url j, fetch_json url bearer = Some j ∧ (e = KeyError ∨ e = TypeError)).
Proof.
  unfold request_manager_stats. destruct (strptime_mdy s) as [d|e'] eqn:Hs.
  - destruct (strptime_mdy_next_day s d Hs) as (d' & Hn & _). rewrite bind_Ok, Hn, bind_Ok.
    destruct (fetch_json _ bearer) as [j|] eqn:Hf; [|discriminate]. intros He. right.
    do 2 eexists. split; [exact Hf|].
    apply bind_eq_Err in He as [He|(x & _ & He)]; eauto using getitem_Err.
  - simpl. intros [= <-]. left. pose proof (strptime_mdy_Err s e' Hs) as ->. auto.
Qed.

End RequestProps.

(** A CRM whose every answer is the JSON object [{}]. *)
Definition empty_body_http : Http := λ _ _, Response 200 (Some (JObj [])).

Lemma request_stats_errors_witness :
  @request_manager_stats empty_body_http "3/13/24" "t" "42" = Err KeyError ∧
  ((strptime_mdy "3/13/24" = Err ValueError ∧ KeyError = ValueError) ∨
   (∃ url j, @fetch_json empty_body_http url "t" = Some j ∧ (KeyError = KeyError ∨ KeyError = TypeError))).
Proof.
  split; [reflexivity|]. apply (@request_stats_errors empty_body_http "3/13/24" "t" "42").
  reflexivity.
Defined.
