(* ===== verification/Aggregator.v ===== *)
(** * [get_stats]: hourly records to per-day totals of the month window

    [get_stats] (data_handling.py lines 70-109) fetches the hourly records
    with [request_manager_stats], and for each record, in order: reads
    [entry['time']], parses it, moves it from Europe/Kyiv to Etc/GMT+3 and
    takes the date ([record_date], from [Timezone]); then adds
    [entry['all_cnt'] or 0], [entry['unique_cnt'] or 0] and
    [entry['duration'] or 0] to the [defaultdict] bucket of that date
    ([aggregate_step]).  The buckets are [gmap date tally].  A second loop
    keeps the buckets whose date lies between the first of the reference
    month and the reference date, keyed by [str(date)] ([window_filter]).

    An exception raised by a record aborts [get_stats]; the bucket the
    [defaultdict] created before the failing [+=] is lost with it.

    The refinement theorem [get_stats_refines] states [get_stats] as the
    composition of the record parser [record_contrib], applied to every
    record, with the declarative map [spec_stats]: for every date of the
    window that some record falls on, the sums of the counters of the
    records that fall on it.  Those sums do not depend on the order of the
    records ([get_stats_order_independent]). *)

From S2P Require Import Prelude PyStr Calendar RefDate Timezone Stats Api.

Local Open Scope Z_scope.

(** The value of [aggregated_data[date]]: [{'all_cnt', 'unique_cnt', 'duration'}]. *)
Record tally : Type := mkTally { t_all : Z; t_unique : Z; t_duration : Z }.

#[export] Instance tally_eq_dec : EqDecision tally.
Proof. solve_decision. Defined.

(** The [defaultdict] factory. *)
Definition zero_tally : tally := mkTally 0 0 0.

Definition add_tally (t u : tally) : tally :=
  mkTally (t_all t + t_all u) (t_unique t + t_unique u) (t_duration t + t_duration u).

(** Lines 80-83: the day a record is counted on.  [strptime] of a value
    that is not a string raises TypeError. *)
Definition record_date (entry : json) : result date :=
  time_str ← getitem entry "time";
  match time_str with
  | JStr s => t ← strptime_ts s; gmt_minus_3_date t
  | _ => Err TypeError
  end.

(** [entry[k] or 0], added to an int. *)
Definition counter (entry : json) (k : string) : result Z :=
  v ← getitem entry k; counter_value v.

(** One iteration of the first loop (lines 79-87). *)
Definition aggregate_step (aggregated_data : gmap date tally) (entry : json)
    : result (gmap date tally) :=
  date_gmt_minus_3 ← record_date entry;
  let cur := default zero_tally (aggregated_data !! date_gmt_minus_3) in
  all_cnt ← counter entry "all_cnt";
  unique_cnt ← counter entry "unique_cnt";
  duration ← counter entry "duration";
  Ok (<[date_gmt_minus_3 := mkTally (t_all cur + all_cnt) (t_unique cur + unique_cnt)
                              (t_duration cur + duration)]> aggregated_data).

(** The dict [{"date": str(date_), "calls": totals['all_cnt'], ...}]. *)
Definition stats_entry (d : date) (t : tally) : day_stats :=
  mkDayStats (date_str d) (t_all t) (t_unique t) (t_duration t).

(** [start_of_month_date <= date_ <= inserted_date_date]. *)
Definition in_window (ref d : date) : bool := date_le (month_start ref) d && date_le d ref.

(** The second loop (lines 99-107): [total_stats[str(date_)] = {...}] for
    the buckets of the window. *)
Definition window_filter (ref : date) (aggregated_data : gmap date tally)
    : gmap string day_stats :=
  map_fold (λ d t total_stats,
      if in_window ref d
      then <[date_str d := stats_entry d t]> total_stats
      else total_stats) ∅ aggregated_data.

Section GetStats.
Context `{Http}.

(** [get_stats(inserted_date, headers, manager_id)]. *)
Definition get_stats (inserted_date headers manager_id : string)
    : result (gmap string day_stats) :=
  stats ← request_manager_stats inserted_date headers manager_id;
  entries ← py_iter stats;
  aggregated_data ← foldM aggregate_step ∅ entries;
  inserted_date_dt ← strptime_mdy inserted_date;
  Ok (window_filter inserted_date_dt aggregated_data).

End GetStats.

(** ** The declarative totals *)

(** What one record contributes: its day and its three counters, read and
    checked in the order of the loop body. *)
Definition record_contrib (entry : json) : result (date * tally) :=
  d ← record_date entry;
  a ← counter entry "all_cnt"; u ← counter entry "unique_cnt"; m ← counter entry "duration";
  Ok (d, mkTally a u m).

(** The sum of the counters of the records that fall on [d]. *)
Definition day_total (d : date) (rs : list (date * tally)) : tally :=
  foldl add_tally zero_tally (filter (λ r, r.1 = d) rs).*2.

(** The statistics dict the spec describes: one entry per date of the
    window that some record falls on, with that date's totals. *)
Definition spec_stats (ref : date) (rs : list (date * tally)) : gmap string day_stats :=
  list_to_map ((λ d, (date_str d, stats_entry d (day_total d rs)))
               <$> filter (λ d, in_window ref d = true) (remove_dups rs.*1)).

(** ** The loop as a fold over the parsed records *)

(** The effect of one parsed record on the buckets. *)
Definition add_record (acc : gmap date tally) (r : date * tally) : gmap date tally :=
  <[r.1 := add_tally (default zero_tally (acc !! r.1)) r.2]> acc.

Lemma aggregate_step_contrib acc e :
  aggregate_step acc e = (r ← record_contrib e; Ok (add_record acc r)).
Proof.
  unfold aggregate_step, record_contrib.
  destruct (record_date e), (counter e "all_cnt"), (counter e "unique_cnt"),
    (counter e "duration"); reflexivity.
Qed.

(** The first loop parses every record, in order, and folds [add_record]
    over them; it raises the first exception a record raises. *)
Lemma foldM_aggregate acc es :
  foldM aggregate_step acc es = (rs ← mapM record_contrib es; Ok (foldl add_record acc rs)).
Proof.
  revert acc. induction es as [|e es IH]; intros acc; [done|]. simpl.
  rewrite aggregate_step_contrib. destruct (record_contrib e) as [r|]; [|done].
  simpl. rewrite IH. by destruct (mapM record_contrib es).
Qed.

Lemma lookup_foldl_add_record acc rs d :
  foldl add_record acc rs !! d =
    if bool_decide (is_Some (acc !! d) ∨ d ∈ rs.*1)
    then Some (foldl add_tally (default zero_tally (acc !! d)) (filter (λ r, r.1 = d) rs).*2)
    else None.
Proof.
  revert acc. induction rs as [|[d' t] rs IH]; intros acc; simpl.
  - case_bool_decide as Hb; destruct (acc !! d) eqn:E; try done.
    + destruct Hb as [[]|Hb]; [done|by apply elem_of_nil in Hb].
    + destruct Hb. left. eauto.
  - rewrite IH. unfold add_record. simpl. destruct (decide (d = d')) as [->|Hne].
    + rewrite lookup_insert_eq, filter_cons_True by done. simpl.
      rewrite !bool_decide_true; first [done | right; apply list_elem_of_here | left; eauto].
    + rewrite lookup_insert_ne, filter_cons_False by (simpl; congruence).
      repeat case_bool_decide; try done; exfalso; simpl in *; rewrite ?elem_of_cons in *;
        naive_solver.
Qed.

(** The buckets after the first loop: the day totals of the parsed records. *)
Lemma lookup_buckets rs d :
  foldl add_record ∅ rs !! d = if bool_decide (d ∈ rs.*1) then Some (day_total d rs) else None.
Proof.
  rewrite lookup_foldl_add_record, lookup_empty.
  repeat case_bool_decide; try done; exfalso; rewrite ?is_Some_None in *; naive_solver.
Qed.

(** ** The second loop *)

(** The entries the second loop writes: one per bucket of the window, under
    [str()] of its date (the dates are valid, so no two share a key). *)
Lemma window_filter_lookup ref agg :
  map_Forall (λ d _, valid_date d = true) agg →
  ∀ k e, window_filter ref agg !! k = Some e ↔
         ∃ d t, k = date_str d ∧ agg !! d = Some t ∧ in_window ref d = true ∧ e = stats_entry d t.
Proof.
  unfold window_filter.
  refine (map_fold_weak_ind (λ r m, map_Forall (λ d _, valid_date d = true) m → ∀ k e,
            r !! k = Some e ↔ ∃ d t, k = date_str d ∧ m !! d = Some t ∧ in_window ref d = true ∧
                                     e = stats_entry d t) _ ∅ _ _ agg).
  - intros _ k e. rewrite lookup_empty. split; [done|].
    intros (d & t & _ & Hd & _). by rewrite lookup_empty in Hd.
  - intros i x m r Hi IH Hall. apply map_Forall_insert in Hall as [Vi Hall]; [|done].
    specialize (IH Hall). intros k e.
    assert (Hkey : ∀ d t, m !! d = Some t → date_str i ≠ date_str d)
      by (intros d t Hd E; apply date_str_inj in E; [congruence|done|exact (Hall d t Hd)]).
    destruct (in_window ref i) eqn:W.
    + rewrite lookup_insert_Some, IH. split.
      * intros [[<- <-]|[Hne (d & t & -> & Hd & Wd & ->)]].
        -- exists i, x. by rewrite lookup_insert_eq.
        -- exists d, t. rewrite lookup_insert_ne; [done|congruence].
      * intros (d & t & -> & Hd & Wd & ->).
        apply lookup_insert_Some in Hd as [[<- <-]|[Hne Hd]]; [by left|].
        right. split; [exact (Hkey d t Hd)|]. eauto 10.
    + rewrite IH. split.
      * intros (d & t & -> & Hd & Wd & ->). exists d, t. rewrite lookup_insert_ne; [done|congruence].
      * intros (d & t & -> & Hd & Wd & ->).
        apply lookup_insert_Some in Hd as [[<- <-]|[Hne Hd]]; [congruence|eauto 10].
Qed.

(** ** The declarative map *)

Lemma spec_stats_lookup ref rs :
  Forall (λ r, valid_date r.1 = true) rs →
  ∀ k e, spec_stats ref rs !! k = Some e ↔
         ∃ d, k = date_str d ∧ d ∈ rs.*1 ∧ in_window ref d = true ∧ e = stats_entry d (day_total d rs).
Proof.
  intros Hv. rewrite Forall_forall in Hv.
  assert (Hd : ∀ d, d ∈ rs.*1 → valid_date d = true)
    by (intros d (r & -> & Hr)%list_elem_of_fmap; auto).
  intros k e. unfold spec_stats. rewrite <- elem_of_list_to_map.
  - rewrite list_elem_of_fmap. setoid_rewrite list_elem_of_filter.
    setoid_rewrite elem_of_remove_dups. naive_solver.
  - rewrite <- list_fmap_compose. apply NoDup_fmap_2_strong; [|apply NoDup_filter, NoDup_remove_dups].
    intros d1 d2 (_ & H1)%list_elem_of_filter (_ & H2)%list_elem_of_filter E.
    rewrite elem_of_remove_dups in H1, H2. apply date_str_inj; auto.
Qed.

(** The days of the parsed records are valid dates. *)
Lemma record_contrib_valid e r : record_contrib e = Ok r → valid_date r.1 = true.
Proof.
  unfold record_contrib. intros (d & Hd & H)%bind_eq_Ok. inv_ok. simpl.
  unfold record_date in Hd. apply bind_eq_Ok in Hd as (j & _ & Hd).
  destruct j; try discriminate. apply bind_eq_Ok in Hd as (t & Ht & Hd).
  eapply gmt_minus_3_date_valid; [eapply strptime_ts_valid, Ht | exact Hd].
Qed.

Lemma records_valid es rs :
  mapM record_contrib es = Ok rs → Forall (λ r, valid_date r.1 = true) rs.
Proof.
  revert rs. induction es as [|e es IH]; intros rs H; simpl in H; inv_ok;
    constructor; eauto using record_contrib_valid.
Qed.

(** The reference date lies in its own window. *)
Lemma in_window_ref ref : valid_date ref = true → in_window ref ref = true.
Proof.
  intros V. destruct (month_start_valid ref V) as [Vm Om].
  unfold in_window. by rewrite (proj2 (date_le_ord _ _ Vm V)), (proj2 (date_le_ord _ _ V V)) by lia.
Qed.

(** The declarative map is a well-formed statistics dict. *)
Lemma spec_stats_wf ref rs :
  Forall (λ r, valid_date r.1 = true) rs → stats_wf ref (spec_stats ref rs).
Proof.
  intros Hv k e Hk. pose proof Hv as Hv'. rewrite Forall_forall in Hv'.
  apply (spec_stats_lookup ref rs Hv) in Hk as (d & -> & Hd & W & ->).
  apply list_elem_of_fmap in Hd as (r & -> & Hr). apply andb_prop in W as [W1 W2].
  exists r.1. repeat split; auto.
Qed.

(** It has an entry for the reference date exactly when a record falls on it. *)
Lemma spec_stats_has_ref ref rs :
  valid_date ref = true → Forall (λ r, valid_date r.1 = true) rs →
  is_Some (spec_stats ref rs !! date_str ref) ↔ ref ∈ rs.*1.
Proof.
  intros V Hv. pose proof Hv as Hv'. rewrite Forall_forall in Hv'. split.
  - intros [e (d & E & Hd & _)%(spec_stats_lookup ref rs Hv)].
    apply list_elem_of_fmap in Hd as (r & -> & Hr).
    rewrite (date_str_inj ref r.1 V (Hv' r Hr) E). apply list_elem_of_fmap. eauto.
  - intros Hin. eexists. apply (spec_stats_lookup ref rs Hv). exists ref.
    repeat split; auto using in_window_ref.
Qed.

(** ** [get_stats] refines the declarative totals *)

Lemma buckets_valid rs :
  Forall (λ r, valid_date r.1 = true) rs →
  map_Forall (λ d _, valid_date d = true) (foldl add_record ∅ rs).
Proof.
  rewrite Forall_forall. intros Hv d t. rewrite lookup_buckets. case_bool_decide as Hd; [|done].
  intros _. apply list_elem_of_fmap in Hd as (r & -> & Hr). auto.
Qed.

Lemma window_filter_buckets ref rs :
  Forall (λ r, valid_date r.1 = true) rs →
  window_filter ref (foldl add_record ∅ rs) = spec_stats ref rs.
Proof.
  intros Hv. pose proof (buckets_valid rs Hv) as Hall.
  apply map_eq. intros k. apply option_eq. intros e.
  rewrite spec_stats_lookup, window_filter_lookup by done.
  setoid_rewrite lookup_buckets. split.
  - intros (d & t & -> & Ht & W & ->). case_bool_decide; [|done]. injection Ht as <-. eauto.
  - intros (d & -> & Hd & W & ->). exists d, (day_total d rs). rewrite bool_decide_true; auto.
Qed.

(** ** The totals do not depend on the order of the records *)

Lemma add_tally_swap acc x y : add_tally (add_tally acc x) y = add_tally (add_tally acc y) x.
Proof. destruct acc, x, y. unfold add_tally. simpl. f_equal; lia. Qed.

Lemma foldl_add_tally_perm l l' acc : l ≡ₚ l' → foldl add_tally acc l = foldl add_tally acc l'.
Proof.
  intros Hp. revert acc.
  induction Hp as [|x l l' _ IH|x y l|l l' l'' _ IH1 _ IH2]; intros acc; simpl; auto.
  - by rewrite add_tally_swap.
  - by rewrite IH1, IH2.
Qed.

Lemma day_total_perm d rs rs' : rs ≡ₚ rs' → day_total d rs = day_total d rs'.
Proof. intros Hp. unfold day_total. apply foldl_add_tally_perm. by rewrite Hp. Qed.

(** The declarative totals depend on the parsed records only as a multiset. *)
Lemma spec_stats_perm ref rs rs' :
  Forall (λ r, valid_date r.1 = true) rs → rs ≡ₚ rs' → spec_stats ref rs = spec_stats ref rs'.
Proof.
  intros Hv Hp. assert (Hv' : Forall (λ r, valid_date r.1 = true) rs') by by rewrite <- Hp.
  apply map_eq. intros k. apply option_eq. intros e.
  rewrite !spec_stats_lookup by done. setoid_rewrite (day_total_perm _ _ _ Hp).
  by setoid_rewrite Hp.
Qed.

Section GetStatsSpec.
Context `{Http}.

(** [get_stats] as the composition of the parser and the declarative totals. *)
Lemma get_stats_eq s headers manager_id :
  get_stats s headers manager_id =
    (stats ← request_manager_stats s headers manager_id; entries ← py_iter stats;
     rs ← mapM record_contrib entries; ref ← strptime_mdy s; Ok (spec_stats ref rs)).
Proof.
  unfold get_stats. destruct (request_manager_stats s headers manager_id); [|done]. simpl.
  destruct (py_iter a) as [es|]; [|done]. simpl. rewrite foldM_aggregate.
  destruct (mapM record_contrib es) as [rs|] eqn:E; [|done]. simpl.
  destruct (strptime_mdy s); [|done]. simpl. f_equal. apply window_filter_buckets.
  by eapply records_valid.
Qed.

(** C1: [get_stats] implements the declarative totals: it fetches the
    records, parses every record in order (raising the first exception a
    record raises) and returns [spec_stats], which has, for each date of
    the month window that some record falls on, the sums of the counters of
    the records falling on it, and nothing else. *)
Theorem get_stats_refines s headers manager_id :
  get_stats s headers manager_id =
    (stats ← request_manager_stats s headers manager_id; entries ← py_iter stats;
     rs ← mapM record_contrib entries; ref ← strptime_mdy s; Ok (spec_stats ref rs)).
Proof. exact (get_stats_eq s headers manager_id). Qed.

End GetStatsSpec.

(** ** Properties *)

Section GetStatsProps.
Context `{Http}.

(** C2: [get_stats] returns a well-formed statistics dict for the reference
    date it reads: every key is [str()] of a valid date between the first
    of the month and the reference date, and the entry's "date" is its key.
    This is the precondition of the weekly theorems. *)
Theorem get_stats_wf s headers manager_id m :
  get_stats s headers manager_id = Ok m → ∃ ref, strptime_mdy s = Ok ref ∧ stats_wf ref m.
Proof.
  unfold get_stats. intros (j & _ & (es & _ & (agg & Hagg & (ref & Href & [= <-])%bind_eq_Ok)%bind_eq_Ok)%bind_eq_Ok)%bind_eq_Ok.
  rewrite foldM_aggregate in Hagg. apply bind_eq_Ok in Hagg as (rs & Hrs & [= <-]).
  exists ref. split; [done|]. intros k e Hk.
  apply window_filter_lookup in Hk as (d & t & -> & Ht & W & ->);
    [|exact (buckets_valid rs (records_valid es rs Hrs))].
  apply andb_prop in W as [W1 W2].
  exists d. repeat split; auto. exact (buckets_valid rs (records_valid es rs Hrs) d t Ht).
Qed.

(** A failed request gives the empty dict. *)
Lemma get_stats_failed s headers manager_id d d' :
  strptime_mdy s = Ok d → next_day d = Ok d' →
  fetch_json (stats_url manager_id (date_str (month_start d)) (date_str d')) headers = None →
  get_stats s headers manager_id = Ok ∅.
Proof.
  intros Hs Hn Hf. destruct (request_manager_stats_ok s headers manager_id d Hs)
    as (d'' & Hn' & _ & _ & Hr). rewrite Hn in Hn'. injection Hn' as <-.
  unfold get_stats. rewrite Hr, Hf, bind_Ok. simpl. rewrite Hs. simpl.
  unfold window_filter. by rewrite map_fold_empty.
Qed.

(** C27: A failed request (connection error, error status, a body that is
    not JSON) leaves [get_stats] with the empty dict, as the spec asks. *)
Theorem get_stats_request_failed s headers manager_id d d' :
  strptime_mdy s = Ok d → next_day d = Ok d' →
  fetch_json (stats_url manager_id (date_str (month_start d)) (date_str d')) headers = None →
  get_stats s headers manager_id = Ok ∅.
Proof. exact (get_stats_failed s headers manager_id d d'). Qed.

End GetStatsProps.

(** The dates of the records counted on a day of the month window lie
    between the first of the month and the day after the reference date. *)
Lemma window_record_dates t ref d d' :
  valid_time t = true → valid_date ref = true → next_day ref = Ok d' →
  gmt_minus_3_date t = Ok d → in_window ref d = true →
  date_le (month_start ref) (dt_date t) = true ∧ date_le (dt_date t) d' = true.
Proof.
  intros Vt Vr Hn Hd W. pose proof Vt as (V & _)%valid_time_spec.
  destruct (gmt_minus_3_date_near t d Vt Hd) as (Vd & H1 & H2).
  pose proof (toordinal_next_day ref Vr) as Hn'. rewrite Hn in Hn'. destruct Hn' as [Vd' Od'].
  destruct (month_start_valid ref Vr) as [Vm _].
  apply andb_prop in W as [W1 W2].
  apply (date_le_ord _ _ Vm Vd) in W1. apply (date_le_ord _ _ Vd Vr) in W2.
  rewrite !date_le_ord by done. lia.
Qed.

(** C30: The dates [request_manager_stats] asks for are enough: whatever
    the CRM, it requests [stats_url] for one range [lo|hi] of the reference
    string [s], and every record that [get_stats] counts on a day of the
    month window of [s] has its Kyiv date between [lo] and [hi] (the
    request runs to the day after the reference date, "Adjust for Lica
    timezone", because a record of the early hours of that day is counted
    on the reference date). *)
Theorem request_range_covers_window s bearer manager_id ref t d :
  strptime_mdy s = Ok ref → valid_time t = true → gmt_minus_3_date t = Ok d → in_window ref d = true →
  ∃ lo hi,
    (∀ hs : Http, @request_manager_stats hs s bearer manager_id =
       match @fetch_json hs (stats_url manager_id (date_str lo) (date_str hi)) bearer with
       | None => Ok (JList [])
       | Some j => data ← getitem j "data"; getitem data "hours"
       end) ∧
    date_le lo (dt_date t) = true ∧ date_le (dt_date t) hi = true.
Proof.
  intros Hs Vt Hd W. destruct (strptime_mdy_next_day s ref Hs) as (d' & Hn & _).
  destruct (strptime_mdy_year s ref Hs) as [Vr _].
  exists (month_start ref), d'. split; [|by eapply window_record_dates].
  intros hs. unfold request_manager_stats. by rewrite Hs; simpl; rewrite Hn.
Qed.

Section Order.
Context (hs hs' : Http).

(** C29: The statistics do not depend on the order in which the CRM lists
    the hourly records: two answers that are permutations of each other,
    every record of which parses, give the same dict. *)
Theorem get_stats_order_independent s headers manager_id es es' rs :
  @request_manager_stats hs s headers manager_id = Ok (JList es) →
  @request_manager_stats hs' s headers manager_id = Ok (JList es') →
  es ≡ₚ es' → mapM record_contrib es = Ok rs →
  @get_stats hs s headers manager_id = @get_stats hs' s headers manager_id.
Proof.
  intros H1 H2 Hp Hrs. rewrite (@get_stats_eq hs), (@get_stats_eq hs'), H1, H2, !bind_Ok.
  simpl. destruct (mapM_perm record_contrib es es' rs Hp Hrs) as (rs' & Hrs' & Prs).
  rewrite Hrs, Hrs', !bind_Ok. destruct (strptime_mdy s); [|done]. rewrite !bind_Ok.
  f_equal. apply spec_stats_perm; [by eapply records_valid|done].
Qed.

End Order.

Section MissingCounter.
Context `{Http}.

(** C22: A record whose time parses but which has no ["all_cnt"] key makes
    [get_stats] raise KeyError (when the records before it parse): the
    spec's "absent counters count as zero" holds only for [null]. *)
Theorem get_stats_missing_counter s headers manager_id j es1 rs1 fields es2 d :
  request_manager_stats s headers manager_id = Ok j →
  py_iter j = Ok (es1 ++ JObj fields :: es2) →
  mapM record_contrib es1 = Ok rs1 →
  record_date (JObj fields) = Ok d → jlookup "all_cnt" fields = None →
  get_stats s headers manager_id = Err KeyError.
Proof.
  intros Hj Hi H1 Hd Hk. rewrite get_stats_eq, Hj, bind_Ok, Hi, bind_Ok.
  erewrite mapM_app_Err; [done|exact H1|].
  unfold record_contrib, counter. rewrite Hd, bind_Ok. simpl. by rewrite Hk.
Qed.

End MissingCounter.

(** ** A CRM that answers every request with one JSON body *)

Definition constant_http (status : Z) (body : option json) : Http := λ _ _, Response status body.

(** An hourly record as the CRM writes it. *)
Definition hour_record (time : string) (a u m : Z) : json :=
  JObj [("time", JStr time); ("all_cnt", JInt a); ("unique_cnt", JInt u); ("duration", JInt m)].

Definition hours_body (records : list json) : option json :=
  Some (JObj [("data", JObj [("hours", JList records)])]).

(** Kyiv 10:00 and 03:00 on 2024-03-13 (UTC+2 then) count on the 13th and
    the 12th; 02:00 on 2024-03-01 counts on 2024-02-29, outside the month;
    07:00 on 2024-03-14 counts after the reference date; a record with
    [null] counters counts zero. *)
Definition example_records : list json :=
  [hour_record "2024-03-13 10:00:00" 5 3 20; hour_record "2024-03-13 03:00:00" 2 2 7;
   hour_record "2024-03-01 02:00:00" 1 1 1; hour_record "2024-03-14 07:00:00" 9 9 9;
   JObj [("time", JStr "2024-03-12 12:00:00"); ("all_cnt", JNull); ("unique_cnt", JInt 0);
         ("duration", JNull)]].

Example get_stats_ex :
  @get_stats (constant_http 200 (hours_body example_records)) "3/13/24" "token" "42" =
    Ok (<["2024-03-12" := mkDayStats "2024-03-12" 2 2 7]>
         {["2024-03-13" := mkDayStats "2024-03-13" 5 3 20]}) ∧
  @get_stats (constant_http 503 None) "3/13/24" "token" "42" = Ok ∅ ∧
  @get_stats (constant_http 200 (Some (JObj []))) "3/13/24" "token" "42" = Err KeyError ∧
  @get_stats (constant_http 200 (hours_body
     [JObj [("time", JStr "2024-03-13 10:00:00"); ("unique_cnt", JInt 1); ("duration", JInt 2)]]))
     "3/13/24" "token" "42" = Err KeyError.
Proof. split; [|split; [|split]]; vm_compute; reflexivity. Qed.

Lemma get_stats_wf_witness :
  stats_wf (mkDate 2024 3 13)
    (<["2024-03-12" := mkDayStats "2024-03-12" 2 2 7]> {["2024-03-13" := mkDayStats "2024-03-13" 5 3 20]}).
Proof.
  destruct (@get_stats_wf (constant_http 200 (hours_body example_records)) "3/13/24" "token" "42"
              (<["2024-03-12" := mkDayStats "2024-03-12" 2 2 7]>
                 {["2024-03-13" := mkDayStats "2024-03-13" 5 3 20]})) as (ref & Href & Hwf);
    [vm_compute; reflexivity|].
  vm_compute in Href. injection Href as <-. exact Hwf.
Defined.

Lemma get_stats_request_failed_witness :
  @get_stats (constant_http 404 (hours_body example_records)) "3/13/24" "token" "42" = Ok ∅.
Proof.
  apply (@get_stats_request_failed (constant_http 404 (hours_body example_records))
           "3/13/24" "token" "42" (mkDate 2024 3 13) (mkDate 2024 3 14));
    vm_compute; reflexivity.
Defined.

Lemma get_stats_missing_counter_witness :
  @get_stats (constant_http 200 (hours_body
     [hour_record "2024-03-13 09:00:00" 1 1 1;
      JObj [("time", JStr "2024-03-13 10:00:00"); ("unique_cnt", JInt 1); ("duration", JInt 2)]]))
     "3/13/24" "token" "42" = Err KeyError.
Proof.
  apply (@get_stats_missing_counter _ "3/13/24" "token" "42"
           (JList [hour_record "2024-03-13 09:00:00" 1 1 1;
                   JObj [("time", JStr "2024-03-13 10:00:00"); ("unique_cnt", JInt 1);
                         ("duration", JInt 2)]])
           [hour_record "2024-03-13 09:00:00" 1 1 1] [(mkDate 2024 3 13, mkTally 1 1 1)]
           [("time", JStr "2024-03-13 10:00:00"); ("unique_cnt", JInt 1); ("duration", JInt 2)]
           [] (mkDate 2024 3 13)); vm_compute; reflexivity.
Defined.

Lemma get_stats_order_independent_witness :
  @get_stats (constant_http 200 (hours_body example_records)) "3/13/24" "token" "42" =
  @get_stats (constant_http 200 (hours_body (reverse example_records))) "3/13/24" "token" "42".
Proof.
  apply (get_stats_order_independent _ _ "3/13/24" "token" "42" example_records
           (reverse example_records)
           [(mkDate 2024 3 13, mkTally 5 3 20); (mkDate 2024 3 12, mkTally 2 2 7);
            (mkDate 2024 2 29, mkTally 1 1 1); (mkDate 2024 3 14, mkTally 9 9 9);
            (mkDate 2024 3 12, mkTally 0 0 0)]);
    [vm_compute; reflexivity | vm_compute; reflexivity | | vm_compute; reflexivity].
  symmetry. apply reverse_Permutation.
Defined.

(** The records of the spec's window example for the reference date
    2024-03-15 (Kyiv is UTC+2 until 2024-03-31, so Etc/GMT+3 is five hours
    behind): 2024-02-29 03:00 counts on 2024-02-28, 2024-03-16 03:00 on
    2024-03-15, 2024-03-16 09:00 on 2024-03-16; the record of 2024-03-14
    has [null] counters. *)
Definition window_example_records : list json :=
  [hour_record "2024-02-29 03:00:00" 4 4 4; hour_record "2024-03-15 12:00:00" 5 3 20;
   hour_record "2024-03-16 03:00:00" 2 1 6; hour_record "2024-03-16 09:00:00" 7 7 7;
   JObj [("time", JStr "2024-03-14 12:00:00"); ("all_cnt", JNull); ("unique_cnt", JNull);
         ("duration", JNull)]].

(** The spec's examples of the month window and of zero-fill
    (section 8), for the reference date "03/15/24": a record counted on
    2024-02-28 or on 2024-03-16 is left out, the two counted on 2024-03-15
    are summed, and a record with [null] counters counts zero, but still
    gives its day an entry. *)
Theorem get_stats_spec_examples :
  @get_stats (constant_http 200 (hours_body window_example_records)) "03/15/24" "token" "42" =
    Ok (list_to_map [("2024-03-15", mkDayStats "2024-03-15" 7 4 26);
                     ("2024-03-14", mkDayStats "2024-03-14" 0 0 0)]).
Proof. vm_compute. reflexivity. Qed.

Lemma request_range_covers_window_witness :
  ∃ lo hi,
    (∀ hs : Http, @request_manager_stats hs "3/13/24" "token" "7" =
       match @fetch_json hs (stats_url "7" (date_str lo) (date_str hi)) "token" with
       | None => Ok (JList [])
       | Some j => data ← getitem j "data"; getitem data "hours"
       end) ∧
    date_le lo (mkDate 2024 3 14) = true ∧ date_le (mkDate 2024 3 14) hi = true.
Proof.
  exact (request_range_covers_window "3/13/24" "token" "7" (mkDate 2024 3 13)
           (mkDateTime (mkDate 2024 3 14) 3 0 0) (mkDate 2024 3 13) eq_refl eq_refl eq_refl eq_refl).
Defined.
