(* ===== verification/Weekly.v ===== *)
(** * The weekly/monthly calculator (data_handling.py lines 113-196)

    Every function takes the reference string and the statistics dict and
    recomputes the worked dates from scratch, as the code does:
    [get_worked_dates] (120-129) sorts the keys in descending order, keeps
    [weekday] of them, one more when the Monday of the week has an entry,
    and restores ascending order; [calc_week_targets] (132-139) multiplies
    the fixed daily rates 130/110/60 by their number and prints the
    products with [str()]; [calc_week_results] (142-153) sums the entries
    of the worked dates; [get_daily_results] (158-165) lists them;
    [format_worked_dates] (168-179) prints "DD-mon/wkd" with the tables of
    variables.py (85-107); [indicator_circle] (184-196) compares
    [int(result) >= int(target)]; [month_targets] (113-115) is
    [str(len(stats))].

    The theorems: [get_worked_dates] returns the [k] most recent keys in
    ascending order ([worked_dates_latest]); for a well-formed dict every
    key of the week up to the reference date is among them
    ([worked_dates_complete]), but keys of the previous week can be too
    ([worked_dates_previous_week]), and exactly when
    ([worked_dates_exactly_week]); the circles compare the integers
    ([indicator_circle_spec]); the week result is the sum of the daily
    results ([daily_results_sum]). *)

From S2P Require Import Prelude PyStr Calendar RefDate Stats.
From Stdlib Require Import Ascii.

Local Open Scope Z_scope.

(** ** Sorting the keys *)

(** [sorted(keys, reverse=True)] orders by Python's [>] on strings; the
    keys of a dict are distinct, so any sort by this order gives the
    list [sorted] gives.  stdpp's [merge_sort] with the non-strict order
    is used. *)
Definition key_desc (a b : string) : Prop := String.leb b a = true.

#[export] Instance key_desc_dec : RelDecision key_desc.
Proof. intros a b. unfold key_desc. apply _. Defined.

Definition sorted_keys_desc (stats : gmap string day_stats) : list string :=
  merge_sort key_desc ((map_to_list stats).*1).

(** ** The operations *)

(** [get_worked_dates] (lines 120-129). *)
Definition get_worked_dates (inserted_date : string) (stats : gmap string day_stats)
    : result (list string) :=
  weekday ← get_weekday inserted_date;
  monday ← get_monday_date inserted_date;
  let monday_date := date_str monday in
  let sorted_dates := sorted_keys_desc stats in
  let weekday := if bool_decide (monday_date ∈ sorted_dates) then weekday + 1 else weekday in
  let worked_dates := take (Z.to_nat weekday) sorted_dates in
  Ok (reverse worked_dates).

(** The dict of [calc_week_targets]: the three targets as strings. *)
Record week_targets : Type := mkWeekTargets {
  target_calls : string;
  target_uniques : string;
  target_minutes : string
}.

(** [calc_week_targets] (lines 132-139). *)
Definition calc_week_targets (inserted_date : string) (stats : gmap string day_stats)
    : result week_targets :=
  worked ← get_worked_dates inserted_date stats;
  let worked_days := Z.of_nat (length worked) in
  Ok (mkWeekTargets (py_str_int (worked_days * 130)) (py_str_int (worked_days * 110))
        (py_str_int (worked_days * 60))).

(** The dict [{"calls", "uniques", "minutes"}] of week and daily results. *)
Record counts : Type := mkCounts { c_calls : Z; c_uniques : Z; c_minutes : Z }.

Definition zero_counts : counts := mkCounts 0 0 0.

Definition counts_of (e : day_stats) : counts := mkCounts (calls e) (uniques e) (minutes e).

Definition add_counts (a b : counts) : counts :=
  mkCounts (c_calls a + c_calls b) (c_uniques a + c_uniques b) (c_minutes a + c_minutes b).

(** [calc_week_results] (lines 142-153): the loop over the worked dates,
    skipping a date absent from [stats]. *)
Definition calc_week_results (inserted_date : string) (stats : gmap string day_stats)
    : result counts :=
  worked_dates ← get_worked_dates inserted_date stats;
  Ok (foldl (λ week_result date,
               match stats !! date with
               | Some e => add_counts week_result (counts_of e)
               | None => week_result
               end) zero_counts worked_dates).

(** [get_daily_results] (lines 158-165): the dict comprehension keyed by
    the worked dates present in [stats], in the order of the worked dates
    (the order [write_stats] draws them in). *)
Definition get_daily_results (inserted_date : string) (stats : gmap string day_stats)
    : result (list (string * counts)) :=
  worked_dates ← get_worked_dates inserted_date stats;
  Ok (omap (M:=list) (λ date, (λ e, (date, counts_of e)) <$> stats !! date) worked_dates).

(** [months] (variables.py lines 85-98). *)
Definition months : gmap string string :=
  list_to_map [("01", "jan"); ("02", "fev"); ("03", "mar"); ("04", "abr"); ("05", "mai");
               ("06", "jun"); ("07", "jul"); ("08", "ago"); ("09", "set"); ("10", "out");
               ("11", "nov"); ("12", "dez")].

(** [weekdays] (variables.py lines 100-107). *)
Definition weekdays : gmap string string :=
  list_to_map [("0", "seg"); ("1", "ter"); ("2", "qua"); ("3", "qui"); ("4", "sex");
               ("5", "sab"); ("6", "dom")].

(** The body of the loop of [format_worked_dates] (lines 173-177). *)
Definition format_worked_date (worked_date : string) : result string :=
  mkey ← of_option IndexError (py_split "-" worked_date !! 1%nat);
  month ← of_option KeyError (months !! mkey);
  day ← of_option IndexError (py_split "-" worked_date !! 2%nat);
  wd ← get_weekday worked_date;
  weekday ← of_option KeyError (weekdays !! py_str_int wd);
  Ok (String.append day (String "-"%char (String.append month (String "/"%char weekday)))).

(** [format_worked_dates] (lines 168-179). *)
Definition format_worked_dates (inserted_date : string) (stats : gmap string day_stats)
    : result (list string) :=
  worked_dates ← get_worked_dates inserted_date stats;
  mapM format_worked_date worked_dates.

(** [circle_color] (lines 189-190): [int(result) >= int(target)] with an
    int [result] and a string [target]. *)
Definition circle_color (res : Z) (target : string) : result string :=
  t ← py_int target;
  Ok (if bool_decide (t ≤ res) then "green_circle" else "red_circle").

Record circles : Type := mkCircles {
  calls_circle : string;
  uniques_circle : string;
  minutes_circle : string
}.

(** [indicator_circle] (lines 184-196). *)
Definition indicator_circle (inserted_date : string) (stats : gmap string day_stats)
    : result circles :=
  targets ← calc_week_targets inserted_date stats;
  week_results ← calc_week_results inserted_date stats;
  cc ← circle_color (c_calls week_results) (target_calls targets);
  uc ← circle_color (c_uniques week_results) (target_uniques targets);
  mc ← circle_color (c_minutes week_results) (target_minutes targets);
  Ok (mkCircles cc uc mc).

(** [month_targets] (lines 113-115): [str(len(stats))]. *)
Definition month_targets (stats : gmap string day_stats) : string :=
  py_str_int (Z.of_nat (size stats)).

(** The rendering of a pass/fail circle. *)
Definition color (pass : bool) : string := if pass then "green_circle" else "red_circle".

(** The inner dict of one day, as [get_stats] builds it. *)
Definition entry (k : string) (c u m : Z) : string * day_stats := (k, mkDayStats k c u m).

(** ** The worked dates the spec describes *)

(** A key from the Monday of the week on: [str(monday) <= key]. *)
Definition from_monday (monday : date) (y : string) : Prop := String.leb (date_str monday) y = true.

#[export] Instance from_monday_dec monday y : Decision (from_monday monday y).
Proof. unfold from_monday. apply _. Defined.

(** The keys of [stats] from the Monday on, in descending order; reversed,
    they are the worked dates of the spec (section 3). *)
Definition week_keys (monday : date) (stats : gmap string day_stats) : list string :=
  filter (from_monday monday) (sorted_keys_desc stats).

(** How many keys [get_worked_dates] takes for weekday [wd]. *)
Definition worked_count (stats : gmap string day_stats) (monday : date) (wd : Z) : nat :=
  Z.to_nat (if bool_decide (is_Some (stats !! date_str monday)) then wd + 1 else wd).

(** ** The sorted keys *)

#[export] Instance key_desc_trans : Transitive key_desc.
Proof. intros a b c Hab Hbc. unfold key_desc in *. by apply (str_leb_trans c b a). Qed.

#[export] Instance key_desc_total : Total key_desc.
Proof. intros a b. unfold key_desc. destruct (String.leb_total a b); auto. Qed.

(** Python's [<] on strings. *)
Definition str_lt (a b : string) : Prop := String.compare a b = Lt.

Lemma key_desc_lt a b : key_desc a b → a ≠ b → str_lt b a.
Proof.
  unfold key_desc, str_lt. intros H%str_leb_spec Hne.
  destruct (String.compare b a) eqn:E; [apply String.compare_eq_iff in E; congruence|done|done].
Qed.

#[export] Instance str_lt_trans : Transitive str_lt.
Proof. intros a b c. apply str_compare_lt_trans. Qed.

(** A non-strictly descending list without duplicates is strictly descending. *)
Lemma StronglySorted_strict l :
  StronglySorted key_desc l → NoDup l → StronglySorted (flip str_lt) l.
Proof.
  induction 1 as [|x l HS IH HF]; [constructor|].
  intros [Hx Hl]%NoDup_cons. constructor; [auto|].
  apply Forall_forall. intros y Hy. apply key_desc_lt; [by eapply Forall_forall|].
  intros ->. by apply Hx, list_elem_of_In.
Qed.

(** The first [n] entries of a descending key list, reversed, ascend strictly. *)
Lemma reverse_take_ascending L n :
  StronglySorted key_desc L → NoDup L → StronglySorted str_lt (reverse (take n L)).
Proof.
  intros HS ND. apply Sorted_StronglySorted; [apply _|].
  assert (StronglySorted (flip str_lt) (take n L)) as HT.
  { apply StronglySorted_strict.
    - rewrite <- (take_drop n L) in HS. by eapply StronglySorted_app_1_l.
    - eapply sublist_NoDup; [done|apply sublist_take]. }
  apply StronglySorted_Sorted, (Sorted_reverse (flip str_lt)) in HT. exact HT.
Qed.

Lemma sorted_keys_desc_spec stats :
  let L := sorted_keys_desc stats in
  StronglySorted key_desc L ∧ NoDup L ∧ (∀ x, x ∈ L ↔ is_Some (stats !! x)) ∧
  length L = size stats.
Proof.
  assert (P : sorted_keys_desc stats ≡ₚ (map_to_list stats).*1)
    by apply merge_sort_Permutation.
  cbv zeta. split; [apply (StronglySorted_merge_sort key_desc)|split; [|split]].
  - rewrite P. apply NoDup_fst_map_to_list.
  - intros x. rewrite P, list_elem_of_fmap. split.
    + intros ([k v] & -> & Hin%elem_of_map_to_list). by exists v.
    + intros [v Hv]. exists (x, v). split; [done|]. by apply elem_of_map_to_list.
  - rewrite P, length_fmap. apply length_map_to_list.
Qed.

Lemma StronglySorted_take_drop {A} (R : relation A) l n x y :
  StronglySorted R l → x ∈ take n l → y ∈ drop n l → R x y.
Proof.
  intros HS Hx Hy. rewrite <- (take_drop n l) in HS.
  by eapply StronglySorted_app_1_elem_of.
Qed.

(** ** [get_worked_dates] returns the most recent keys *)

Lemma worked_dates_in_stats s stats wds x :
  get_worked_dates s stats = Ok wds → x ∈ wds → is_Some (stats !! x).
Proof.
  unfold get_worked_dates. intros H Hx. inv_ok.
  destruct (sorted_keys_desc_spec stats) as (_ & _ & Hmem & _).
  rewrite elem_of_reverse in Hx. apply Hmem. exact (subseteq_take _ _ x Hx).
Qed.

(** C3: [get_worked_dates] succeeds exactly when the reference string yields a
    weekday and a Monday; its result is then the [k] greatest keys of
    [stats] in ascending order, where [k] is the weekday, plus one when the
    Monday has an entry: no more than there are keys, strictly ascending,
    all keys of [stats], and every key left out is older than every key
    taken. *)
Theorem worked_dates_latest s stats wds :
  get_worked_dates s stats = Ok wds →
  ∃ wd monday, get_weekday s = Ok wd ∧ get_monday_date s = Ok monday ∧
    let k := Z.to_nat (if bool_decide (is_Some (stats !! date_str monday)) then wd + 1 else wd) in
    length wds = min k (size stats) ∧
    StronglySorted str_lt wds ∧
    (∀ x, x ∈ wds → is_Some (stats !! x)) ∧
    (∀ x y, x ∈ wds → is_Some (stats !! y) → y ∉ wds → str_lt y x).
Proof.
  unfold get_worked_dates. intros H. inv_ok.
  rename x into wd, x0 into monday. exists wd, monday. do 2 (split; [done|]).
  destruct (sorted_keys_desc_spec stats) as (HS & ND & Hmem & Hlen).
  set (L := sorted_keys_desc stats) in *.
  assert (Hk : bool_decide (date_str monday ∈ L) = bool_decide (is_Some (stats !! date_str monday))).
  { apply bool_decide_ext, Hmem. }
  rewrite Hk. set (k := Z.to_nat _).
  split; [|split; [|split]].
  - rewrite length_reverse, length_take, Hlen. lia.
  - by apply reverse_take_ascending.
  - intros x Hx. rewrite elem_of_reverse in Hx. apply Hmem. exact (subseteq_take k L x Hx).
  - intros x y Hx Hy Hny. rewrite elem_of_reverse in Hx. apply Hmem in Hy.
    rewrite elem_of_reverse in Hny.
    assert (y ∈ drop k L) as Hyd.
    { rewrite <- (take_drop k L), elem_of_app in Hy. tauto. }
    apply key_desc_lt; [by eapply StronglySorted_take_drop|].
    intros ->. done.
Qed.

(** ** Every key of the week is a worked date *)

(** Distinct keys naming dates within [n] consecutive ordinals, together
    with distinct ordinals of that range that no key names, number at most
    [n]. *)
Lemma window_keys_bound (A : list string) (X : list Z) (lo : Z) (n : nat) :
  NoDup A → NoDup X → (∀ x, x ∈ X → lo ≤ x < lo + Z.of_nat n) →
  (∀ y, y ∈ A → ∃ d, valid_date d = true ∧ y = date_str d ∧
                     lo ≤ toordinal d < lo + Z.of_nat n ∧ toordinal d ∉ X) →
  (length A + length X ≤ n)%nat.
Proof.
  intros ND NDX HX Hin.
  set (f y := match parse_iso y with Ok d => toordinal d | Err _ => 0 end).
  assert (Hf : ∀ y, y ∈ A → ∃ d, valid_date d = true ∧ y = date_str d ∧ f y = toordinal d ∧
                               lo ≤ toordinal d < lo + Z.of_nat n ∧ toordinal d ∉ X).
  { intros y Hy. destruct (Hin y Hy) as (d & V & -> & B). exists d.
    unfold f. rewrite parse_iso_date_str by done. auto. }
  rewrite <- (length_fmap f A), Nat.add_comm, <- length_app.
  apply (NoDup_interval_length _ lo).
  - apply NoDup_app. split; [done|split].
    + intros x Hx (y & -> & Hy)%list_elem_of_fmap. destruct (Hf y Hy) as (d & _ & _ & E & _ & Hn).
      rewrite E in Hx. by apply Hn.
    + apply NoDup_fmap_2_strong; [|done]. intros y1 y2 H1 H2 E.
      destruct (Hf y1 H1) as (d1 & V1 & -> & F1 & _), (Hf y2 H2) as (d2 & V2 & -> & F2 & _).
      rewrite F1, F2 in E. by rewrite (toordinal_inj d1 d2 V1 V2 E).
  - intros x [Hx|(y & -> & Hy)%list_elem_of_fmap]%elem_of_app; [auto|].
    destruct (Hf y Hy) as (d & _ & _ & -> & B & _). done.
Qed.

(** [get_worked_dates] on a reference string of 2000..2068: the first
    [worked_count] keys of the descending list, reversed. *)
Lemma worked_dates_take s ref stats :
  strptime_mdy s = Ok ref → 2000 ≤ year ref →
  ∃ monday, sub_days (Z.to_nat (weekday ref)) ref = Ok monday ∧ valid_date monday = true ∧
    toordinal monday = toordinal ref - weekday ref ∧
    get_worked_dates s stats =
      Ok (reverse (take (worked_count stats monday (weekday ref)) (sorted_keys_desc stats))).
Proof.
  intros Hs Hy.
  destruct (strptime_mdy_inv s ref Hs) as (_ & _ & _ & _ & _ & _ & _ & _ & _ & _ & _ & V).
  pose proof (get_weekday_ref s ref Hs Hy) as Hwd.
  pose proof (get_monday_date_ref s ref Hs Hy) as Hmon.
  pose proof (weekday_range ref) as Hwr.
  pose proof (sub_days_spec (Z.to_nat (weekday ref)) ref V) as Hsub.
  destruct (sub_days (Z.to_nat (weekday ref)) ref) as [monday|e] eqn:Em;
    [|pose proof (toordinal_year_2000 ref V Hy); lia].
  destruct Hsub as [Vm Om]. rewrite Z2Nat.id in Om by lia.
  exists monday. split_and!; [done|done|lia|].
  unfold get_worked_dates. rewrite Hwd, Hmon, !bind_Ok. unfold worked_count.
  destruct (sorted_keys_desc_spec stats) as (_ & _ & Hmem & _).
  by rewrite (bool_decide_ext _ _ (Hmem (date_str monday))).
Qed.

(** The keys from Monday on are a prefix of the descending list. *)
Lemma keys_split monday stats :
  sorted_keys_desc stats =
    week_keys monday stats ++ filter (λ y, ¬ from_monday monday y) (sorted_keys_desc stats).
Proof.
  apply (sorted_filter_split key_desc); [apply sorted_keys_desc_spec|].
  unfold from_monday, key_desc. intros y z Hyz Hz. by apply (str_leb_trans _ z).
Qed.

Lemma week_keys_elem monday stats y :
  y ∈ week_keys monday stats ↔ from_monday monday y ∧ is_Some (stats !! y).
Proof.
  unfold week_keys. rewrite list_elem_of_filter.
  destruct (sorted_keys_desc_spec stats) as (_ & _ & Hmem & _). by rewrite Hmem.
Qed.

Lemma week_keys_NoDup monday stats : NoDup (week_keys monday stats).
Proof. apply NoDup_filter, sorted_keys_desc_spec. Qed.

(** A key of a well-formed dict from Monday on names a day of the week up
    to the reference date. *)
Lemma week_key_date ref stats monday y :
  valid_date ref = true → stats_wf ref stats → valid_date monday = true →
  y ∈ week_keys monday stats →
  ∃ d, valid_date d = true ∧ y = date_str d ∧ is_Some (stats !! y) ∧
       toordinal monday ≤ toordinal d ≤ toordinal ref.
Proof.
  intros Vr Hwf Vm (Py & e & He)%week_keys_elem.
  destruct (Hwf y e He) as (d & Vd & -> & _ & _ & Hle). exists d.
  unfold from_monday in Py. rewrite date_str_leb in Py by done.
  apply date_le_ord in Py, Hle; [|done..]. split_and!; [done|done|eauto|lia|lia].
Qed.

Section WeekCount.
Context (ref monday : date) (stats : gmap string day_stats).
Hypothesis (Vr : valid_date ref = true) (Vm : valid_date monday = true).
Hypothesis (Om : toordinal monday = toordinal ref - weekday ref).

(** The keys from Monday on, with days of the week after Monday that have
    no entry, are no more than the keys [get_worked_dates] takes. *)
Lemma week_keys_count (X : list Z) :
  stats_wf ref stats → NoDup X → (∀ x, x ∈ X → toordinal monday < x ≤ toordinal ref) →
  (∀ d, valid_date d = true → toordinal d ∈ X → stats !! date_str d = None) →
  (length (week_keys monday stats) + length X ≤ worked_count stats monday (weekday ref))%nat.
Proof.
  intros Hwf NDX HX Habs. pose proof (weekday_range ref).
  assert (Hk : ∀ y, y ∈ week_keys monday stats → ∃ d, valid_date d = true ∧ y = date_str d ∧
                 toordinal monday ≤ toordinal d ≤ toordinal ref ∧ (toordinal d ∉ X) ∧
                 (toordinal d = toordinal monday → is_Some (stats !! date_str monday))).
  { intros y Hy. destruct (week_key_date ref stats monday y Vr Hwf Vm Hy) as (d & Vd & -> & Hs & B).
    exists d. split_and!; [done|done|lia|lia|..].
    - intros Hx. rewrite (Habs d Vd Hx) in Hs. by destruct Hs.
    - intros E. by rewrite <- (toordinal_inj d monday Vd Vm E). }
  unfold worked_count. case_bool_decide as Hm.
  - apply (window_keys_bound _ _ (toordinal monday)); [apply week_keys_NoDup|done| |].
    + intros x Hx. specialize (HX x Hx). lia.
    + intros y Hy. destruct (Hk y Hy) as (d & Vd & -> & B & Hn & _). exists d.
      split_and!; [done|done|lia|lia|done].
  - apply (window_keys_bound _ _ (toordinal monday + 1)); [apply week_keys_NoDup|done| |].
    + intros x Hx. specialize (HX x Hx). lia.
    + intros y Hy. destruct (Hk y Hy) as (d & Vd & -> & B & Hn & Hmon). exists d.
      split_and!; [done|done| |lia|done].
      destruct (decide (toordinal d = toordinal monday)) as [E|]; [|lia]. by specialize (Hmon E).
Qed.

(** When every day of the week after Monday up to the reference date has
    an entry, the keys from Monday on are at least as many. *)
Lemma week_keys_full :
  (∀ d, valid_date d = true → toordinal monday < toordinal d ≤ toordinal ref →
        is_Some (stats !! date_str d)) →
  (worked_count stats monday (weekday ref) ≤ length (week_keys monday stats))%nat.
Proof.
  intros Hall. pose proof (weekday_range ref). pose proof (toordinal_pos monday Vm).
  set (wdn := Z.to_nat (weekday ref)).
  assert (Hback : ∀ j, (j < wdn)%nat → ∃ d, sub_days j ref = Ok d ∧ valid_date d = true ∧
                                           toordinal d = toordinal ref - Z.of_nat j).
  { intros j Hj. pose proof (sub_days_spec j ref Vr) as Hs.
    destruct (sub_days j ref) as [d|e]; [|lia]. destruct Hs. eauto. }
  set (back j := match sub_days j ref with Ok d => d | Err _ => ref end).
  assert (Hb : ∀ j, (j < wdn)%nat → valid_date (back j) = true ∧
                   toordinal (back j) = toordinal ref - Z.of_nat j).
  { intros j Hj. destruct (Hback j Hj) as (d & E & Vd & Od). unfold back. by rewrite E. }
  set (D := (λ j, date_str (back j)) <$> seq 0 wdn).
  assert (HD : ∀ y, y ∈ D → ∃ j, (j < wdn)%nat ∧ y = date_str (back j)).
  { intros y (j & -> & Hj%elem_of_seq)%list_elem_of_fmap. exists j. split; [lia|done]. }
  assert (NDD : NoDup D).
  { apply NoDup_fmap_2_strong; [|apply NoDup_seq]. intros i j Hi%elem_of_seq Hj%elem_of_seq E.
    destruct (Hb i ltac:(lia)) as [Vi Oi], (Hb j ltac:(lia)) as [Vj Oj].
    apply date_str_inj in E; [|done..]. rewrite E in Oi. lia. }
  assert (HDk : ∀ y, y ∈ D → y ∈ week_keys monday stats).
  { intros y (j & Hj & ->)%HD. destruct (Hb j Hj) as [Vj Oj]. apply week_keys_elem. split.
    - unfold from_monday. rewrite date_str_leb by done. apply date_le_ord; [done..|lia].
    - apply Hall; [done|lia]. }
  assert (Hmon_not : date_str monday ∉ D).
  { intros (j & Hj & E)%HD. destruct (Hb j Hj) as [Vj Oj].
    apply date_str_inj in E; [|done..]. rewrite <- E in Oj. lia. }
  unfold worked_count. case_bool_decide as Hm.
  - transitivity (length (date_str monday :: D)).
    + simpl. unfold D. rewrite length_fmap, length_seq. lia.
    + apply submseteq_length, NoDup_submseteq; [by constructor|].
      intros y [->|Hy]%elem_of_cons; [|by apply HDk]. apply week_keys_elem. split; [|done].
      unfold from_monday. rewrite date_str_leb by done. apply date_le_ord; [done..|lia].
  - transitivity (length D); [unfold D; rewrite length_fmap, length_seq; lia|].
    apply submseteq_length, NoDup_submseteq; [done|]. exact HDk.
Qed.

End WeekCount.

(** Every key of a well-formed dict from the Monday of the reference week
    on is a worked date. *)
Lemma week_keys_worked s ref stats :
  strptime_mdy s = Ok ref → 2000 ≤ year ref → stats_wf ref stats →
  ∃ monday wds,
    sub_days (Z.to_nat (weekday ref)) ref = Ok monday ∧
    get_worked_dates s stats = Ok wds ∧
    ∀ d, valid_date d = true → date_le monday d = true → is_Some (stats !! date_str d) →
      date_str d ∈ wds.
Proof.
  intros Hs Hy Hwf.
  destruct (strptime_mdy_inv s ref Hs) as (_ & _ & _ & _ & _ & _ & _ & _ & _ & _ & _ & Vr).
  destruct (worked_dates_take s ref stats Hs Hy) as (monday & Em & Vm & Om & Hw).
  eexists monday, _. split_and!; [done|exact Hw|].
  pose proof (week_keys_count ref monday stats Vr Vm Om [] Hwf NoDup_nil_2
                ltac:(by intros ? ?%elem_of_nil) ltac:(by intros ? ? ?%elem_of_nil)) as Hb.
  simpl in Hb. rewrite Nat.add_0_r in Hb.
  intros d Vd Hle Hin. rewrite elem_of_reverse, (keys_split monday stats), take_app_ge by done.
  apply elem_of_app. left. apply week_keys_elem. split; [|done].
  unfold from_monday. by rewrite date_str_leb.
Qed.

(** C4: For a reference string [strptime] reads as a date of 2000..2068 and a
    dict that [get_stats] could have produced for it, [get_worked_dates]
    returns a result, and every key from the Monday of the reference
    date's week on is among the worked dates. *)
Theorem worked_dates_complete s ref stats :
  strptime_mdy s = Ok ref → 2000 ≤ year ref → stats_wf ref stats →
  ∃ monday wds,
    sub_days (Z.to_nat (weekday ref)) ref = Ok monday ∧
    get_worked_dates s stats = Ok wds ∧
    ∀ d, valid_date d = true → date_le monday d = true → is_Some (stats !! date_str d) →
      date_str d ∈ wds.
Proof. exact (week_keys_worked s ref stats). Qed.

(** [get_worked_dates] is the spec's list exactly when no earlier key can
    fill the count: when every day after Monday up to the reference date
    has an entry, or no key is older than Monday. *)
Lemma worked_dates_week_iff s ref stats wds :
  strptime_mdy s = Ok ref → 2000 ≤ year ref → stats_wf ref stats →
  get_worked_dates s stats = Ok wds →
  ∃ monday, sub_days (Z.to_nat (weekday ref)) ref = Ok monday ∧
    (wds = reverse (week_keys monday stats) ↔
     (∀ d, valid_date d = true → toordinal monday < toordinal d ≤ toordinal ref →
           is_Some (stats !! date_str d)) ∨
     (∀ y, is_Some (stats !! y) → String.leb (date_str monday) y = true)).
Proof.
  intros Hs Hy Hwf Hw.
  destruct (strptime_mdy_inv s ref Hs) as (_ & _ & _ & _ & _ & _ & _ & _ & _ & _ & _ & Vr).
  destruct (worked_dates_take s ref stats Hs Hy) as (monday & Em & Vm & Om & Hw').
  rewrite Hw' in Hw. injection Hw as <-. exists monday. split; [done|].
  pose proof (week_keys_count ref monday stats Vr Vm Om [] Hwf NoDup_nil_2
                ltac:(by intros ? ?%elem_of_nil) ltac:(by intros ? ? ?%elem_of_nil)) as Hb.
  simpl in Hb. rewrite Nat.add_0_r in Hb.
  destruct (sorted_keys_desc_spec stats) as (_ & _ & Hmem & _).
  set (W := week_keys monday stats) in *. set (N := filter (λ y, ¬ from_monday monday y) (sorted_keys_desc stats)).
  rewrite (keys_split monday stats), take_app_ge by done. fold W N. split.
  - intros E. apply (inj reverse) in E.
    assert (E' : take (worked_count stats monday (weekday ref) - length W) N = [])
      by (apply (app_inv_head W); by rewrite app_nil_r).
    apply take_nil_inv in E' as [E'|E'].
    + left. intros d Vd Hd. destruct (stats !! date_str d) eqn:Ed; [done|exfalso].
      pose proof (week_keys_count ref monday stats Vr Vm Om [toordinal d] Hwf
        ltac:(by apply NoDup_singleton) ltac:(by intros x ->%list_elem_of_singleton)
        ltac:(intros d' Vd' Hx%list_elem_of_singleton; by rewrite (toordinal_inj d' d Vd' Vd Hx)))
        as Hg.
      simpl in Hg. fold W in Hg. lia.
    + right. intros y Hy'. apply Hmem in Hy'. rewrite (keys_split monday stats) in Hy'.
      fold W N in Hy'. rewrite E', app_nil_r in Hy'. by apply week_keys_elem in Hy' as [? _].
  - intros [Hall|Hall].
    + pose proof (week_keys_full ref monday stats Vr Vm Om Hall) as Hf. fold W in Hf.
      by replace (worked_count stats monday (weekday ref) - length W)%nat with 0%nat
        by lia; rewrite take_0, app_nil_r.
    + assert (N = []) as ->; [|by rewrite take_nil, app_nil_r].
      apply filter_Forall_none, Forall_forall. intros y Hy' Hn. apply Hn, Hall, Hmem.
      exact Hy'.
Qed.

(** C5: The spec's worked dates are the keys from the Monday of the week
    on.  For a reference date of 2000..2068 and a dict [get_stats] could
    have produced, [get_worked_dates] returns exactly those, in ascending
    order, if and only if every day from Tuesday to the reference date has
    an entry or no key is older than Monday; otherwise it also returns
    keys of the previous week. *)
Theorem worked_dates_exactly_week s ref stats wds :
  strptime_mdy s = Ok ref → 2000 ≤ year ref → stats_wf ref stats →
  get_worked_dates s stats = Ok wds →
  ∃ monday, sub_days (Z.to_nat (weekday ref)) ref = Ok monday ∧
    (wds = reverse (week_keys monday stats) ↔
     (∀ d, valid_date d = true → toordinal monday < toordinal d ≤ toordinal ref →
           is_Some (stats !! date_str d)) ∨
     (∀ y, is_Some (stats !! y) → String.leb (date_str monday) y = true)).
Proof. exact (worked_dates_week_iff s ref stats wds). Qed.

(** ** The window can reach into the previous week *)

(** When the manager has no entry for some day between Monday and the
    reference date, [get_worked_dates] still takes [weekday] keys and so
    reaches back before Monday: on Wednesday 2024-03-13, with entries only
    for Friday 2024-03-08 and for 2024-03-13, the worked dates are both
    days, and the week targets count two days.  The spec promises only the
    days from Monday to the reference date. *)
Theorem worked_dates_previous_week :
  let stats := list_to_map [entry "2024-03-08" 140 100 70; entry "2024-03-13" 120 100 50] in
  get_worked_dates "3/13/24" stats = Ok ["2024-03-08"; "2024-03-13"] ∧
  get_monday_date "3/13/24" = Ok (mkDate 2024 3 11) ∧
  calc_week_targets "3/13/24" stats = Ok (mkWeekTargets "260" "220" "120").
Proof. vm_compute. repeat split. Qed.

(** The examples of the spec (section 8): a Monday with no entry gives no
    worked date, a Monday with an entry gives that day, a Wednesday with
    entries from Monday on gives the three days in ascending order, a tie
    of 260 calls against two days' target 260 is a pass, and 2024-03-11
    prints as "11-mar/seg". *)
Theorem worked_dates_spec_examples :
  get_worked_dates "3/11/24" (list_to_map [entry "2024-03-08" 1 1 1]) = Ok [] ∧
  get_worked_dates "3/11/24" (list_to_map [entry "2024-03-11" 1 1 1]) = Ok ["2024-03-11"] ∧
  get_worked_dates "3/13/24" (list_to_map [entry "2024-03-11" 1 1 1; entry "2024-03-12" 1 1 1;
                                           entry "2024-03-13" 1 1 1])
    = Ok ["2024-03-11"; "2024-03-12"; "2024-03-13"] ∧
  calls_circle <$> indicator_circle "3/12/24"
    (list_to_map [entry "2024-03-11" 130 0 0; entry "2024-03-12" 130 0 0]) = Ok "green_circle" ∧
  format_worked_date "2024-03-11" = Ok "11-mar/seg".
Proof. vm_compute. repeat split. Qed.

(** ** Targets, results and circles *)

(** The circles exist as soon as the worked dates do. *)
Lemma indicator_circle_ok s stats wds :
  get_worked_dates s stats = Ok wds → ∃ c, indicator_circle s stats = Ok c.
Proof.
  intros H. unfold indicator_circle, calc_week_targets, calc_week_results. rewrite H, !bind_Ok.
  unfold circle_color. cbn [target_calls target_uniques target_minutes].
  rewrite !py_int_str_int, !bind_Ok. eauto.
Qed.

(** C24: The circles compare the week results with the targets as integers,
    a tie passing: [indicator_circle] reads back with [int()] the targets
    [calc_week_targets] printed with [str()], without loss, so it fails
    only when [get_worked_dates] does. *)
Theorem indicator_circle_spec s stats wds :
  get_worked_dates s stats = Ok wds →
  let n := Z.of_nat (length wds) in
  ∃ res, calc_week_results s stats = Ok res ∧
    indicator_circle s stats =
      Ok (mkCircles (color (bool_decide (n * 130 ≤ c_calls res)))
                    (color (bool_decide (n * 110 ≤ c_uniques res)))
                    (color (bool_decide (n * 60 ≤ c_minutes res)))).
Proof.
  intros H. unfold indicator_circle, calc_week_targets, calc_week_results. rewrite H.
  eexists; split; [done|]. rewrite !bind_Ok. unfold circle_color. cbn [target_calls target_uniques target_minutes].
  by rewrite !py_int_str_int, !bind_Ok.
Qed.

Definition sum_counts (l : list counts) : counts := foldr add_counts zero_counts l.

Lemma add_counts_assoc a b c : add_counts (add_counts a b) c = add_counts a (add_counts b c).
Proof. destruct a, b, c. unfold add_counts. simpl. f_equal; lia. Qed.

Lemma add_counts_zero_r a : add_counts a zero_counts = a.
Proof. destruct a. unfold add_counts. simpl. f_equal; lia. Qed.

Lemma week_loop_sum (stats : gmap string day_stats) acc l :
  foldl (λ week_result date,
           match stats !! date with
           | Some e => add_counts week_result (counts_of e)
           | None => week_result
           end) acc l =
  add_counts acc (sum_counts ((omap (M:=list) (λ date, (λ e, (date, counts_of e)) <$> stats !! date) l).*2)).
Proof.
  revert acc. induction l as [|d l IH]; intros acc; simpl; [by rewrite add_counts_zero_r|].
  rewrite IH. destruct (stats !! d); simpl; [by rewrite add_counts_assoc|done].
Qed.

(** C25: The week result [write_stats] draws in the blue column is the sum of
    the daily results it draws beside it. *)
Theorem daily_results_sum s stats daily :
  get_daily_results s stats = Ok daily →
  calc_week_results s stats = Ok (sum_counts daily.*2).
Proof.
  unfold get_daily_results, calc_week_results. intros H.
  apply bind_eq_Ok in H as (wds & Hw & [= <-]). rewrite Hw, bind_Ok, week_loop_sum.
  f_equal. destruct (sum_counts _). unfold add_counts. simpl. f_equal.
Qed.

(** ** Formatting the worked dates *)

Lemma months_lookup m : 1 ≤ m ≤ 12 → is_Some (months !! pct0d 2 m).
Proof. intros. month_cases m; vm_compute; eauto. Qed.

Lemma weekdays_lookup w : 0 ≤ w < 7 → is_Some (weekdays !! py_str_int w).
Proof.
  intros. assert (w = 0 ∨ w = 1 ∨ w = 2 ∨ w = 3 ∨ w = 4 ∨ w = 5 ∨ w = 6) as Hw by lia.
  repeat destruct Hw as [Hw|Hw]; subst w; vm_compute; eauto.
Qed.

Lemma months_no_slash k mon : months !! k = Some mon → has_char "/"%char mon = false.
Proof.
  intros H. apply elem_of_list_to_map_2 in H.
  repeat (apply elem_of_cons in H as [[= _ ->]|H]; [reflexivity|]). by apply elem_of_nil in H.
Qed.

Lemma weekdays_no_slash k wk : weekdays !! k = Some wk → has_char "/"%char wk = false.
Proof.
  intros H. apply elem_of_list_to_map_2 in H.
  repeat (apply elem_of_cons in H as [[= _ ->]|H]; [reflexivity|]). by apply elem_of_nil in H.
Qed.

(** Every key [str(d)] of a valid date formats without a KeyError or an
    IndexError, as the two-digit day, the month's abbreviation and the
    weekday's abbreviation of the tables of variables.py. *)
Lemma format_worked_date_label d :
  valid_date d = true →
  ∃ mon wk, months !! pct0d 2 (month d) = Some mon ∧
    weekdays !! py_str_int (weekday d) = Some wk ∧
    format_worked_date (date_str d) =
      Ok (String.append (pct0d 2 (day d)) (String "-"%char (String.append mon (String "/"%char wk)))).
Proof.
  intros V. pose proof V as (_ & M & _)%valid_date_spec.
  destruct (months_lookup (month d) M) as [mon Hmon].
  destruct (weekdays_lookup (weekday d) (weekday_range d)) as [wk Hwk].
  exists mon, wk. do 2 (split; [done|]).
  destruct (date_str_split d V) as [Hs _].
  unfold format_worked_date. rewrite Hs. simpl lookup.
  autorewrite with fu_rw. rewrite Hmon. autorewrite with fu_rw.
  rewrite get_weekday_iso by done. autorewrite with fu_rw. rewrite Hwk. by autorewrite with fu_rw.
Qed.

(** The label drawn above a worked date's column. *)
Definition label_of (d : date) (mon wk : string) : string :=
  String.append (pct0d 2 (day d)) (String "-"%char (String.append mon (String "/"%char wk))).

(** The labels of the worked dates of a well-formed dict. *)
Lemma format_worked_dates_labels s ref stats wds :
  stats_wf ref stats → get_worked_dates s stats = Ok wds →
  ∃ labels, format_worked_dates s stats = Ok labels ∧
    Forall2 (λ k lbl, ∃ d mon wk, valid_date d = true ∧ k = date_str d ∧
               months !! pct0d 2 (month d) = Some mon ∧
               weekdays !! py_str_int (weekday d) = Some wk ∧ lbl = label_of d mon wk)
      wds labels.
Proof.
  intros Hwf Hw. unfold format_worked_dates. rewrite Hw, bind_Ok.
  destruct (mapM_Ok format_worked_date wds) as (labels & Hl & _).
  { intros x Hx. destruct (worked_dates_in_stats s stats wds x Hw Hx) as [e He].
    destruct (Hwf x e He) as (d & V & -> & _).
    destruct (format_worked_date_label d V) as (mon & wk & _ & _ & ->). eauto. }
  exists labels. split; [done|]. apply (mapM_Forall2 _ _ _ _ Hl).
  intros x y Hx Hy. destruct (worked_dates_in_stats s stats wds x Hw Hx) as [e He].
  destruct (Hwf x e He) as (d & V & -> & _).
  destruct (format_worked_date_label d V) as (mon & wk & Hm & Hk & Hf).
  exists d, mon, wk. rewrite Hf in Hy. injection Hy as <-. done.
Qed.

(** C26: On a well-formed dict, [format_worked_dates] raises only when
    [get_worked_dates] does, and prints, for each worked date [str(d)] in
    order, the two-digit day, the abbreviation [months] gives the month
    and the one [weekdays] gives the weekday. *)
Theorem format_worked_dates_ok s ref stats wds :
  stats_wf ref stats → get_worked_dates s stats = Ok wds →
  ∃ labels, format_worked_dates s stats = Ok labels ∧
    Forall2 (λ k lbl, ∃ d mon wk, valid_date d = true ∧ k = date_str d ∧
               months !! pct0d 2 (month d) = Some mon ∧
               weekdays !! py_str_int (weekday d) = Some wk ∧ lbl = label_of d mon wk)
      wds labels.
Proof. exact (format_worked_dates_labels s ref stats wds). Qed.

(** ** Bounds of the targets *)

(** At most seven dates are worked in a week and no more than the dict
    holds, so the targets [calc_week_targets] prints are [str(n * rate)]
    for some [0 <= n <= 7]: at most 910 calls, 770 uniques, 420 minutes. *)
Theorem week_targets_bounds s stats wds :
  get_worked_dates s stats = Ok wds →
  (length wds ≤ 7)%nat ∧ (length wds ≤ size stats)%nat ∧
  calc_week_targets s stats =
    Ok (mkWeekTargets (py_str_int (Z.of_nat (length wds) * 130))
          (py_str_int (Z.of_nat (length wds) * 110)) (py_str_int (Z.of_nat (length wds) * 60))).
Proof.
  intros H. unfold calc_week_targets. rewrite H, bind_Ok.
  unfold get_worked_dates in H. apply bind_eq_Ok in H as (wd & Hwd & H).
  apply bind_eq_Ok in H as (mon & _ & [= <-]).
  apply get_weekday_range in Hwd.
  destruct (sorted_keys_desc_spec stats) as (_ & _ & _ & Hlen).
  rewrite length_reverse, length_take, Hlen. repeat split; [|lia].
  case_bool_decide; lia.
Qed.

(** ** Witnesses *)

(** Entries for Monday 2024-03-11 and Wednesday 2024-03-13. *)
Definition example_stats : gmap string day_stats :=
  list_to_map [entry "2024-03-11" 130 110 60; entry "2024-03-13" 150 90 70].

Lemma example_stats_wf : stats_wf (mkDate 2024 3 13) example_stats.
Proof.
  intros k e H. apply elem_of_list_to_map_2 in H.
  unfold entry in H. rewrite !elem_of_cons, elem_of_nil in H.
  destruct H as [[= -> ->]|[[= -> ->]|[]]].
  - exists (mkDate 2024 3 11). vm_compute. auto.
  - exists (mkDate 2024 3 13). vm_compute. auto.
Qed.

Lemma worked_dates_latest_witness :
  ∃ wds, get_worked_dates "3/13/24" example_stats = Ok wds ∧ StronglySorted str_lt wds.
Proof.
  exists ["2024-03-11"; "2024-03-13"].
  assert (H : get_worked_dates "3/13/24" example_stats = Ok ["2024-03-11"; "2024-03-13"])
    by (vm_compute; reflexivity).
  destruct (worked_dates_latest _ _ _ H) as (wd & mon & _ & _ & _ & HS & _). auto.
Defined.

Lemma worked_dates_complete_witness :
  ∃ wds, get_worked_dates "3/13/24" example_stats = Ok wds ∧ "2024-03-11" ∈ wds.
Proof.
  destruct (worked_dates_complete "3/13/24" (mkDate 2024 3 13) example_stats)
    as (mon & wds & Hm & Hw & Hall);
    [reflexivity|simpl; lia|apply example_stats_wf|].
  exists wds. split; [done|]. vm_compute in Hm. injection Hm as <-.
  apply (Hall (mkDate 2024 3 11)); [reflexivity|reflexivity|vm_compute; eauto].
Defined.

Lemma indicator_circle_spec_witness :
  ∃ res, calc_week_results "3/13/24" example_stats = Ok res ∧
    indicator_circle "3/13/24" example_stats =
      Ok (mkCircles (color (bool_decide (2 * 130 ≤ c_calls res)))
                    (color (bool_decide (2 * 110 ≤ c_uniques res)))
                    (color (bool_decide (2 * 60 ≤ c_minutes res)))).
Proof.
  apply (indicator_circle_spec "3/13/24" example_stats ["2024-03-11"; "2024-03-13"]).
  vm_compute. reflexivity.
Defined.

Lemma daily_results_sum_witness :
  calc_week_results "3/13/24" example_stats = Ok (mkCounts 280 200 130).
Proof.
  rewrite (daily_results_sum "3/13/24" example_stats
             [("2024-03-11", mkCounts 130 110 60); ("2024-03-13", mkCounts 150 90 70)]);
    [reflexivity|vm_compute; reflexivity].
Defined.

Lemma format_worked_dates_ok_witness :
  ∃ labels, format_worked_dates "3/13/24" example_stats = Ok labels ∧ length labels = 2%nat.
Proof.
  destruct (format_worked_dates_ok "3/13/24" (mkDate 2024 3 13) example_stats
              ["2024-03-11"; "2024-03-13"]) as (labels & Hl & HF);
    [apply example_stats_wf|vm_compute; reflexivity|].
  exists labels. split; [done|]. apply Forall2_length in HF. simpl in HF. lia.
Defined.

Lemma week_targets_bounds_witness :
  calc_week_targets "3/13/24" example_stats = Ok (mkWeekTargets "260" "220" "120").
Proof.
  destruct (week_targets_bounds "3/13/24" example_stats ["2024-03-11"; "2024-03-13"])
    as (_ & _ & ->); [vm_compute; reflexivity|].
  vm_compute. reflexivity.
Defined.

Lemma worked_dates_exactly_week_witness :
  ∃ monday, sub_days (Z.to_nat (weekday (mkDate 2024 3 13))) (mkDate 2024 3 13) = Ok monday ∧
    (["2024-03-11"; "2024-03-13"] = reverse (week_keys monday example_stats) ↔
     (∀ d, valid_date d = true → toordinal monday < toordinal d ≤ toordinal (mkDate 2024 3 13) →
           is_Some (example_stats !! date_str d)) ∨
     (∀ y, is_Some (example_stats !! y) → String.leb (date_str monday) y = true)).
Proof.
  apply (worked_dates_exactly_week "3/13/24" (mkDate 2024 3 13) example_stats);
    [reflexivity|simpl; lia|apply example_stats_wf|vm_compute; reflexivity].
Defined.
