(* ===== verification/Report.v ===== *)
(** * [write_stats]: the report of one manager

    [write_stats] (image_editing.py lines 27-91) asks the CRM for the
    manager's name, computes every weekly and monthly figure of [Weekly],
    and returns without drawing when the reference date is not among the
    worked dates (the guard of lines 36-39).  Otherwise it computes the
    yaware month target (lines 42-46), draws the figures at the positions
    of variables.py (lines 12-82) and saves the picture as
    [<output_folder>/<D>_<M>_<YY>/<manager>.png].

    The model returns what the function does to the outside world: [None]
    when the guard skips, or a [report]: the folder [os.makedirs] creates,
    the file [template.save] writes, and the list of drawing calls, in
    order.  A drawing call is recorded with the arguments of
    [draw_text_centered] / [paste_circle_image]; where the text then lands
    is [Draw]'s [place], given the font's text widths.  The
    manager's name is the f-string of the two JSON values: [str()] of a
    string is itself, of anything else its [repr] ([py_repr]; code points
    above 255 are outside the model's 8-bit strings).

    [Image.open] of the template (line 49) and of each circle (line 24,
    through [paste_circle_image]) raises FileNotFoundError, an OSError,
    when the file is not there: [write_stats] takes [opens], which says
    whether a path of the working directory holds a file; [Generator]
    answers it from its [world].  The images' pixels are not modelled.

    The theorems: the guard skips exactly when the dict has no entry for
    the reference date ([write_stats_guard]); the two drawing loops of
    lines 75-85 stay aligned, column [i] showing the [i]-th worked date
    ([write_stats_columns]); the images are opened after every other
    computation but the date columns and the file name, so a missing
    image turns a picture into OSError and changes nothing else
    ([write_stats_images]); the yaware target is 7.5 hours a day. *)

From S2P Require Import Prelude PyStr Calendar RefDate Stats Api Weekly.
From Stdlib Require Import Ascii.

Local Open Scope Z_scope.

(** ** [str()] and [repr()] of a decoded JSON value *)

Definition backslash : ascii := ascii_of_N 92.
Definition dquote : ascii := ascii_of_N 34.
Definition squote : ascii := ascii_of_N 39.

Definition hex_char (n : N) : ascii :=
  if (n <? 10)%N then ascii_of_N (48 + n) else ascii_of_N (87 + n).

(** One character inside the quotes of [repr(s)]: the quote and the
    backslash are escaped, tab, newline and return by name, the other
    unprintable Latin-1 code points as [\xhh]. *)
Definition repr_char (quote c : ascii) : string :=
  let n := N_of_ascii c in
  if Ascii.eqb c quote || Ascii.eqb c backslash then String backslash (String c EmptyString)
  else if (n =? 9)%N then String backslash "t"
  else if (n =? 10)%N then String backslash "n"
  else if (n =? 13)%N then String backslash "r"
  else if (n <? 32)%N || ((127 <=? n)%N && (n <=? 160)%N) || (n =? 173)%N
  then String backslash (String "x"%char
         (String (hex_char (n / 16)) (String (hex_char (n mod 16)) EmptyString)))
  else String c EmptyString.

Fixpoint repr_chars (quote : ascii) (s : string) : string :=
  match s with
  | EmptyString => EmptyString
  | String c s' => String.append (repr_char quote c) (repr_chars quote s')
  end.

(** [repr(s)]: single quotes, unless [s] has a single quote and no double
    quote. *)
Definition repr_str (s : string) : string :=
  let quote := if has_char squote s && negb (has_char dquote s) then dquote else squote in
  String quote (String.append (repr_chars quote s) (String quote EmptyString)).

(** [", ".join(parts)]. *)
Fixpoint join_comma (parts : list string) : string :=
  match parts with
  | [] => EmptyString
  | [p] => p
  | p :: ps => String.append p (String ","%char (String " "%char (join_comma ps)))
  end.

(** The value the last field named [k] carries. *)
Definition last_value {A} (k : string) (fields : list (string * A)) : option A :=
  foldl (λ acc kv, if String.eqb kv.1 k then Some kv.2 else acc) None fields.

(** The items of a dict decoded from [fields]: the keys in order of first
    appearance, each with the value of its last occurrence. *)
Definition dict_items {A} (fields : list (string * A)) : list (string * A) :=
  omap (λ k, (λ v, (k, v)) <$> last_value k fields) (dict_keys fields).

(** [repr(j)] of a decoded JSON value. *)
Fixpoint py_repr (j : json) : string :=
  match j with
  | JNull => "None"
  | JBool b => if b then "True" else "False"
  | JInt z => py_str_int z
  | JStr s => repr_str s
  | JList l =>
      String "["%char (String.append (join_comma (map py_repr l)) "]")
  | JObj fs =>
      String "{"%char (String.append
        (join_comma ((λ kv, String.append (repr_str kv.1) (String ":"%char (String " "%char kv.2)))
                       <$> dict_items ((λ kv, (kv.1, py_repr kv.2)) <$> fs))) "}")
  end.

(** [str(j)]: a string is itself. *)
Definition py_str_json (j : json) : string :=
  match j with JStr s => s | _ => py_repr j end.

(** The string [request_manager_name] returns. *)
Definition manager_text (m : manager_name) : string :=
  match m with
  | UnknownManager => "Unknown Manager"
  | FullName f s => String.append (py_str_json f) (String " "%char (py_str_json s))
  end.

Example repr_ex :
  py_repr (JObj [("a", JList [JInt 1; JStr "it's"]); ("b", JNull); ("a", JBool true)]) =
    String.append "{'a': True, 'b': None" "}" ∧
  py_repr (JList [JStr "x"; JInt (-3)]) = "['x', -3]" ∧
  py_str_json (JStr "Ana") = "Ana" ∧
  manager_text (FullName (JStr "Ana") (JStr "Silva")) = "Ana Silva".
Proof. vm_compute. repeat split. Qed.

(** ** The positions of variables.py *)

(** A dict of pixel positions; the code reads only keys it defines, so
    [pos !!! k] is [pos[k]]. *)
Abbreviation position := (gmap string Z).

Definition manager_name_position : position :=
  list_to_map [("x", 20); ("y", 85); ("cell_width", 189); ("cell_height", 20)].

Definition dates_position : position :=
  list_to_map [("x", 488); ("y", 60); ("cell_width", 60); ("cell_height", 26);
               ("weekday_x", 488); ("weekday_y", 84); ("weekday_cell_width", 60);
               ("weekday_cell_height", 20); ("cells_gap", 2)].

Definition targets_position : position :=
  list_to_map [("x", 292); ("cell_width", 81); ("cell_height", 27); ("calls_y", 115);
               ("uniques_y", 146); ("minutes_y", 178); ("yaware_y", 209)].

Definition summed_stats_position : position :=
  list_to_map [("first_row_x", 372); ("cell_height", 27); ("cell_width", 81); ("cells_gap", 4);
               ("calls_y", 115); ("uniques_y", 146); ("minutes_y", 178); ("yaware_y", 209)].

Definition daily_stats_position : position :=
  list_to_map [("x", 488); ("y", 115); ("cell_width", 59); ("cell_height", 27)].

Definition color_indicators_position : position :=
  list_to_map [("x", 460); ("calls_circle_y", 120); ("uniques_circle_y", 150);
               ("minutes_circle_y", 182); ("yaware_circle_y", 215)].

Definition month_stats_position : position :=
  list_to_map [("y", 285); ("worked_days_x", 208); ("yaware_target_x", 292);
               ("yaware_result_x", 372); ("cell_width", 82); ("cell_height", 27);
               ("circle_x", 460); ("circle_y", 290)].

(** [daily_targets["yaware"]], [timedelta(hours=7, minutes=30)], in seconds. *)
Definition daily_yaware_seconds : Z := 7 * 3600 + 30 * 60.

(** ** Drawing calls and the report *)

Inductive draw_op : Type :=
| DrawText (x y cell_width cell_height : Z) (text : string) (rgb : Z * Z * Z)
| PasteCircle (image : string) (x y : Z).

#[export] Instance draw_op_eq_dec : EqDecision draw_op.
Proof. solve_decision. Defined.

Definition black : Z * Z * Z := (0, 0, 0).
Definition white : Z * Z * Z := (255, 255, 255).

(** [draw_text_centered(draw, (p[x], p[y]), text, myfont, p[w], p[h], color)]. *)
Definition text_at (p : position) (x y w h : string) (dx dy : Z) (text : string) (rgb : Z * Z * Z)
    : draw_op :=
  DrawText (p !!! x + dx) (p !!! y + dy) (p !!! w) (p !!! h) text rgb.

(** [os.path.join(a, b)] on POSIX: an absolute [b] replaces [a]. *)
Definition os_join (a b : string) : string :=
  match b with
  | String "/"%char _ => b
  | _ => match a with
         | EmptyString => b
         | _ => if String.eqb (String.substring (String.length a - 1) 1 a) "/"
                then String.append a b else String.append a (String "/"%char b)
         end
  end.

(** What a run of [write_stats] that does not skip does outside: the
    folder [os.makedirs] creates, the file [template.save] writes and the
    drawing calls on the template, in order. *)
Record report : Type := mkReport { rp_dir : string; rp_file : string; rp_draws : list draw_op }.

(** [f"{day}_{month}_{year}"], the folder of a reference date. *)
Definition date_folder (month day year : string) : string :=
  String.append day (String "_"%char (String.append month (String "_"%char year))).

(** [enumerate(l)]. *)
Definition enumerate {A} (l : list A) : list (nat * A) := zip (seq 0 (length l)) l.

(** Lines 75-79: [worked_date, worked_weekday = week_worked_date.split("/")]
    (ValueError unless there are two parts) and the two cells of column [i]. *)
Definition date_column (iw : nat * string) : result (list draw_op) :=
  match py_split "/" iw.2 with
  | [worked_date; worked_weekday] =>
      let dx := Z.of_nat iw.1 * 62 in
      Ok [text_at dates_position "x" "y" "cell_width" "cell_height" dx 0 worked_date black;
          text_at dates_position "weekday_x" "weekday_y" "weekday_cell_width"
            "weekday_cell_height" dx 0 worked_weekday black]
  | _ => Err ValueError
  end.

(** Lines 82-85: the three cells of the daily results of column [i]. *)
Definition daily_column (ir : nat * (string * counts)) : list draw_op :=
  let dx := Z.of_nat ir.1 * 62 in
  let r := ir.2.2 in
  [text_at daily_stats_position "x" "y" "cell_width" "cell_height" dx 0 (py_str_int (c_calls r)) black;
   text_at daily_stats_position "x" "y" "cell_width" "cell_height" dx 31 (py_str_int (c_uniques r)) black;
   text_at daily_stats_position "x" "y" "cell_width" "cell_height" dx 62 (py_str_int (c_minutes r)) black].

(** Lines 42-46: [int(month_worked_days) * daily_targets["yaware"]] as
    ["H:MM:00"]; [total_seconds()] is a float, exact at these sizes. *)
Definition month_yaware_target_str (month_worked_days : string) : result string :=
  n ← py_int month_worked_days;
  let yaware_seconds := n * daily_yaware_seconds in
  let yaware_hours := yaware_seconds / 3600 in
  let yaware_minutes := (yaware_seconds mod 3600) / 60 in
  Ok (String.append (py_str_int yaware_hours)
        (String ":"%char (String.append (pct0d 2 yaware_minutes) ":00"))).

(** [Image.open(path)] (lines 24 and 49): FileNotFoundError, an OSError,
    unless [opens path] (a file is there and PIL reads it). *)
Definition image_open (opens : string → bool) (path : string) : result unit :=
  if opens path then Ok () else Err OSError.

(** [paste_circle_image(template, circle_image_path, position)] (lines
    22-25): open the circle, then the drawing call. *)
Definition paste_circle_image (opens : string → bool) (circle_image_path : string) (x y : Z)
    : result draw_op :=
  _ ← image_open opens circle_image_path; Ok (PasteCircle circle_image_path x y).

(** The images [write_stats] can open: the template and the two circles. *)
Definition report_images : list string := ["template.jpg"; "green_circle.png"; "red_circle.png"].

(** The image a drawing call pastes. *)
Definition pasted (op : draw_op) : option string :=
  match op with PasteCircle p _ _ => Some p | DrawText _ _ _ _ _ _ => None end.

(** The images a picture needs: the template, then its pasted circles. *)
Definition pasted_images (draws : list draw_op) : list string := "template.jpg" :: omap pasted draws.

Section WriteStats.
Context `{Http} (opens : string → bool).

(** [write_stats(inserted_date, stats, headers, output_folder, manager_id)]:
    [None] when the guard skips. *)
Definition write_stats (inserted_date : string) (stats : gmap string day_stats)
    (headers output_folder manager_id : string) : result (option report) :=
  manager ← request_manager_name headers manager_id;
  targets ← calc_week_targets inserted_date stats;
  week_results ← calc_week_results inserted_date stats;
  circle_indicators ← indicator_circle inserted_date stats;
  let month_worked_days := month_targets stats in
  formatted_week_worked_dates ← format_worked_dates inserted_date stats;
  daily_results ← get_daily_results inserted_date stats;
  formatted_inserted_date ← api_date_format inserted_date;
  worked_dates_api_format ← get_worked_dates inserted_date stats;
  if bool_decide (formatted_inserted_date ∉ worked_dates_api_format) then Ok None else
  yaware ← month_yaware_target_str month_worked_days;
  _ ← image_open opens "template.jpg";
  calls_paste ← paste_circle_image opens (String.append (calls_circle circle_indicators) ".png")
    (color_indicators_position !!! "x") (color_indicators_position !!! "calls_circle_y");
  uniques_paste ← paste_circle_image opens (String.append (uniques_circle circle_indicators) ".png")
    (color_indicators_position !!! "x") (color_indicators_position !!! "uniques_circle_y");
  minutes_paste ← paste_circle_image opens (String.append (minutes_circle circle_indicators) ".png")
    (color_indicators_position !!! "x") (color_indicators_position !!! "minutes_circle_y");
  let head :=
    [text_at manager_name_position "x" "y" "cell_width" "cell_height" 0 0
       (manager_text manager) black;
     text_at targets_position "x" "calls_y" "cell_width" "cell_height" 0 0
       (target_calls targets) black;
     text_at targets_position "x" "uniques_y" "cell_width" "cell_height" 0 0
       (target_uniques targets) black;
     text_at targets_position "x" "minutes_y" "cell_width" "cell_height" 0 0
       (target_minutes targets) black;
     text_at summed_stats_position "first_row_x" "calls_y" "cell_width" "cell_height" 0 0
       (py_str_int (c_calls week_results)) white;
     text_at summed_stats_position "first_row_x" "uniques_y" "cell_width" "cell_height" 0 0
       (py_str_int (c_uniques week_results)) white;
     text_at summed_stats_position "first_row_x" "minutes_y" "cell_width" "cell_height" 0 0
       (py_str_int (c_minutes week_results)) white;
     calls_paste; uniques_paste; minutes_paste;
     text_at month_stats_position "worked_days_x" "y" "cell_width" "cell_height" 0 0
       month_worked_days black;
     text_at month_stats_position "yaware_target_x" "y" "cell_width" "cell_height" 0 0
       yaware black] in
  date_cells ← mapM date_column (enumerate formatted_week_worked_dates);
  let daily_cells := daily_column <$> enumerate daily_results in
  match py_split "/" inserted_date with
  | [month; day; year] =>
      let dir := os_join output_folder (date_folder month day year) in
      Ok (Some (mkReport dir (os_join dir (String.append (manager_text manager) ".png"))
                 (head ++ concat date_cells ++ concat daily_cells)))
  | _ => Err ValueError
  end.

End WriteStats.

(** ** Lemmas *)

Lemma label_split d mon wk :
  valid_date d = true → has_char "/"%char mon = false → has_char "/"%char wk = false →
  py_split "/" (label_of d mon wk) = [String.append (pct0d 2 (day d)) (String "-"%char mon); wk].
Proof.
  intros V Hm Hw. pose proof V as (_ & _ & D)%valid_date_spec. unfold days_in_month in D.
  pose proof (dim_tab_bounds (is_leap (year d)) (month d)).
  assert (Hd : has_char "/"%char (pct0d 2 (day d)) = false).
  { destruct (pct0d_spec 2 (day d)) as [Hv _]; [lia| |by eapply digits_no_char].
    apply valid_date_spec in V as (_ & M & _). specialize (H M). simpl. lia. }
  unfold label_of. rewrite py_split_prefix by done.
  change (String "-"%char (String.append mon (String "/"%char wk)))
    with (String.append (String "-"%char mon) (String "/"%char wk)).
  rewrite py_split_app by (simpl; by rewrite Hm). by rewrite (py_split_no_sep _ wk).
Qed.

Lemma date_columns_ok wds labels :
  Forall2 (λ k lbl, ∃ d mon wk, valid_date d = true ∧ k = date_str d ∧
             months !! pct0d 2 (month d) = Some mon ∧
             weekdays !! py_str_int (weekday d) = Some wk ∧ lbl = label_of d mon wk) wds labels →
  ∃ cells, mapM date_column (enumerate labels) = Ok cells.
Proof.
  intros HF. destruct (mapM_Ok date_column (enumerate labels)) as (cells & Hc & _); [|eauto].
  intros [i lbl] Hx. apply elem_of_zip_r, list_elem_of_lookup_1 in Hx as [j Hj].
  destruct (Forall2_lookup_r _ _ _ _ _ HF Hj) as (k & _ & d & mon & wk & V & _ & Hm & Hk & ->).
  unfold date_column. simpl.
  rewrite label_split by eauto using months_no_slash, weekdays_no_slash. eauto.
Qed.

(** The Monday [get_worked_dates] counts from is not after the reference date. *)
Lemma monday_le_ref ref monday :
  valid_date ref = true → sub_days (Z.to_nat (weekday ref)) ref = Ok monday →
  valid_date monday = true ∧ date_le monday ref = true.
Proof.
  intros V Hm. pose proof (sub_days_spec (Z.to_nat (weekday ref)) ref V) as Hsub.
  rewrite Hm in Hsub. destruct Hsub as [Vm Om]. split; [done|].
  apply date_le_ord; [done..|]. lia.
Qed.

Lemma length_enumerate {A} (l : list A) : length (enumerate l) = length l.
Proof. unfold enumerate. rewrite length_zip_with, length_seq. lia. Qed.

(** [enumerate] pairs the [i]-th element with [i]. *)
Lemma enumerate_lookup {A} (l : list A) i x : l !! i = Some x → enumerate l !! i = Some (i, x).
Proof.
  intros Hi. unfold enumerate. rewrite lookup_zip_with, Hi.
  rewrite (proj2 (lookup_seq 0 (length l) i i)); [done|].
  split; [done|]. by eapply lookup_lt_Some.
Qed.

(** The two cells above column [i]: the day and month, and the weekday. *)
Lemma date_column_label i d mon wk :
  valid_date d = true → months !! pct0d 2 (month d) = Some mon →
  weekdays !! py_str_int (weekday d) = Some wk →
  date_column (i, label_of d mon wk) =
    Ok [DrawText (488 + Z.of_nat i * 62) 60 60 26
          (String.append (pct0d 2 (day d)) (String "-"%char mon)) black;
        DrawText (488 + Z.of_nat i * 62) 84 60 20 wk black].
Proof.
  intros V Hm Hw. unfold date_column. simpl.
  rewrite label_split by eauto using months_no_slash, weekdays_no_slash.
  unfold text_at. repeat f_equal.
Qed.

Lemma date_column_length ix c : date_column ix = Ok c → length c = 2%nat.
Proof. unfold date_column. destruct (py_split _ _) as [|? [|? [|]]]; by intros [= <-]. Qed.

(** The three cells of column [i]: calls, uniques and minutes. *)
Lemma daily_column_cells i k e :
  daily_column (i, (k, counts_of e)) =
    [DrawText (488 + Z.of_nat i * 62) 115 59 27 (py_str_int (calls e)) black;
     DrawText (488 + Z.of_nat i * 62) 146 59 27 (py_str_int (uniques e)) black;
     DrawText (488 + Z.of_nat i * 62) 177 59 27 (py_str_int (minutes e)) black].
Proof. unfold daily_column, text_at. simpl. repeat f_equal. Qed.

(** The worked dates are all keys, so the daily results are their entries,
    in the same order. *)
Lemma daily_results_worked s stats wds daily :
  get_worked_dates s stats = Ok wds → get_daily_results s stats = Ok daily →
  Forall2 (λ k dr, ∃ e, stats !! k = Some e ∧ dr = (k, counts_of e)) wds daily.
Proof.
  unfold get_daily_results. intros Hw. rewrite Hw, bind_Ok. intros [= <-].
  eapply Forall2_impl; [apply omap_Forall2|].
  - intros x Hx. destruct (worked_dates_in_stats s stats wds x Hw Hx) as [e He].
    rewrite He. by eexists.
  - intros k dr (e & He & ->)%fmap_Some. eauto.
Qed.

(** A run of [write_stats] that draws has opened the template. *)
Lemma write_stats_template `{Http} opens s stats headers output_folder manager_id r :
  write_stats opens s stats headers output_folder manager_id = Ok (Some r) →
  opens "template.jpg" = true.
Proof.
  unfold write_stats. intros Hr.
  do 8 (apply bind_eq_Ok in Hr as (? & _ & Hr)). case_bool_decide; [discriminate|].
  apply bind_eq_Ok in Hr as (? & _ & Hr). apply bind_eq_Ok in Hr as (? & Hu & _).
  unfold image_open in Hu. by destruct (opens "template.jpg").
Qed.

(** A run of [write_stats] that draws: the twelve fixed calls, then the date
    columns of the labels, then the columns of the daily results. *)
Lemma write_stats_Some `{Http} opens s stats headers output_folder manager_id r :
  write_stats opens s stats headers output_folder manager_id = Ok (Some r) →
  ∃ labels daily cells (head : list draw_op),
    format_worked_dates s stats = Ok labels ∧ get_daily_results s stats = Ok daily ∧
    mapM date_column (enumerate labels) = Ok cells ∧ length head = 12%nat ∧
    rp_draws r = head ++ concat cells ++ concat (daily_column <$> enumerate daily) ∧
    ∃ nm month day year, request_manager_name headers manager_id = Ok nm ∧
      rp_dir r = os_join output_folder (date_folder month day year) ∧
      rp_file r = os_join (rp_dir r) (String.append (manager_text nm) ".png") ∧
      py_split "/" s = [month; day; year].
Proof.
  unfold write_stats. intros Hr.
  apply bind_eq_Ok in Hr as (manager & Hm & Hr). apply bind_eq_Ok in Hr as (tg & _ & Hr).
  apply bind_eq_Ok in Hr as (wk & _ & Hr). apply bind_eq_Ok in Hr as (circ & _ & Hr).
  apply bind_eq_Ok in Hr as (labels & Hl & Hr). apply bind_eq_Ok in Hr as (daily & Hd & Hr).
  apply bind_eq_Ok in Hr as (fd & _ & Hr). apply bind_eq_Ok in Hr as (wds & _ & Hr).
  case_bool_decide; [discriminate|].
  apply bind_eq_Ok in Hr as (yaware & _ & Hr). apply bind_eq_Ok in Hr as (u & _ & Hr).
  apply bind_eq_Ok in Hr as (p1 & _ & Hr). apply bind_eq_Ok in Hr as (p2 & _ & Hr).
  apply bind_eq_Ok in Hr as (p3 & _ & Hr). apply bind_eq_Ok in Hr as (cells & Hc & Hr).
  destruct (py_split "/" s) as [|mo [|da [|ye [|]]]] eqn:Hs; try discriminate. injection Hr as <-.
  eexists labels, daily, cells, [_; _; _; _; _; _; _; _; _; _; _; _].
  split_and!; try done. exists manager, mo, da, ye. by split_and!.
Qed.

(** The circles are the green and the red one. *)
Lemma indicator_circle_images s stats c :
  indicator_circle s stats = Ok c →
  String.append (calls_circle c) ".png" ∈ report_images ∧
  String.append (uniques_circle c) ".png" ∈ report_images ∧
  String.append (minutes_circle c) ".png" ∈ report_images.
Proof.
  unfold indicator_circle, circle_color. intros H.
  repeat (apply bind_eq_Ok in H as (? & ? & H)). injection H as <-. simpl.
  repeat match goal with Hc : (_ ← py_int _; _) = Ok _ |- _ =>
    apply bind_eq_Ok in Hc as (? & _ & Hc); injection Hc as <- end.
  unfold report_images. split_and!; case_bool_decide; set_solver.
Qed.

(** ** Where [write_stats] saves and what it opens *)

Lemma substring_slash n a : String.substring n 1 a = "/" → has_char "/"%char a = true.
Proof.
  revert n. induction a as [|c a IH]; intros [|n]; simpl; try discriminate.
  - destruct a; intros [= ->]; done.
  - intros H. rewrite (IH n H). apply orb_true_r.
Qed.

(** [os.path.join(a, b)] with a nonempty [a] holds a "/". *)
Lemma os_join_slash a b : a ≠ EmptyString → has_char "/"%char (os_join a b) = true.
Proof.
  intros Ha. unfold os_join.
  assert (Hj : has_char "/"%char (match a with
      | EmptyString => b
      | _ => if String.eqb (String.substring (String.length a - 1) 1 a) "/"
             then String.append a b else String.append a (String "/"%char b) end) = true).
  { destruct a as [|c a']; [done|]. destruct (String.eqb _ "/") eqn:E.
    - rewrite has_char_app. apply String.eqb_eq, substring_slash in E. by rewrite E.
    - rewrite has_char_app. simpl. rewrite orb_true_r. done. }
  destruct b as [|c b']; [exact Hj|]. by destruct (Ascii.eqb_spec c "/"%char) as [->|];
    [simpl|destruct c as [[] [] [] [] [] [] [] []]].
Qed.

Lemma os_join_nonempty a b : b ≠ EmptyString → os_join a b ≠ EmptyString.
Proof.
  intros Hb. unfold os_join. destruct b as [|c b']; [done|].
  destruct c as [[] [] [] [] [] [] [] []]; try done;
    destruct a as [|c' a']; try done; case_match; destruct c', a'; done.
Qed.

(** The file [write_stats] saves is a path with a directory: its name
    holds a "/". *)
Lemma write_stats_file_slash `{Http} opens s stats headers output_folder manager_id r :
  write_stats opens s stats headers output_folder manager_id = Ok (Some r) →
  has_char "/"%char (rp_file r) = true.
Proof.
  intros Hr. destruct (write_stats_Some opens s stats headers output_folder manager_id r Hr)
    as (_ & _ & _ & _ & _ & _ & _ & _ & _ & nm & mo & da & ye & _ & Hd & Hf & _).
  rewrite Hf. apply os_join_slash. rewrite Hd. apply os_join_nonempty.
  unfold date_folder. by destruct da.
Qed.

(** [write_stats] only asks the disk about its three images. *)
Lemma write_stats_opens_ext `{Http} o1 o2 s stats headers output_folder manager_id :
  (∀ p, p ∈ report_images → o1 p = o2 p) →
  write_stats o1 s stats headers output_folder manager_id =
    write_stats o2 s stats headers output_folder manager_id.
Proof.
  intros Hext. unfold write_stats, paste_circle_image, image_open.
  repeat (apply bind_ext_Ok; intros ? ?). cbv zeta. repeat (apply bind_ext_Ok; intros ? ?).
  case_bool_decide; [done|]. apply bind_ext_Ok. intros ? _.
  match goal with Hc : indicator_circle _ _ = Ok ?c |- _ =>
    destruct (indicator_circle_images _ _ _ Hc) as (Hi1 & Hi2 & Hi3) end.
  rewrite (Hext "template.jpg"), (Hext (String.append (calls_circle _) ".png")),
    (Hext (String.append (uniques_circle _) ".png")), (Hext (String.append (minutes_circle _) ".png"))
    by (done || set_solver).
  done.
Qed.

Lemma omap_pasted_concat (L : list (list draw_op)) :
  Forall (λ c, omap pasted c = []) L → omap pasted (concat L) = [].
Proof. induction 1 as [|c L Hc _ IH]; [done|]. simpl. by rewrite omap_app, Hc, IH. Qed.

Lemma date_cells_no_paste l cells : mapM date_column l = Ok cells → omap pasted (concat cells) = [].
Proof.
  intros Hc. apply omap_pasted_concat.
  pose proof (mapM_Forall2 date_column (λ ix c, date_column ix = Ok c) _ _ Hc (λ _ _ _ H, H)) as HC.
  apply Forall_forall. intros c (j & Hj)%list_elem_of_lookup_1.
  destruct (Forall2_lookup_r _ _ _ _ _ HC Hj) as ([i w] & _ & Hix).
  unfold date_column in Hix. simpl in Hix. case_match; try discriminate; case_match; try discriminate;
    case_match; try discriminate. by injection Hix as <-.
Qed.

Lemma daily_cells_no_paste l : omap pasted (concat (daily_column <$> l)) = [].
Proof. apply omap_pasted_concat, Forall_fmap, Forall_forall. by intros [i [k c]] _. Qed.

(** Step through the binds both runs of [write_stats] share, and through
    the images one of them opens. *)
Ltac step_binds :=
  repeat first
    [ rewrite bind_Ok | rewrite bind_Err | rewrite bind_assoc | progress cbv beta iota zeta
    | match goal with
      | |- context [mbind _ ?c] =>
          lazymatch c with Ok _ => fail | Err _ => fail | if _ then _ else _ => fail
          | _ => destruct c eqn:? end
      | |- context [if bool_decide ?P then _ else _] => destruct (bool_decide P) eqn:?
      | |- context [match py_split ?c ?s with _ => _ end] => destruct (py_split c s) as [|? [|? [|? [|]]]]
      | |- context [mbind _ (if ?b then _ else _)] => destruct b eqn:?
      end ].

(** ** Properties *)

Section Guard.
Context `{Http}.

(** What [write_stats] does on a well-formed dict. *)
Lemma write_stats_outcome opens s ref stats headers output_folder manager_id nm :
  strptime_mdy s = Ok ref → 2000 ≤ year ref → has_char " "%char s = false →
  stats_wf ref stats → request_manager_name headers manager_id = Ok nm →
  match stats !! date_str ref with
  | None => write_stats opens s stats headers output_folder manager_id = Ok None
  | Some _ => (∀ p, p ∈ report_images → opens p = true) → ∃ ms ds ys r, py_split "/" s = [ms; ds; ys] ∧
      write_stats opens s stats headers output_folder manager_id = Ok (Some r) ∧
      rp_dir r = os_join output_folder (date_folder ms ds ys) ∧
      rp_file r = os_join (rp_dir r) (String.append (manager_text nm) ".png")
  end.
Proof.
  intros Hs Hy Hsp Hwf Hnm.
  destruct (strptime_mdy_inv s ref Hs) as (ms & ds & ys & _ & _ & _ & Hsplit & _ & _ & _ & _ & V).
  destruct (week_keys_worked s ref stats Hs Hy Hwf) as (monday & wds & Hmon & Hw & Hall).
  destruct (indicator_circle_ok s stats wds Hw) as [circ Hc].
  destruct (format_worked_dates_labels s ref stats wds Hwf Hw) as (labels & Hl & HF).
  destruct (date_columns_ok wds labels HF) as [cells Hcells].
  unfold write_stats, calc_week_targets, calc_week_results, get_daily_results.
  rewrite Hnm, Hw, Hc, Hl, (api_date_format_ref s ref Hs Hy Hsp). repeat rewrite bind_Ok.
  destruct (stats !! date_str ref) as [e|] eqn:He.
  - destruct (monday_le_ref ref monday V Hmon) as [Vm Hle].
    rewrite bool_decide_false by (intros Hn; apply Hn, Hall; [done..|by rewrite He]).
    intros Hop. unfold month_yaware_target_str, month_targets. rewrite py_int_str_int, bind_Ok.
    destruct (indicator_circle_images s stats circ Hc) as (H1 & H2 & H3).
    unfold paste_circle_image, image_open. rewrite !Hop by (done || set_solver). rewrite !bind_Ok.
    rewrite Hcells, bind_Ok, Hsplit. eauto 10.
  - rewrite bool_decide_true; [done|]. intros Hin.
    destruct (worked_dates_in_stats s stats wds _ Hw Hin) as [e' He']. congruence.
Qed.

(** C8: The guard of [write_stats] on a dict [get_stats] could have produced:
    for a reference string of 2000..2068 without a space-padded day and a
    manager whose name lookup returns, [write_stats] draws nothing exactly
    when the dict has no entry for the reference date, and otherwise
    raises nothing and saves [<output_folder>/<D>_<M>_<YY>/<name>.png]. *)
Theorem write_stats_guard opens s ref stats headers output_folder manager_id nm :
  strptime_mdy s = Ok ref → 2000 ≤ year ref → has_char " "%char s = false →
  stats_wf ref stats → request_manager_name headers manager_id = Ok nm →
  match stats !! date_str ref with
  | None => write_stats opens s stats headers output_folder manager_id = Ok None
  | Some _ => (∀ p, p ∈ report_images → opens p = true) → ∃ ms ds ys r, py_split "/" s = [ms; ds; ys] ∧
      write_stats opens s stats headers output_folder manager_id = Ok (Some r) ∧
      rp_dir r = os_join output_folder (date_folder ms ds ys) ∧
      rp_file r = os_join (rp_dir r) (String.append (manager_text nm) ".png")
  end.
Proof. exact (write_stats_outcome opens s ref stats headers output_folder manager_id nm). Qed.

End Guard.

(** C11: The tuple unpacking [worked_date, worked_weekday =
    week_worked_date.split("/")] of line 76 never raises on a dict
    [get_stats] could have produced: every label [format_worked_dates]
    returns splits into exactly two parts, and the loop of lines 75-79
    over the enumerated labels draws every date column. *)
Theorem labels_unpack s ref stats labels :
  stats_wf ref stats → format_worked_dates s stats = Ok labels →
  Forall (λ lbl, ∃ worked_date worked_weekday, py_split "/" lbl = [worked_date; worked_weekday])
    labels ∧
  ∃ cells, mapM date_column (enumerate labels) = Ok cells.
Proof.
  intros Hwf Hl. pose proof Hl as Hl0. unfold format_worked_dates in Hl0.
  apply bind_eq_Ok in Hl0 as (wds & Hw & _).
  destruct (format_worked_dates_labels s ref stats wds Hwf Hw) as (labels' & Hl' & HF).
  rewrite Hl in Hl'. injection Hl' as <-. split; [|by eapply date_columns_ok].
  apply Forall_forall. intros lbl (i & Hi)%list_elem_of_lookup_1.
  destruct (Forall2_lookup_r _ _ _ _ _ HF Hi) as (k & _ & d & mon & wk & V & _ & Hm & Hk & ->).
  rewrite label_split by eauto using months_no_slash, weekdays_no_slash. eauto.
Qed.

(** C10: [write_stats] opens its images after every computation but the
    date columns and the file name: compared with a run in which every
    image opens, a picture is drawn exactly when the template and the
    circles it pastes open, and otherwise [Image.open] raises
    FileNotFoundError (an OSError) before anything is saved; a skip does
    not depend on the images; an exception stays, unless a missing image
    raises first. *)
Theorem write_stats_images `{Http} opens s stats headers output_folder manager_id :
  match write_stats (λ _, true) s stats headers output_folder manager_id with
  | Ok (Some r) => write_stats opens s stats headers output_folder manager_id =
      if forallb opens (pasted_images (rp_draws r)) then Ok (Some r) else Err OSError
  | Ok None => write_stats opens s stats headers output_folder manager_id = Ok None
  | Err e => write_stats opens s stats headers output_folder manager_id = Err e ∨
             write_stats opens s stats headers output_folder manager_id = Err OSError
  end.
Proof.
  unfold write_stats, paste_circle_image, image_open. step_binds.
  all: try (left; reflexivity); try (right; reflexivity); try reflexivity.
  all: unfold pasted_images; cbn [rp_draws]; rewrite !omap_app, daily_cells_no_paste;
    match goal with Hc : mapM date_column _ = Ok _ |- _ => rewrite (date_cells_no_paste _ _ Hc) end;
    unfold text_at; cbn;
    repeat match goal with
      | Ho : ?x = true |- context [?x] => rewrite Ho
      | Ho : ?x = false |- context [?x] => rewrite Ho
      end;
    reflexivity.
Qed.

Section Columns.
Context `{Http}.


(** Where each worked date's cells end up in a picture [write_stats] draws. *)
Lemma write_stats_draws opens s ref stats headers output_folder manager_id wds r :
  stats_wf ref stats → get_worked_dates s stats = Ok wds →
  write_stats opens s stats headers output_folder manager_id = Ok (Some r) →
  length (rp_draws r) = (12 + 5 * length wds)%nat ∧
  ∀ i k, wds !! i = Some k → ∃ d e mon wk, valid_date d = true ∧ k = date_str d ∧ stats !! k = Some e ∧
    months !! pct0d 2 (month d) = Some mon ∧ weekdays !! py_str_int (weekday d) = Some wk ∧
    let x := 488 + Z.of_nat i * 62 in
    DrawText x 60 60 26 (String.append (pct0d 2 (day d)) (String "-"%char mon)) black ∈ rp_draws r ∧
    DrawText x 84 60 20 wk black ∈ rp_draws r ∧
    DrawText x 115 59 27 (py_str_int (calls e)) black ∈ rp_draws r ∧
    DrawText x 146 59 27 (py_str_int (uniques e)) black ∈ rp_draws r ∧
    DrawText x 177 59 27 (py_str_int (minutes e)) black ∈ rp_draws r.
Proof.
  intros Hwf Hw Hr.
  destruct (write_stats_Some opens s stats headers output_folder manager_id r Hr)
    as (labels & daily & cells & head & Hl & Hd & Hc & Hh & -> & _).
  destruct (format_worked_dates_labels s ref stats wds Hwf Hw) as (labels' & Hl' & HF).
  rewrite Hl in Hl'. injection Hl' as <-.
  pose proof (daily_results_worked s stats wds daily Hw Hd) as HD.
  pose proof (mapM_Forall2 date_column (λ ix c, date_column ix = Ok c) _ _ Hc (λ _ _ _ H, H)) as HC.
  split.
  - rewrite !length_app, Hh, (length_concat_const 2), (length_concat_const 3), length_fmap,
      !length_enumerate, <-(Forall2_length _ _ _ HC), length_enumerate,
      <-(Forall2_length _ _ _ HF), <-(Forall2_length _ _ _ HD); [lia| |].
    + apply Forall_fmap, Forall_forall. by intros [i [k c]] _.
    + apply Forall_forall. intros c (j & Hj)%list_elem_of_lookup_1.
      destruct (Forall2_lookup_r _ _ _ _ _ HC Hj) as (ix & _ & Hix). exact (date_column_length ix c Hix).
  - intros i k Hi.
    destruct (Forall2_lookup_l _ _ _ _ _ HF Hi) as (lbl & Hli & d & mon & wk & V & -> & Hm & Hk & ->).
    destruct (Forall2_lookup_l _ _ _ _ _ HD Hi) as (dr & Hdi & e & He & ->).
    destruct (Forall2_lookup_l _ _ _ _ _ HC (enumerate_lookup labels i _ Hli)) as (c & Hci & Hcol).
    rewrite date_column_label in Hcol by done. injection Hcol as <-.
    assert (Hdc : (daily_column <$> enumerate daily) !! i = Some (daily_column (i, (date_str d, counts_of e))))
      by (rewrite list_lookup_fmap, (enumerate_lookup daily i _ Hdi); done).
    rewrite daily_column_cells in Hdc.
    exists d, e, mon, wk. cbv zeta. split_and!; [done..| | | | |];
      rewrite !elem_of_app; right; [left|left|right..];
      (eapply elem_of_concat_lookup; [eassumption|]); set_solver.
Qed.

(** C9: In a picture [write_stats] draws, column [i] is the [i]-th worked
    date: the cells above it print that date's day, month and weekday, and
    the three cells below print that date's calls, uniques and minutes;
    besides the twelve fixed cells there are five per worked date and no
    others.  The two loops of lines 75-85 enumerate different dicts
    ([format_worked_dates] and [get_daily_results]); they stay aligned
    because every worked date is a key. *)
Theorem write_stats_columns opens s ref stats headers output_folder manager_id wds r :
  stats_wf ref stats → get_worked_dates s stats = Ok wds →
  write_stats opens s stats headers output_folder manager_id = Ok (Some r) →
  length (rp_draws r) = (12 + 5 * length wds)%nat ∧
  ∀ i k, wds !! i = Some k → ∃ d e mon wk, valid_date d = true ∧ k = date_str d ∧ stats !! k = Some e ∧
    months !! pct0d 2 (month d) = Some mon ∧ weekdays !! py_str_int (weekday d) = Some wk ∧
    let x := 488 + Z.of_nat i * 62 in
    DrawText x 60 60 26 (String.append (pct0d 2 (day d)) (String "-"%char mon)) black ∈ rp_draws r ∧
    DrawText x 84 60 20 wk black ∈ rp_draws r ∧
    DrawText x 115 59 27 (py_str_int (calls e)) black ∈ rp_draws r ∧
    DrawText x 146 59 27 (py_str_int (uniques e)) black ∈ rp_draws r ∧
    DrawText x 177 59 27 (py_str_int (minutes e)) black ∈ rp_draws r.
Proof. exact (write_stats_draws opens s ref stats headers output_folder manager_id wds r). Qed.

End Columns.

(** C33: The yaware month target drawn for [n] days with statistics is
    7.5 hours a day, as ["H:MM:00"]: [7n + n/2] hours and 30 or 0
    minutes as [n] is odd or even. *)
Theorem yaware_target_bounds stats :
  let n := Z.of_nat (size stats) in
  month_yaware_target_str (month_targets stats) =
    Ok (String.append (py_str_int (7 * n + n / 2))
          (String ":"%char (String.append (if Z.even n then "00" else "30") ":00"))).
Proof.
  intros n. unfold month_yaware_target_str, month_targets. rewrite py_int_str_int, bind_Ok.
  fold n. unfold daily_yaware_seconds.
  assert (Hn : 0 ≤ n) by lia.
  assert (Hh : n * (7 * 3600 + 30 * 60) / 3600 = 7 * n + n / 2) by (Z.div_mod_to_equations; lia).
  assert (Hm : n * (7 * 3600 + 30 * 60) mod 3600 / 60 = 30 * (n mod 2))
    by (Z.div_mod_to_equations; lia).
  rewrite Hh, Hm. rewrite Zmod_even. by destruct (Z.even n).
Qed.

Lemma yaware_target_bounds_witness :
  month_yaware_target_str (month_targets example_stats) = Ok "15:00:00".
Proof. rewrite yaware_target_bounds. reflexivity. Defined.

(** A working directory that holds the template and both circles. *)
Definition all_images (p : string) : bool := bool_decide (p ∈ report_images).

(** A CRM that knows the manager as Ana Silva. *)
Definition name_http : Http := λ url _,
  if String.eqb url (name_url "42") then
    Response 200 (Some (JObj [("data", JObj [("user_info",
      JObj [("first_name", JStr "Ana"); ("second_name", JStr "Silva")])])]))
  else ConnectionFailed.

Example write_stats_ex :
  (∃ draws, @write_stats name_http all_images "3/13/24" example_stats "token" "out" "42" =
     Ok (Some (mkReport "out/13_3_24" "out/13_3_24/Ana Silva.png" draws)) ∧ length draws = 22%nat) ∧
  @write_stats name_http all_images "3/12/24" example_stats "token" "out" "42" = Ok None ∧
  @write_stats name_http all_images "3/13/24" example_stats "token" "out" "7" = Ok
     (Some (mkReport "out/13_3_24" "out/13_3_24/Unknown Manager.png"
       (rp_draws (default (mkReport "" "" []) (match @write_stats name_http all_images "3/13/24"
          example_stats "token" "out" "7" with Ok (Some r) => Some r | _ => None end))))).
Proof. split; [eexists; split; [vm_compute; reflexivity|reflexivity]|]. split; vm_compute; reflexivity. Qed.

Lemma write_stats_guard_witness :
  ∃ r, @write_stats name_http all_images "3/13/24" example_stats "token" "out" "42" = Ok (Some r) ∧
       rp_dir r = "out/13_3_24".
Proof.
  pose proof (@write_stats_guard name_http all_images "3/13/24" (mkDate 2024 3 13) example_stats "token"
                "out" "42" (FullName (JStr "Ana") (JStr "Silva"))) as H.
  assert (Hk : example_stats !! date_str (mkDate 2024 3 13) = Some (mkDayStats "2024-03-13" 150 90 70))
    by reflexivity.
  rewrite Hk in H.
  destruct H as (ms & ds & ys & r & Hsp & Hw & Hdir & _);
    [reflexivity|simpl; lia|reflexivity|apply example_stats_wf|vm_compute; reflexivity|
     intros p Hp; unfold all_images; by case_bool_decide|].
  exists r. split; [exact Hw|]. rewrite Hdir. vm_compute in Hsp. injection Hsp as <- <- <-.
  reflexivity.
Defined.

(** The picture of Ana Silva for Wednesday 2024-03-13. *)
Definition example_report : report :=
  match @write_stats name_http all_images "3/13/24" example_stats "token" "out" "42" with
  | Ok (Some r) => r
  | _ => mkReport "" "" []
  end.

Lemma write_stats_columns_witness :
  @write_stats name_http all_images "3/13/24" example_stats "token" "out" "42" = Ok (Some example_report) ∧
  length (rp_draws example_report) = 22%nat ∧
  DrawText 550 84 60 20 "qua" black ∈ rp_draws example_report ∧
  DrawText 550 115 59 27 "150" black ∈ rp_draws example_report.
Proof.
  assert (Hr : @write_stats name_http all_images "3/13/24" example_stats "token" "out" "42" =
                 Ok (Some example_report)) by (vm_compute; reflexivity).
  destruct (@write_stats_columns name_http all_images "3/13/24" (mkDate 2024 3 13) example_stats "token"
              "out" "42" ["2024-03-11"; "2024-03-13"] example_report example_stats_wf
              ltac:(vm_compute; reflexivity) Hr) as [Hlen Hcol].
  destruct (Hcol 1%nat "2024-03-13" eq_refl)
    as (d & e & mon & wk & V & Hk & He & _ & Hwk & _ & H2 & H3 & _).
  apply (date_str_inj (mkDate 2024 3 13) d) in Hk as <-; [|reflexivity|done].
  vm_compute in He, Hwk. injection He as <-. injection Hwk as <-.
  split_and!; [exact Hr|exact Hlen|exact H2|exact H3].
Defined.

Lemma labels_unpack_witness :
  Forall (λ lbl, ∃ worked_date worked_weekday, py_split "/" lbl = [worked_date; worked_weekday])
    ["11-mar/seg"; "13-mar/qua"] ∧
  ∃ cells, mapM date_column (enumerate ["11-mar/seg"; "13-mar/qua"]) = Ok cells.
Proof.
  apply (labels_unpack "3/13/24" (mkDate 2024 3 13) example_stats);
    [apply example_stats_wf|vm_compute; reflexivity].
Defined.
