(* ===== verification/Draw.v ===== *)
(** * Where [draw_text_centered] puts a text

    [draw_text_centered] (image_editing.py lines 15-20) measures the text
    with [draw.textlength(text, font=myfont)], a float that depends on the
    font's metrics, and draws it at
    [x + round((cell_width - text_width) / 2)] and
    [y + round((cell_height - font_size) / 2)], with [font_size = 15]
    (line 12).  Python's [round] goes to the nearest integer and a tie to
    the even one.  The text width is the parameter [textlength] (a
    rational: the font's advance widths are multiples of 1/64 pixel, so
    the float arithmetic is exact).  [place] turns a drawing call of
    [Report] into the position, text and colour PIL receives.

    The theorem: a text no wider than its cell is drawn inside it, centred
    to within half a pixel. *)

From S2P Require Import Prelude PyStr Calendar RefDate Stats Api Weekly Report.
From Stdlib Require Import QArith Lqa.

(** [font_size] (line 12). *)
Definition font_size : Z := 15.

(** Python's [round(q)] for [q = n / d]: [n / d] rounded down, plus one
    when the remainder is more than half of [d], or exactly half and the
    quotient odd. *)
Definition py_round (q : Q) : Z :=
  let n := Qnum q in
  let d := Zpos (Qden q) in
  let f := (n / d)%Z in
  match Z.compare (2 * (n mod d)) d with
  | Lt => f
  | Gt => (f + 1)%Z
  | Eq => if Z.even f then f else (f + 1)%Z
  end.

Section Centered.
Variable textlength : string → Q.

(** [draw_text_centered(draw, (x, y), text, font, cell_width, cell_height,
    color)]: the point [draw.text] receives, the text and the colour. *)
Definition draw_text_centered (x y : Z) (text : string) (cell_width cell_height : Z)
    (color : Z * Z * Z) : (Z * Z) * string * (Z * Z * Z) :=
  let text_width := textlength text in
  let x_position := (x + py_round ((inject_Z cell_width - text_width) / inject_Z 2))%Z in
  let y_position := (y + py_round (inject_Z (cell_height - font_size) / inject_Z 2))%Z in
  ((x_position, y_position), text, color).

(** The text a drawing call of [write_stats] puts on the template. *)
Definition place (op : draw_op) : option ((Z * Z) * string * (Z * Z * Z)) :=
  match op with
  | DrawText x y w h t c => Some (draw_text_centered x y t w h c)
  | PasteCircle _ _ _ => None
  end.

End Centered.

Example py_round_ex :
  py_round (5 # 2) = 2%Z ∧ py_round (11 # 2) = 6%Z ∧ py_round (-5 # 2) = (-2)%Z ∧
  py_round (7 # 3) = 2%Z ∧ py_round (8 # 3) = 3%Z.
Proof. vm_compute. repeat split. Qed.

(** ** [round] *)

(** [round(q)] is within half of [q], in integers. *)
Lemma py_round_near_Z n d :
  (2 * Z.abs (n - py_round (n # d) * Zpos d) <= Zpos d)%Z.
Proof.
  unfold py_round. cbn [Qnum Qden].
  pose proof (Z.div_mod n (Zpos d) ltac:(lia)) as Hdm.
  pose proof (Z.mod_pos_bound n (Zpos d) ltac:(lia)) as Hb.
  set (f := (n / Zpos d)%Z) in *. set (r := (n mod Zpos d)%Z) in *.
  destruct (Z.compare_spec (2 * r) (Zpos d)); [destruct (Z.even f)| |]; lia.
Qed.

Lemma py_round_near q : (inject_Z (py_round q) - (1 # 2) <= q <= inject_Z (py_round q) + (1 # 2))%Q.
Proof.
  destruct q as [n d]. pose proof (py_round_near_Z n d) as H.
  set (r := py_round (n # d)) in *.
  unfold Qle, Qminus, Qplus, Qopp, inject_Z. cbn [Qnum Qden]. split; lia.
Qed.

(** ** Properties *)

(** C32: [draw_text_centered] centres its text to within half a pixel:
    the point it draws at is within half a pixel of
    [(x + (cell_width - width) / 2, y + (cell_height - 15) / 2)], so a text
    no wider than its cell starts and ends inside it, give or take half a
    pixel. *)
Theorem centered_in_cell (textlength : string → Q) x y t w h c :
  (0 <= textlength t <= inject_Z w)%Q →
  let '((x', y'), _, _) := draw_text_centered textlength x y t w h c in
  (inject_Z x' - (1 # 2) <= inject_Z x + (inject_Z w - textlength t) / 2 <= inject_Z x' + (1 # 2))%Q ∧
  (inject_Z y' - (1 # 2) <= inject_Z y + inject_Z (h - font_size) / 2 <= inject_Z y' + (1 # 2))%Q ∧
  (inject_Z x - (1 # 2) <= inject_Z x')%Q ∧
  (inject_Z x' + textlength t <= inject_Z (x + w) + (1 # 2))%Q.
Proof.
  intros Ht. unfold draw_text_centered. cbv zeta.
  set (qx := ((inject_Z w - textlength t) / inject_Z 2)%Q).
  set (qy := (inject_Z (h - font_size) / inject_Z 2)%Q).
  pose proof (py_round_near qx) as Hx. pose proof (py_round_near qy) as Hy.
  assert (Ex : ((inject_Z w - textlength t) / 2 == qx)%Q) by (unfold qx; field).
  assert (Ey : (inject_Z (h - font_size) / 2 == qy)%Q) by (unfold qy; field).
  assert (Ew : (textlength t == inject_Z w - qx * 2)%Q) by (rewrite <- Ex; field).
  clearbody qx qy. rewrite !inject_Z_plus, Ex, Ey. rewrite Ew in Ht |- *. split_and!; lra.
Qed.

Lemma centered_in_cell_witness :
  (inject_Z 503 - (1 # 2) <= inject_Z 488 + (inject_Z 60 - 30) / 2 <= inject_Z 503 + (1 # 2))%Q ∧
  (inject_Z 66 - (1 # 2) <= inject_Z 60 + inject_Z (26 - font_size) / 2 <= inject_Z 66 + (1 # 2))%Q ∧
  (inject_Z 488 - (1 # 2) <= inject_Z 503)%Q ∧
  (inject_Z 503 + 30 <= inject_Z (488 + 60) + (1 # 2))%Q.
Proof.
  exact (centered_in_cell (λ _, 30%Q) 488 60 "13-mar" 60 26 black
           ltac:(split; unfold Qle; simpl; lia)).
Defined.
