(* ===== verification/Generator.v ===== *)
(** * The form: [generate_followups], [create_date_folder] and [submit]

    "FollowUp Generator.py" (src/unnamed/part_000) is a Tk form.  Its
    button runs [generate_followups] (lines 12-41): strip the token, check
    the token and the folder, create the folder of the selected date
    ([create_date_folder], lines 59-69), run [submit] (lines 44-50) for
    every manager id of [managers_ids.ids], and report completion.
    [submit] runs [get_stats] and [write_stats] and catches any exception
    into a message box, so one manager's failure does not stop the others.

    The model threads a [world]: the directories and files on disk (paths
    compared as strings, without normalisation) and the message boxes
    shown, in order.  A message box that shows an exception records the
    exception's class in place of its text.  [write_stats] opens its
    images on the world's files ([image_opens]); no picture is saved
    under the name of an image, since a picture's path holds a "/".
    [managers_ids] is not part of the repository: the ids are a
    parameter.  The widgets and the event loop are in [Form];
    [time.sleep(1)] (line 37) changes nothing the model observes. *)

From S2P Require Import Prelude PyStr Calendar RefDate Stats Api Aggregator Weekly Report.

From Stdlib Require Import Ascii.

Local Open Scope Z_scope.

(** ** The world the form acts on *)

(** The text of a message box: a fixed string, or a prefix followed by
    [str(e)]. *)
Inductive msg_text : Type :=
| Text (s : string)
| WithException (prefix : string) (e : py_exn).

Inductive message : Type :=
| ShowError (title : string) (text : msg_text)
| ShowInfo (title text : string).

#[export] Instance msg_text_eq_dec : EqDecision msg_text.
Proof. solve_decision. Defined.

#[export] Instance message_eq_dec : EqDecision message.
Proof. solve_decision. Defined.

Record world : Type := mkWorld {
  dirs : gset string;
  files : gmap string (list draw_op);
  messages : list message
}.

Definition show (w : world) (m : message) : world :=
  mkWorld (dirs w) (files w) (messages w ++ [m]).

(** [os.path.isdir] and [os.path.exists]. *)
Definition isdir (w : world) (p : string) : bool := bool_decide (p ∈ dirs w).
Definition path_exists (w : world) (p : string) : bool :=
  bool_decide (p ∈ dirs w) || bool_decide (is_Some (files w !! p)).

(** The directories [os.makedirs(p)] creates: [p] and each of its
    ancestors, the prefixes of [p] that end before a "/". *)
Definition ancestors (p : string) : list string :=
  let parts := py_split "/" p in
  filter (λ q, q ≠ EmptyString) ((λ k, py_join "/"%char (take k parts)) <$> seq 1 (length parts)).

(** [os.makedirs(p, exist_ok=True)]: an OSError ([FileExistsError],
    [NotADirectoryError]) when [p] or one of its ancestors is a file. *)
Definition makedirs (w : world) (p : string) : result world :=
  if bool_decide (Exists (λ q, is_Some (files w !! q)) (ancestors p)) then Err OSError
  else Ok (mkWorld (list_to_set (ancestors p) ∪ dirs w) (files w) (messages w)).

(** [p[:p.rfind("/") + 1]]: [p] up to and including its last "/". *)
Fixpoint upto_last_slash (p : string) : string :=
  match p with
  | EmptyString => EmptyString
  | String c p' =>
      if has_char "/"%char p' then String c (upto_last_slash p')
      else if Ascii.eqb c "/"%char then String c EmptyString else EmptyString
  end.

Fixpoint rstrip_slash (p : string) : string :=
  match p with
  | EmptyString => EmptyString
  | String c p' =>
      let r := rstrip_slash p' in
      if bool_decide (r = EmptyString) && Ascii.eqb c "/"%char then EmptyString else String c r
  end.

Fixpoint only_slashes (p : string) : bool :=
  match p with
  | EmptyString => true
  | String c p' => Ascii.eqb c "/"%char && only_slashes p'
  end.

(** [os.path.dirname(p)]. *)
Definition dirname (p : string) : string :=
  let head := upto_last_slash p in
  if bool_decide (head ≠ EmptyString) && negb (only_slashes head) then rstrip_slash head else head.

(** [template.save(p)]: IsADirectoryError on a directory, FileNotFoundError
    unless the parent directory exists (the current directory and the root
    always do). *)
Definition save (w : world) (p : string) (img : list draw_op) : result world :=
  let parent := dirname p in
  if bool_decide (p ∈ dirs w) then Err OSError
  else if bool_decide (parent = EmptyString ∨ parent = "/" ∨ parent ∈ dirs w)
  then Ok (mkWorld (dirs w) (<[p := img]> (files w)) (messages w))
  else Err OSError.

(** ** The three handlers *)

(** [create_date_folder] (lines 59-69): unpacking the date (ValueError)
    and [os.makedirs] are inside [try ... except Exception]. *)
Definition create_date_folder (w : world) (chosen_folder inserted_date : string) : world :=
  match py_split "/" inserted_date with
  | [month; day; year] =>
      let folder_path := os_join chosen_folder (date_folder month day year) in
      if path_exists w folder_path then w
      else match makedirs w folder_path with
           | Ok w' => w'
           | Err e => show w (ShowError "Error" (WithException "Could not create folder: " e))
           end
  | _ => show w (ShowError "Error" (WithException "Could not create folder: " ValueError))
  end.

(** [Image.open(path)] finds a file at [path] (relative to the working
    directory, as the code's paths are). *)
Definition image_opens (w : world) (p : string) : bool := bool_decide (is_Some (files w !! p)).

Section Handlers.
Context `{Http}.

(** What the [try] of [submit] computes before touching the disk:
    [get_stats] then [write_stats], which opens its images on [w]. *)
Definition manager_result (w : world) (bearer chosen_folder inserted_date manager_id : string)
    : result (option report) :=
  stats ← get_stats inserted_date bearer manager_id;
  write_stats (image_opens w) inserted_date stats bearer chosen_folder manager_id.

(** The body of [submit]'s [try]: the world it leaves and the exception
    that ends it.  [write_stats] creates its folder and saves its picture
    after every computation, so an exception of the computations leaves
    the disk as it was. *)
Definition submit_body (w : world) (bearer chosen_folder inserted_date manager_id : string)
    : world * option py_exn :=
  match manager_result w bearer chosen_folder inserted_date manager_id with
  | Err e => (w, Some e)
  | Ok None => (w, None)
  | Ok (Some r) =>
      match makedirs w (rp_dir r) with
      | Err e => (w, Some e)
      | Ok w1 =>
          match save w1 (rp_file r) (rp_draws r) with
          | Err e => (w1, Some e)
          | Ok w2 => (w2, None)
          end
      end
  end.

Definition failure_text (manager_id : string) : string :=
  String.append "Failed to process manager " (String.append manager_id ": ").

(** [submit] (lines 44-50). *)
Definition submit (w : world) (bearer chosen_folder inserted_date manager_id : string) : world :=
  match submit_body w bearer chosen_folder inserted_date manager_id with
  | (w', None) => w'
  | (w', Some e) => show w' (ShowError "Error" (WithException (failure_text manager_id) e))
  end.

(** [generate_followups] (lines 12-41) for the entry's text, the folder
    variable and the calendar's date; [str.strip()] removes the ASCII
    whitespace [PyStr.is_py_space] lists. *)
Definition generate_followups (ids : list string) (entry_text folder_text calendar_date : string)
    (w : world) : world :=
  let bearer := lstrip (rstrip entry_text) in
  let chosen_folder := folder_text in
  let inserted_date := calendar_date in
  if bool_decide (bearer = EmptyString) then
    show w (ShowError "Error" (Text "Authorization token cannot be empty."))
  else if bool_decide (chosen_folder = EmptyString) then
    show w (ShowError "Error" (Text "Please select a folder."))
  else if negb (isdir w chosen_folder) then
    show w (ShowError "Error" (Text "Selected folder does not exist."))
  else
    let w1 := create_date_folder w chosen_folder inserted_date in
    let w2 := foldl (λ w manager_id, submit w bearer chosen_folder inserted_date manager_id) w1 ids in
    show w2 (ShowInfo "Completed" "Processing completed successfully!").

End Handlers.

Example generator_ex :
  ancestors "/home/u/out/13_3_24" = ["/home"; "/home/u"; "/home/u/out"; "/home/u/out/13_3_24"] ∧
  dirname "out/13_3_24/Ana Silva.png" = "out/13_3_24" ∧ dirname "a.png" = "" ∧
  dirname "/a.png" = "/" ∧ dirname "a//b/" = "a//b".
Proof. vm_compute. repeat split. Qed.

(** ** The run only adds files and messages *)

(** [w'] has every file of [w] and its messages extend those of [w]. *)
Definition world_le (w w' : world) : Prop :=
  (∀ p, is_Some (files w !! p) → is_Some (files w' !! p)) ∧
  ∃ ms, messages w' = messages w ++ ms.

#[export] Instance world_le_preorder : PreOrder world_le.
Proof.
  split.
  - intros w. split; [done|]. exists []. by rewrite app_nil_r.
  - intros w1 w2 w3 [F12 [m12 M12]] [F23 [m23 M23]]. split; [auto|].
    exists (m12 ++ m23). by rewrite M23, M12, app_assoc.
Qed.

Lemma show_le w m : world_le w (show w m).
Proof. split; [done|]. by exists [m]. Qed.

Lemma makedirs_le w p w' : makedirs w p = Ok w' → world_le w w'.
Proof.
  unfold makedirs. case_bool_decide; intros [= <-]. split; [done|]. exists []. by rewrite app_nil_r.
Qed.

Lemma save_le w p img w' : save w p img = Ok w' → world_le w w' ∧ files w' !! p = Some img.
Proof.
  unfold save. repeat case_bool_decide; intros [= <-].
  split; [split; [|exists []; by rewrite app_nil_r]|simpl; by rewrite lookup_insert_eq].
  intros q Hq. simpl. rewrite lookup_insert_is_Some'. auto.
Qed.

Lemma create_date_folder_le w f d : world_le w (create_date_folder w f d).
Proof.
  unfold create_date_folder. destruct (py_split "/" d) as [|? [|? [|? [|]]]]; try apply show_le.
  destruct (path_exists _ _); [done|]. destruct (makedirs _ _) eqn:E; [by eapply makedirs_le|apply show_le].
Qed.

Lemma show_elem w m : m ∈ messages (show w m).
Proof. simpl. apply elem_of_app. right. apply list_elem_of_here. Qed.

(** The files [write_stats] opens are the same on [w] and [w']. *)
Definition same_images (w w' : world) : Prop :=
  ∀ p, p ∈ report_images → files w !! p = files w' !! p.

Lemma same_images_refl w : same_images w w.
Proof. done. Qed.

Lemma same_images_trans w1 w2 w3 : same_images w1 w2 → same_images w2 w3 → same_images w1 w3.
Proof. intros H12 H23 p Hp. by rewrite H12, H23. Qed.

Lemma report_images_no_slash p : p ∈ report_images → has_char "/"%char p = false.
Proof.
  assert (H : Forall (λ p, has_char "/"%char p = false) report_images) by (repeat constructor).
  rewrite Forall_forall in H. apply H.
Qed.

Lemma makedirs_files w p w' : makedirs w p = Ok w' → files w' = files w.
Proof. unfold makedirs. case_bool_decide; by intros [= <-]. Qed.

Lemma save_files_eq w p img w' : save w p img = Ok w' → files w' = <[p := img]> (files w).
Proof. unfold save. repeat case_bool_decide; by intros [= <-]. Qed.

Lemma create_date_folder_files w f d : files (create_date_folder w f d) = files w.
Proof.
  unfold create_date_folder. destruct (py_split "/"%char d) as [|? [|? [|? [|]]]]; try done.
  destruct (path_exists _ _); [done|]. destruct (makedirs _ _) eqn:E; [|done].
  exact (makedirs_files _ _ _ E).
Qed.


Section Run.
Context `{Http}.

Lemma manager_result_images w w' b f d id :
  same_images w w' → manager_result w b f d id = manager_result w' b f d id.
Proof.
  intros Hs. unfold manager_result. apply bind_ext_Ok. intros stats _.
  apply write_stats_opens_ext. intros p Hp. unfold image_opens. by rewrite (Hs p Hp).
Qed.

(** [submit] writes no image [write_stats] opens: its picture's name holds a "/". *)
Lemma submit_images w b f d id : same_images w (submit w b f d id).
Proof.
  intros p Hp. unfold submit, submit_body.
  destruct (manager_result w b f d id) as [[r|]|e] eqn:Em; [|done|done].
  destruct (makedirs w (rp_dir r)) as [w1|e] eqn:E1; [|done].
  apply makedirs_files in E1.
  destruct (save w1 (rp_file r) (rp_draws r)) as [w2|e] eqn:E2; [|simpl; by rewrite E1].
  rewrite (save_files_eq _ _ _ _ E2), E1, lookup_insert_ne; [done|].
  intros <-. unfold manager_result in Em. apply bind_eq_Ok in Em as (? & _ & Em).
  apply write_stats_file_slash in Em. by rewrite report_images_no_slash in Em.
Qed.

(** What the run leaves for one manager, whose images are read on [w0]:
    the error message of its exception; nothing when the guard skipped;
    its picture on disk, or the error message of the failed [makedirs] or
    [save]. *)
Definition accounted (w0 : world) (bearer chosen_folder inserted_date manager_id : string) (w : world)
    : Prop :=
  match manager_result w0 bearer chosen_folder inserted_date manager_id with
  | Err e => ShowError "Error" (WithException (failure_text manager_id) e) ∈ messages w
  | Ok None => True
  | Ok (Some r) =>
      is_Some (files w !! rp_file r) ∨
      ∃ e, ShowError "Error" (WithException (failure_text manager_id) e) ∈ messages w
  end.

Lemma accounted_mono w0 b f d id w w' :
  world_le w w' → accounted w0 b f d id w → accounted w0 b f d id w'.
Proof.
  intros [Hf [ms Hm]]. unfold accounted. rewrite Hm.
  destruct (manager_result w0 b f d id) as [[r|]|e]; [|done|intros; apply elem_of_app; by left].
  intros [Hs|[e He]]; [left; auto|right; exists e; apply elem_of_app; by left].
Qed.

Lemma accounted_images w0 w0' b f d id w :
  same_images w0 w0' → accounted w0' b f d id w → accounted w0 b f d id w.
Proof. intros Hs. unfold accounted. by rewrite (manager_result_images w0 w0' b f d id Hs). Qed.

Lemma submit_le w b f d id : world_le w (submit w b f d id).
Proof.
  unfold submit, submit_body. destruct (manager_result w b f d id) as [[r|]|e]; [|done|apply show_le].
  destruct (makedirs w (rp_dir r)) as [w1|e] eqn:E1; [|apply show_le].
  apply makedirs_le in E1. destruct (save w1 (rp_file r) (rp_draws r)) as [w2|e] eqn:E2.
  - etransitivity; [exact E1|]. by apply save_le in E2 as [? _].
  - etransitivity; [exact E1|apply show_le].
Qed.

Lemma submit_accounted w b f d id : accounted w b f d id (submit w b f d id).
Proof.
  unfold accounted, submit, submit_body.
  destruct (manager_result w b f d id) as [[r|]|e]; [|done|apply show_elem].
  destruct (makedirs w (rp_dir r)) as [w1|e] eqn:E1; [|right; exists e; apply show_elem].
  destruct (save w1 (rp_file r) (rp_draws r)) as [w2|e] eqn:E2.
  - left. apply save_le in E2 as [_ ->]. eauto.
  - right. exists e. apply show_elem.
Qed.

Lemma foldl_submit b f d ids w :
  world_le w (foldl (λ w id, submit w b f d id) w ids) ∧
  same_images w (foldl (λ w id, submit w b f d id) w ids) ∧
  ∀ id, id ∈ ids → accounted w b f d id (foldl (λ w id, submit w b f d id) w ids).
Proof.
  revert w. induction ids as [|id ids IH]; intros w; simpl.
  - split_and!; [reflexivity|apply same_images_refl|]. intros id Hid. by apply elem_of_nil in Hid.
  - destruct (IH (submit w b f d id)) as (Hle & Hs & Hall). pose proof (submit_images w b f d id) as Hs1.
    split_and!.
    + etransitivity; [apply submit_le|exact Hle].
    + eapply same_images_trans; [exact Hs1|exact Hs].
    + intros id' [->|Hin]%elem_of_cons.
      * eapply accounted_mono; [exact Hle|apply submit_accounted].
      * eapply accounted_images; [exact Hs1|auto].
Qed.

(** ** Properties *)

(** C12: End to end, for one manager: when the stats request returns
    records that all parse, the manager's picture is skipped exactly when
    none of the records is counted on the reference date; otherwise
    [get_stats] and [write_stats] raise nothing and the picture is named
    after the manager. *)
Theorem manager_skipped_iff_no_record w s ref bearer folder manager_id nm j es rs :
  strptime_mdy s = Ok ref → 2000 ≤ year ref → has_char " "%char s = false →
  request_manager_name bearer manager_id = Ok nm →
  request_manager_stats s bearer manager_id = Ok j → py_iter j = Ok es →
  mapM record_contrib es = Ok rs → (∀ p, p ∈ report_images → is_Some (files w !! p)) →
  (manager_result w bearer folder s manager_id = Ok None ↔ ref ∉ rs.*1) ∧
  (ref ∈ rs.*1 → ∃ r, manager_result w bearer folder s manager_id = Ok (Some r) ∧
                      rp_file r = os_join (rp_dir r) (String.append (manager_text nm) ".png")).
Proof.
  intros Hs Hy Hsp Hnm Hj Hes Hrs Himg.
  assert (Hg : get_stats s bearer manager_id = Ok (spec_stats ref rs))
    by (rewrite get_stats_eq, Hj, bind_Ok, Hes, bind_Ok, Hrs, bind_Ok, Hs; done).
  pose proof (records_valid es rs Hrs) as Hv.
  pose proof (spec_stats_has_ref ref rs (proj1 (strptime_mdy_year s ref Hs)) Hv) as Hlk.
  pose proof (write_stats_outcome (image_opens w) s ref (spec_stats ref rs) bearer folder manager_id nm
                Hs Hy Hsp (spec_stats_wf ref rs Hv) Hnm) as Hw.
  unfold manager_result. rewrite Hg, bind_Ok.
  destruct (spec_stats ref rs !! date_str ref) as [e|] eqn:E.
  - destruct Hw as (ms & ds & ys & r & _ & Hw & _ & Hf);
      [intros p Hp; unfold image_opens; by apply bool_decide_eq_true_2, Himg|]. rewrite Hw.
    assert (ref ∈ rs.*1) by (apply Hlk; eauto). split; [split; [discriminate|done]|eauto].
  - rewrite Hw. assert (ref ∉ rs.*1) as Hn by (intros Hin; apply Hlk in Hin as [? ?]; congruence).
    split; [done|]. intros Hin. done.
Qed.


(** C31: With an empty token (after [strip()]), no folder, or a folder that
    is not a directory, the form shows one error and does nothing else:
    no folder is created and no manager is processed. *)
Theorem generate_rejects_invalid_input ids entry folder date w :
  lstrip (rstrip entry) = EmptyString ∨ folder = EmptyString ∨ isdir w folder = false →
  ∃ txt, generate_followups ids entry folder date w = show w (ShowError "Error" (Text txt)).
Proof.
  unfold generate_followups. intros Hin.
  destruct (bool_decide_reflect (lstrip (rstrip entry) = EmptyString)); [eauto|].
  destruct (bool_decide_reflect (folder = EmptyString)); [eauto|].
  destruct Hin as [? | [? | Hd]]; [done|done|]. rewrite Hd. eauto.
Qed.

(** C13: Without [template.jpg] in the working directory no picture is
    ever written: [Image.open(r"template.jpg")] raises before [os.makedirs]
    and [template.save], so [submit] leaves the disk as it was and at most
    shows the manager's failure message. *)
Theorem missing_template_writes_nothing w b f d id :
  files w !! "template.jpg" = None →
  submit w b f d id = w ∨
  ∃ e, submit w b f d id = show w (ShowError "Error" (WithException (failure_text id) e)).
Proof.
  intros Ht. unfold submit, submit_body.
  destruct (manager_result w b f d id) as [[r|]|e] eqn:Em; [|by left|by right; exists e].
  exfalso. unfold manager_result in Em. apply bind_eq_Ok in Em as (? & _ & Em).
  apply write_stats_template in Em. unfold image_opens in Em. rewrite Ht in Em.
  by apply bool_decide_eq_true_1, is_Some_None in Em.
Qed.

(** C14: Once the inputs are valid, the run goes through every manager and
    completes: it ends with the "Completed" message, loses no file or
    message it found, and leaves for each manager id either the error
    message of its exception, or (when the guard did not skip) its picture
    on disk or the error of saving it.  One manager's failure never stops
    the others. *)
Theorem generate_accounts_every_manager ids entry folder date w :
  lstrip (rstrip entry) ≠ EmptyString → folder ≠ EmptyString → isdir w folder = true →
  let w' := generate_followups ids entry folder date w in
  world_le w w' ∧
  last (messages w') = Some (ShowInfo "Completed" "Processing completed successfully!") ∧
  ∀ id, id ∈ ids → accounted w (lstrip (rstrip entry)) folder date id w'.
Proof.
  intros Hb Hf Hd. unfold generate_followups.
  rewrite !bool_decide_false by done. rewrite Hd. cbv zeta. cbn [negb].
  set (w1 := create_date_folder w folder date).
  destruct (foldl_submit (lstrip (rstrip entry)) folder date ids w1) as (Hle & _ & Hall).
  split; [|split].
  - etransitivity; [apply create_date_folder_le|]. etransitivity; [exact Hle|apply show_le].
  - simpl. apply last_snoc.
  - intros id Hid. eapply accounted_mono; [apply show_le|].
    eapply accounted_images; [|auto]. intros p _. subst w1. by rewrite create_date_folder_files.
Qed.

(** C28: A failed stats request ends in a silent skip, as the spec's
    error design asks: when the request of a manager fails (connection
    error, error status, body not JSON) and the name lookup returns,
    [submit] shows no message and writes nothing. *)
Theorem failed_request_skips w s ref bearer folder manager_id nm d' :
  strptime_mdy s = Ok ref → 2000 ≤ year ref → has_char " "%char s = false → next_day ref = Ok d' →
  fetch_json (stats_url manager_id (date_str (month_start ref)) (date_str d')) bearer = None →
  request_manager_name bearer manager_id = Ok nm →
  submit w bearer folder s manager_id = w.
Proof.
  intros Hs Hy Hsp Hn Hf Hnm. unfold submit, submit_body, manager_result.
  rewrite (get_stats_failed s bearer manager_id ref d' Hs Hn Hf), bind_Ok.
  pose proof (write_stats_outcome (image_opens w) s ref ∅ bearer folder manager_id nm Hs Hy Hsp
                (stats_wf_empty ref) Hnm) as Hw.
  rewrite lookup_empty in Hw. by rewrite Hw.
Qed.

End Run.

(** ** Two managers whose names cannot be fetched *)

(** The CRM answers the stats requests of managers 7 and 8 for March 2024
    and fails every other request, the name lookups included. *)
Definition two_managers_http : Http := λ url _,
  if String.eqb url (stats_url "7" "2024-03-01" "2024-03-14")
  then Response 200 (hours_body [hour_record "2024-03-13 10:00:00" 5 3 20])
  else if String.eqb url (stats_url "8" "2024-03-01" "2024-03-14")
  then Response 200 (hours_body [hour_record "2024-03-13 11:00:00" 9 9 9])
  else ConnectionFailed.

(** The working directory holds the template and both circles (empty
    pictures: only their presence matters) and the folder "out". *)
Definition start_world : world :=
  mkWorld {["out"]} (list_to_map ((λ p, (p, [])) <$> report_images)) [].

Lemma start_world_images p : p ∈ report_images → is_Some (files start_world !! p).
Proof.
  unfold report_images. intros Hp.
  repeat (apply elem_of_cons in Hp as [->|Hp]; [vm_compute; by eexists|]). by apply elem_of_nil in Hp.
Qed.

(** A working directory without the template. *)
Definition bare_world : world := mkWorld {["out"]} ∅ [].

Lemma missing_template_writes_nothing_witness :
  @submit two_managers_http bare_world "token" "out" "3/13/24" "7" = bare_world ∨
  ∃ e, @submit two_managers_http bare_world "token" "out" "3/13/24" "7" =
       show bare_world (ShowError "Error" (WithException (failure_text "7") e)).
Proof. apply missing_template_writes_nothing. reflexivity. Defined.

Lemma generate_rejects_invalid_input_witness :
  ∃ txt, @generate_followups two_managers_http ["7"] " 	 " "out" "3/13/24" start_world =
         show start_world (ShowError "Error" (Text txt)).
Proof. apply generate_rejects_invalid_input. left. vm_compute. reflexivity. Defined.

Lemma generate_accounts_every_manager_witness :
  let w' := @generate_followups two_managers_http ["7"; "8"; "9"] "token" "out" "3/13/24" start_world in
  last (messages w') = Some (ShowInfo "Completed" "Processing completed successfully!") ∧
  @accounted two_managers_http start_world "token" "out" "3/13/24" "9" w'.
Proof.
  destruct (@generate_accounts_every_manager two_managers_http ["7"; "8"; "9"] "token" "out"
              "3/13/24" start_world) as (_ & Hl & Hall);
    [vm_compute; discriminate|vm_compute; discriminate|reflexivity|].
  split; [exact Hl|]. apply Hall. vm_compute. right. right. left.
Defined.

Lemma manager_skipped_iff_no_record_witness :
  ∃ r, @manager_result two_managers_http start_world "token" "out" "3/13/24" "7" = Ok (Some r) ∧
       rp_file r = os_join (rp_dir r) "Unknown Manager.png".
Proof.
  destruct (@manager_skipped_iff_no_record two_managers_http start_world "3/13/24" (mkDate 2024 3 13)
              "token" "out" "7" UnknownManager (JList [hour_record "2024-03-13 10:00:00" 5 3 20])
              [hour_record "2024-03-13 10:00:00" 5 3 20] [(mkDate 2024 3 13, mkTally 5 3 20)])
    as [_ Hsome]; try (vm_compute; reflexivity); [simpl; lia|apply start_world_images|].
  apply Hsome. apply list_elem_of_here.
Defined.

Lemma failed_request_skips_witness :
  @submit two_managers_http start_world "token" "out" "3/13/24" "9" = start_world.
Proof.
  apply (@failed_request_skips two_managers_http start_world "3/13/24" (mkDate 2024 3 13) "token"
           "out" "9" UnknownManager (mkDate 2024 3 14)); try reflexivity. simpl. lia.
Defined.
