(* ===== verification/Form.v ===== *)
(** * The form's widgets and its event loop

    The bottom of "FollowUp Generator.py" (src/unnamed/part_000 lines
    71-103) builds a Tk window with a text entry for the token
    ([string_entry]), a [StringVar] for the folder ([folder_var]) that the
    "Browse" button fills through [select_folder] (lines 53-56), a
    [Calendar] whose selected date starts at today, and the "Generate
    Reports" button, which runs [generate_followups]; [root.mainloop()]
    then handles the user's events one at a time.

    The state is the three values the widgets hold ([form]) and the
    [world] of [Generator].  An event is the user's edit of the entry (the
    text it holds afterwards), a folder chosen in the dialog
    ([askdirectory] returns "" when cancelled, and [select_folder] stores
    it all the same), a date picked in the calendar, or a click on the
    button.  [handle] is one turn of the loop; [step] and [reachable] are
    the loop as a transition system.

    The theorems are invariants of every reachable state, proved by
    induction on [reachable]: the disk and the message list only grow, and
    every file the program ever writes is a report
    [<folder>/<D>_<M>_<YY>/<name>.png]. *)

From S2P Require Import Prelude PyStr Calendar RefDate Stats Api Aggregator Weekly Report Generator.
From Stdlib Require Import Ascii.

Local Open Scope Z_scope.

(** ** The widgets and the events *)

(** What [string_entry.get()], [folder_var.get()] and [calendar.get_date()]
    return. *)
Record form : Type := mkForm {
  entry_text : string;
  folder_var : string;
  calendar_date : string
}.

Inductive event : Type :=
| EditEntry (text : string)
| Browse (folder_selected : string)
| PickDate (date : string)
| ClickGenerate.

(** The window as [root.mainloop()] first shows it: an empty entry, an
    empty [StringVar] and the calendar on [today] in the widget's format. *)
Definition initial_form (today : string) : form := mkForm "" "" today.

(** [select_folder] (lines 53-56): [folder_var.set(filedialog.askdirectory())]. *)
Definition select_folder (f : form) (folder_selected : string) : form :=
  mkForm (entry_text f) folder_selected (calendar_date f).

Section Loop.
Context `{Http} (ids : list string).

(** One event of the loop: the widgets' commands of lines 81-100. *)
Definition handle (st : form * world) (e : event) : form * world :=
  let '(f, w) := st in
  match e with
  | EditEntry t => (mkForm t (folder_var f) (calendar_date f), w)
  | Browse folder_selected => (select_folder f folder_selected, w)
  | PickDate d => (mkForm (entry_text f) (folder_var f) d, w)
  | ClickGenerate => (f, generate_followups ids (entry_text f) (folder_var f) (calendar_date f) w)
  end.

(** [root.mainloop()] over the events the user produces, in order. *)
Definition mainloop (st : form * world) (evs : list event) : form * world := foldl handle st evs.

Inductive step : form * world → form * world → Prop :=
| step_event st e : step st (handle st e).

Inductive reachable (st0 : form * world) : form * world → Prop :=
| reach_init : reachable st0 st0
| reach_step st st' : reachable st0 st → step st st' → reachable st0 st'.

End Loop.

(** A path the program saves a report at. *)
Definition report_path (p : string) : Prop :=
  ∃ folder month day year nm,
    p = os_join (os_join folder (date_folder month day year)) (String.append (manager_text nm) ".png").

(** What a state may hold on disk: the files it started with and reports. *)
Definition files_ok (w0 w : world) : Prop :=
  ∀ p, is_Some (files w !! p) → is_Some (files w0 !! p) ∨ report_path p.

(** ** What the handlers write *)

Lemma files_ok_refl w : files_ok w w.
Proof. intros p Hp. by left. Qed.

Lemma files_ok_trans w0 w1 w2 : files_ok w0 w1 → files_ok w1 w2 → files_ok w0 w2.
Proof. intros H1 H2 p Hp. destruct (H2 p Hp) as [Hq|Hr]; auto. Qed.

Lemma files_ok_same w w' : files w' = files w → files_ok w w'.
Proof. intros E p Hp. left. by rewrite <- E. Qed.

#[local] Hint Resolve files_ok_refl files_ok_same : fu.

Lemma save_files w p img w' :
  save w p img = Ok w' → ∀ q, is_Some (files w' !! q) → is_Some (files w !! q) ∨ q = p.
Proof.
  unfold save. repeat case_bool_decide; intros [= <-]; simpl.
  intros q [-> | Hq]%lookup_insert_is_Some'; auto.
Qed.

Section Writes.
Context `{Http}.

(** A report [write_stats] returns is saved at a report path. *)
Lemma manager_result_path w b f d id r :
  manager_result w b f d id = Ok (Some r) → report_path (rp_file r).
Proof.
  unfold manager_result. intros (stats & _ & Hw)%bind_eq_Ok.
  destruct (write_stats_Some _ _ _ _ _ _ _ Hw) as (_ & _ & _ & _ & _ & _ & _ & _ & _ & nm & mo & da & ye & _ & Hd & Hf & _).
  exists f, mo, da, ye, nm. by rewrite Hf, Hd.
Qed.

Lemma submit_files w b f d id : files_ok w (submit w b f d id).
Proof.
  unfold submit, submit_body. destruct (manager_result w b f d id) as [[r|]|e] eqn:Em;
    [|by auto with fu|by auto with fu].
  destruct (makedirs w (rp_dir r)) as [w1|e] eqn:E1; [|by auto with fu].
  pose proof (makedirs_files _ _ _ E1) as F1.
  destruct (save w1 (rp_file r) (rp_draws r)) as [w2|e] eqn:E2; [|by auto with fu].
  intros q Hq. apply (save_files _ _ _ _ E2) in Hq as [Hq | ->].
  - left. by rewrite <- F1.
  - right. exact (manager_result_path _ _ _ _ _ _ Em).
Qed.

Lemma foldl_submit_files b f d ids w : files_ok w (foldl (λ w id, submit w b f d id) w ids).
Proof.
  revert w. induction ids as [|id ids IH]; intros w; simpl; [apply files_ok_refl|].
  eapply files_ok_trans; [apply submit_files|apply IH].
Qed.

Lemma generate_files ids e fo d w : files_ok w (generate_followups ids e fo d w).
Proof.
  unfold generate_followups. repeat case_bool_decide; try by auto with fu.
  destruct (negb _); [by auto with fu|]. cbv zeta.
  eapply files_ok_trans; [apply files_ok_same, create_date_folder_files|].
  eapply files_ok_trans; [apply foldl_submit_files|]. by auto with fu.
Qed.

Lemma generate_le ids e fo d w : world_le w (generate_followups ids e fo d w).
Proof.
  unfold generate_followups. repeat case_bool_decide; try apply show_le.
  destruct (negb _); [apply show_le|]. cbv zeta.
  etransitivity; [apply create_date_folder_le|].
  etransitivity; [apply foldl_submit|apply show_le].
Qed.

Lemma handle_files ids st e : files_ok st.2 (handle ids st e).2.
Proof. destruct st as [f w]. destruct e; simpl; auto using generate_files with fu. Qed.

Lemma handle_le ids st e : world_le st.2 (handle ids st e).2.
Proof. destruct st as [f w]. destruct e; simpl; [reflexivity..|apply generate_le]. Qed.

(** The main loop runs through reachable states. *)
Lemma mainloop_reachable ids st0 evs : reachable ids st0 (mainloop ids st0 evs).
Proof.
  unfold mainloop. cut (∀ st, reachable ids st0 st → reachable ids st0 (foldl (handle ids) st evs)).
  { intros Hc. apply Hc. constructor. }
  induction evs as [|e evs IH]; intros st Hr; simpl; [done|].
  apply IH. econstructor; [exact Hr|constructor].
Qed.

End Writes.

(** ** Properties *)

Section Invariants.
Context `{Http} (ids : list string).

(** An invariant of the event loop: from any start, every reachable
    state keeps every file and message of the start, its messages
    extending the start's in order. *)
Theorem reachable_world_grows st0 st : reachable ids st0 st → world_le st0.2 st.2.
Proof.
  induction 1 as [|st st' _ IH Hs]; [reflexivity|].
  inversion Hs; subst. etransitivity; [exact IH|apply handle_le].
Qed.

(** C18: Whatever the user does, the program writes no file but its
    reports: every file of a reachable state was there at the start or
    lies at [<folder>/<D>_<M>_<YY>/<name>.png]. *)
Theorem reachable_files_reports st0 st :
  reachable ids st0 st →
  ∀ p, is_Some (files st.2 !! p) → is_Some (files st0.2 !! p) ∨ report_path p.
Proof.
  induction 1 as [|st st' _ IH Hs]; [apply files_ok_refl|].
  inversion Hs; subst. eapply files_ok_trans; [exact IH|apply handle_files].
Qed.

(** C19: Cancelling the folder dialog forgets the folder chosen before:
    [askdirectory()] returns "" and [select_folder] stores it, so the
    next click, with a token, only shows "Please select a folder.". *)
Theorem browse_cancel_clears_folder f w :
  lstrip (rstrip (entry_text f)) ≠ EmptyString →
  handle ids (handle ids (f, w) (Browse EmptyString)) ClickGenerate =
    (mkForm (entry_text f) EmptyString (calendar_date f),
     show w (ShowError "Error" (Text "Please select a folder."))).
Proof.
  intros Hb. simpl. unfold generate_followups. simpl.
  rewrite bool_decide_false by done. reflexivity.
Qed.

End Invariants.

(** A session: type a token, choose the folder "out", generate. *)
Definition demo_events : list event := [EditEntry " token "; Browse "out"; ClickGenerate].

Definition demo_run : form * world :=
  @mainloop two_managers_http ["7"; "8"] (initial_form "3/13/24", start_world) demo_events.

Lemma reachable_world_grows_witness : world_le start_world demo_run.2.
Proof.
  apply (@reachable_world_grows two_managers_http ["7"; "8"] (initial_form "3/13/24", start_world)).
  apply mainloop_reachable.
Defined.

Lemma reachable_files_reports_witness :
  is_Some (files start_world !! "out/13_3_24/Unknown Manager.png") ∨
  report_path "out/13_3_24/Unknown Manager.png".
Proof.
  apply (@reachable_files_reports two_managers_http ["7"; "8"] (initial_form "3/13/24", start_world)
           demo_run); [apply mainloop_reachable|].
  vm_compute. by eexists.
Defined.

Lemma browse_cancel_clears_folder_witness :
  @handle two_managers_http ["7"] (@handle two_managers_http ["7"]
     (mkForm "token" "out" "3/13/24", start_world) (Browse EmptyString)) ClickGenerate =
    (mkForm "token" EmptyString "3/13/24",
     show start_world (ShowError "Error" (Text "Please select a folder."))).
Proof. apply (browse_cancel_clears_folder ["7"] (mkForm "token" "out" "3/13/24")). discriminate. Defined.
