(* ===== verification/Rerun.v ===== *)
(** * Running the form twice

    What [generate_followups] (src/unnamed/part_000 lines 12-41) leaves on
    disk is a replay of saves: once the folder of the date is there, the
    directories no longer change, and each manager's [submit] either saves
    its picture or leaves the files as they were, depending only on the
    manager's report (which reads the disk only for the images, never
    written) and on those directories.  So a second click with the same
    inputs replays the same saves over the files the first left, and the
    files come out the same: regenerating the reports is harmless.

    The theorem ([rerun_same_files]) holds on a disk where no path is both
    a file and a directory and every directory's ancestors are
    directories, as on a real file system.  The regimes of the proof: the
    folder of the date is [ready] (it and its ancestors are directories,
    none a file) or [blocked] (one of them is a file, and every
    [os.makedirs] of it fails); a date that does not split into three
    parts gives no picture at all.  The CRM is the function [Http] of
    [Api], so it answers each request of the second run as it answered
    the first. *)

From Stdlib Require Import Ascii.
From S2P Require Import Prelude PyStr Calendar RefDate Stats Api Aggregator Weekly Report Generator.

Local Open Scope Z_scope.

(** ** Saves replayed on the files *)

(** [template.save(p)] succeeds on the directories [D]. *)
Definition save_ok (D : gset string) (p : string) : bool :=
  bool_decide (p ∉ D) && bool_decide (dirname p = EmptyString ∨ dirname p = "/" ∨ dirname p ∈ D).

Definition apply_writes (ws : list (string * list draw_op)) (m : gmap string (list draw_op))
    : gmap string (list draw_op) :=
  foldl (λ m pw, <[pw.1 := pw.2]> m) m ws.

(** The last value written at [p], over [a]. *)
Definition last_write (p : string) (a : option (list draw_op)) (ws : list (string * list draw_op))
    : option (list draw_op) :=
  foldl (λ acc pw, if bool_decide (pw.1 = p) then Some pw.2 else acc) a ws.

Lemma apply_writes_lookup ws m p : apply_writes ws m !! p = last_write p (m !! p) ws.
Proof.
  revert m. induction ws as [|[q x] ws IH]; intros m; [done|]. simpl. rewrite IH.
  f_equal. case_bool_decide; subst; [by rewrite lookup_insert_eq|by rewrite lookup_insert_ne].
Qed.

Lemma last_write_over p a ws : last_write p a ws = last_write p None ws ∪ a.
Proof.
  unfold last_write. revert a. induction ws as [|[q x] ws IH]; intros a; simpl; [by destruct a|].
  rewrite IH, (IH (if bool_decide (q = p) then Some x else None)).
  case_bool_decide; by destruct (foldl _ None ws), a.
Qed.

(** Replaying the same saves a second time changes nothing. *)
Lemma apply_writes_twice ws m : apply_writes ws (apply_writes ws m) = apply_writes ws m.
Proof.
  apply map_eq. intros p. rewrite !apply_writes_lookup, (last_write_over _ (m !! p)).
  rewrite (last_write_over _ (last_write p None ws ∪ m !! p)).
  by destruct (last_write p None ws), (m !! p).
Qed.

Lemma save_spec w p img :
  save w p img = if save_ok (dirs w) p then Ok (mkWorld (dirs w) (<[p := img]> (files w)) (messages w))
                 else Err OSError.
Proof. unfold save, save_ok. by repeat case_bool_decide. Qed.

(** ** The folder of the date *)

Lemma elem_of_ancestors_self p : p ≠ EmptyString → p ∈ ancestors p.
Proof.
  intros Hp. unfold ancestors. apply list_elem_of_filter. split; [done|].
  apply list_elem_of_fmap. exists (length (py_split "/"%char p)).
  rewrite firstn_all, py_join_split. split; [done|].
  pose proof (py_split_ne "/"%char p). apply elem_of_seq.
  destruct (py_split "/"%char p); simpl; [done|lia].
Qed.

Section Regimes.
Context (fp : string).

(** The folder and its ancestors are directories and none is a file. *)
Definition ready (v : world) : Prop := ∀ q, q ∈ ancestors fp → q ∈ dirs v ∧ files v !! q = None.

(** One of them is a file. *)
Definition blocked (v : world) : Prop := ∃ q, q ∈ ancestors fp ∧ is_Some (files v !! q).

Lemma makedirs_ready v : ready v → makedirs v fp = Ok v.
Proof.
  intros Hr. unfold makedirs. rewrite bool_decide_false.
  - destruct v as [D F M]. do 2 f_equal. apply leibniz_equiv. intros x.
    rewrite elem_of_union, elem_of_list_to_set. specialize (Hr x). naive_solver.
  - rewrite Exists_exists. intros (q & Hq & Hs). destruct (Hr q Hq) as [_ Hn]. rewrite Hn in Hs.
    by apply is_Some_None in Hs.
Qed.

Lemma makedirs_blocked v : blocked v → makedirs v fp = Err OSError.
Proof.
  intros (q & Hq & Hs). unfold makedirs. rewrite bool_decide_true; [done|].
  apply Exists_exists. eauto.
Qed.

Lemma show_ready v m : ready v → ready (show v m).
Proof. done. Qed.

Lemma show_blocked v m : blocked v → blocked (show v m).
Proof. done. Qed.

End Regimes.

Lemma makedirs_cases fp v :
  (∃ v', makedirs v fp = Ok v' ∧ ready fp v' ∧ dirs v ⊆ dirs v' ∧ files v' = files v) ∨
  (makedirs v fp = Err OSError ∧ blocked fp v).
Proof.
  unfold makedirs. case_bool_decide as Hx.
  - right. split; [done|]. apply Exists_exists in Hx as (q & Hq & Hs). by exists q.
  - left. eexists. split_and!; [done| |simpl; set_solver|done].
    intros q Hq. split; [simpl; set_solver|]. apply eq_None_not_Some.
    intros Hs. apply Hx, Exists_exists. eauto.
Qed.

Section Folder.
Context (f d month day year : string) (Hs : py_split "/" d = [month; day; year]).

(** The folder [create_date_folder] makes for the date [d] in [f]. *)
Local Abbreviation fp := (os_join f (date_folder month day year)).

Lemma folder_in_ancestors : fp ∈ ancestors fp.
Proof. apply elem_of_ancestors_self, os_join_nonempty. unfold date_folder. by destruct day. Qed.

Lemma create_date_folder_ready v : ready fp v → create_date_folder v f d = v.
Proof.
  intros Hr. unfold create_date_folder. rewrite Hs. unfold path_exists.
  by rewrite bool_decide_true by apply (Hr _ folder_in_ancestors).
Qed.

Lemma create_date_folder_blocked v :
  blocked fp v → let v' := create_date_folder v f d in
  blocked fp v' ∧ dirs v' = dirs v ∧ files v' = files v.
Proof.
  intros Hb. unfold create_date_folder. rewrite Hs. destruct (path_exists _ _); [done|].
  by rewrite makedirs_blocked.
Qed.

(** On a file system where no directory is a file and the ancestors of a
    directory are directories, the folder of the date ends up made or
    blocked by a file. *)
Lemma create_date_folder_regime v :
  (∀ q, q ∈ dirs v → files v !! q = None) →
  (∀ q a, q ∈ dirs v → a ∈ ancestors q → a ∈ dirs v) →
  let v' := create_date_folder v f d in
  (ready fp v' ∨ blocked fp v') ∧ dirs v ⊆ dirs v' ∧ files v' = files v.
Proof.
  intros Hdisj Hclosed. unfold create_date_folder. rewrite Hs. unfold path_exists.
  case_bool_decide as Hd; [|case_bool_decide as Hf].
  - split_and!; [|done|done]. left. intros q Hq. eauto.
  - split_and!; [|done|done]. right. exists fp. split; [apply folder_in_ancestors|done].
  - simpl. destruct (makedirs_cases fp v) as [(v' & -> & ? & ? & ?)|[-> ?]]; [by auto|].
    split_and!; [by right|done|done].
Qed.

End Folder.

Lemma apply_writes_app ws1 ws2 m : apply_writes (ws1 ++ ws2) m = apply_writes ws2 (apply_writes ws1 m).
Proof. apply foldl_app. Qed.

Lemma same_images_sym w w' : same_images w w' → same_images w' w.
Proof. intros Hs p Hp. by rewrite Hs. Qed.

(** ** The managers' submits *)

Section Submits.
Context `{Http} (w0 : world) (b f d : string).

(** The run of the managers' submits from [v]. *)
Local Abbreviation submits ids v := (foldl (λ w manager_id, submit w b f d manager_id) v ids).

(** The save the submit of [manager_id] makes when [os.makedirs] leaves
    the directories [D]: its report's picture, if [template.save] can
    write it there. *)
Definition write_of (D : gset string) (manager_id : string) : list (string * list draw_op) :=
  match manager_result w0 b f d manager_id with
  | Ok (Some r) => if save_ok D (rp_file r) then [(rp_file r, rp_draws r)] else []
  | _ => []
  end.

Lemma manager_result_dir manager_id r :
  manager_result w0 b f d manager_id = Ok (Some r) →
  ∃ month day year, py_split "/" d = [month; day; year] ∧ rp_dir r = os_join f (date_folder month day year).
Proof.
  unfold manager_result. intros Hr. apply bind_eq_Ok in Hr as (stats & _ & Hr).
  apply write_stats_Some in Hr as (_ & _ & _ & _ & _ & _ & _ & _ & _ & _ & mo & da & ye & _ & ? & _ & ?).
  eauto.
Qed.

Lemma manager_result_file manager_id r :
  manager_result w0 b f d manager_id = Ok (Some r) →
  ∃ nm, request_manager_name b manager_id = Ok nm ∧
    rp_file r = os_join (rp_dir r) (String.append (manager_text nm) ".png").
Proof.
  unfold manager_result. intros Hr. apply bind_eq_Ok in Hr as (stats & _ & Hr).
  apply write_stats_Some in Hr as (_ & _ & _ & _ & _ & _ & _ & _ & _ & nm & _ & _ & _ & ? & _ & ? & _).
  eauto.
Qed.

Lemma manager_result_folder month day year :
  py_split "/" d = [month; day; year] →
  ∀ manager_id r, manager_result w0 b f d manager_id = Ok (Some r) →
  rp_dir r = os_join f (date_folder month day year).
Proof.
  intros Hd manager_id r Hr. destruct (manager_result_dir _ _ Hr) as (? & ? & ? & Hd' & ->).
  rewrite Hd in Hd'. by simplify_eq.
Qed.

Lemma submit_result v manager_id :
  same_images w0 v → manager_result v b f d manager_id = manager_result w0 b f d manager_id.
Proof. intros Hs. by apply manager_result_images, same_images_sym. Qed.

Section Folder.
Context (fp : string) (Hfp : ∀ manager_id r, manager_result w0 b f d manager_id = Ok (Some r) → rp_dir r = fp).

Lemma submit_ready v manager_id :
  same_images w0 v → ready fp v →
  let v' := submit v b f d manager_id in
  ready fp v' ∧ dirs v' = dirs v ∧ files v' = apply_writes (write_of (dirs v) manager_id) (files v).
Proof.
  intros Hs Hr. unfold submit, submit_body, write_of. rewrite submit_result by done.
  destruct (manager_result w0 b f d manager_id) as [[r|]|e] eqn:Em; [|done|done].
  rewrite (Hfp _ _ Em), makedirs_ready, save_spec by done.
  destruct (save_ok _ _) eqn:Eo; [|done]. split_and!; [|done|done].
  intros q Hq. destruct (Hr q Hq) as [Hd Hn]. split; [done|]. simpl.
  rewrite lookup_insert_ne; [done|]. intros Heq. rewrite Heq in Eo. unfold save_ok in Eo.
  apply andb_true_iff in Eo as [Eo _]. by apply bool_decide_eq_true in Eo.
Qed.

Lemma submit_blocked v manager_id :
  same_images w0 v → blocked fp v →
  let v' := submit v b f d manager_id in blocked fp v' ∧ dirs v' = dirs v ∧ files v' = files v.
Proof.
  intros Hs Hb. unfold submit, submit_body. rewrite submit_result by done.
  destruct (manager_result w0 b f d manager_id) as [[r|]|e] eqn:Em; [|done|done].
  by rewrite (Hfp _ _ Em), makedirs_blocked.
Qed.

Lemma submits_ready ids v :
  same_images w0 v → ready fp v →
  let v' := submits ids v in
  same_images w0 v' ∧ ready fp v' ∧ dirs v' = dirs v ∧
  files v' = apply_writes (ids ≫= write_of (dirs v)) (files v).
Proof.
  revert v. induction ids as [|id ids IH]; intros v Hs Hr; [done|]. simpl.
  destruct (submit_ready v id Hs Hr) as (Hr' & Hd & Hf).
  destruct (IH (submit v b f d id)) as (? & ? & -> & ->); [|done|].
  - eapply same_images_trans; [done|apply submit_images].
  - by rewrite apply_writes_app, Hd, Hf.
Qed.

Lemma submits_blocked ids v :
  same_images w0 v → blocked fp v →
  let v' := submits ids v in same_images w0 v' ∧ blocked fp v' ∧ dirs v' = dirs v ∧ files v' = files v.
Proof.
  revert v. induction ids as [|id ids IH]; intros v Hs Hb; [done|]. simpl.
  destruct (submit_blocked v id Hs Hb) as (Hb' & Hd & Hf).
  destruct (IH (submit v b f d id)) as (? & ? & -> & ->); [|done|done].
  eapply same_images_trans; [done|apply submit_images].
Qed.

End Folder.

(** A date that does not split into three parts gives no report. *)
Lemma submits_no_report ids v :
  (∀ month day year, py_split "/" d ≠ [month; day; year]) → same_images w0 v →
  let v' := submits ids v in same_images w0 v' ∧ dirs v' = dirs v ∧ files v' = files v.
Proof.
  intros Hd. revert v. induction ids as [|id ids IH]; intros v Hs; [done|]. simpl.
  destruct (IH (submit v b f d id)) as (Hs' & -> & ->).
  { eapply same_images_trans; [done|apply submit_images]. }
  split; [done|]. unfold submit, submit_body. rewrite submit_result by done.
  destruct (manager_result w0 b f d id) as [[r|]|e] eqn:Em; [|done|done].
  destruct (manager_result_dir _ _ Em) as (? & ? & ? & ? & _). naive_solver.
Qed.

End Submits.

Lemma create_date_folder_no_split v f d :
  (∀ month day year, py_split "/" d ≠ [month; day; year]) →
  create_date_folder v f d = show v (ShowError "Error" (WithException "Could not create folder: " ValueError)).
Proof.
  intros Hd. unfold create_date_folder.
  destruct (py_split "/"%char d) as [|? [|? [|? [|]]]]; naive_solver.
Qed.

(** ** Two runs *)

(** A file system where no directory is a file and the ancestors of a
    directory are directories. *)
Definition fs_ok (w : world) : Prop :=
  (∀ q, q ∈ dirs w → files w !! q = None) ∧ (∀ q a, q ∈ dirs w → a ∈ ancestors q → a ∈ dirs w).

Section Twice.
Context `{Http} (ids : list string) (b f d : string).

(** The part of [generate_followups] after its input checks, from [v]. *)
Local Abbreviation run v :=
  (foldl (λ w manager_id, submit w b f d manager_id) (create_date_folder v f d) ids).

Lemma run_no_split w m :
  (∀ month day year, py_split "/" d ≠ [month; day; year]) →
  files (run (show (run w) m)) = files (run w) ∧ dirs w ⊆ dirs (run w).
Proof.
  intros Hd. rewrite !create_date_folder_no_split by done.
  set (e := ShowError "Error" (WithException "Could not create folder: " ValueError)).
  destruct (submits_no_report w b f d ids (show w e)) as (Hs & Hd1 & _); [done|done|].
  set (v := foldl _ (show w e) ids) in *.
  destruct (submits_no_report w b f d ids (show (show v m) e)) as (_ & _ & ->); [done| |].
  - intros p Hp. exact (Hs p Hp).
  - simpl. rewrite Hd1. set_solver.
Qed.

Lemma run_regime w m month day year :
  py_split "/" d = [month; day; year] → fs_ok w →
  files (run (show (run w) m)) = files (run w) ∧ dirs w ⊆ dirs (run w).
Proof.
  intros Hd [Hdisj Hclosed].
  set (fp := os_join f (date_folder month day year)).
  pose proof (manager_result_folder w b f d _ _ _ Hd) as Hfp.
  assert (Himg : same_images w (create_date_folder w f d)).
  { intros p _. by rewrite create_date_folder_files. }
  destruct (create_date_folder_regime f d _ _ _ Hd w Hdisj Hclosed) as ([Hr|Hb] & Hsub & Hfiles).
  - destruct (submits_ready w b f d fp Hfp ids _ Himg Hr) as (Hs & Hr' & Hdirs & Hw).
    set (v := foldl _ (create_date_folder w f d) ids) in *.
    rewrite (create_date_folder_ready f d _ _ _ Hd (show v m)) by by apply show_ready.
    destruct (submits_ready w b f d fp Hfp ids (show v m)) as (_ & _ & _ & ->);
      [exact Hs|by apply show_ready|].
    simpl. rewrite Hdirs, Hw. split; [apply apply_writes_twice|done].
  - destruct (submits_blocked w b f d fp Hfp ids _ Himg Hb) as (Hs & Hb' & Hdirs & Hw).
    set (v := foldl _ (create_date_folder w f d) ids) in *.
    destruct (create_date_folder_blocked f d _ _ _ Hd (show v m)) as (Hb2 & Hd2 & Hf2);
      [by apply show_blocked|].
    destruct (submits_blocked w b f d fp Hfp ids (create_date_folder (show v m) f d))
      as (_ & _ & _ & ->); [|done|].
    + intros p Hp. rewrite Hf2. exact (Hs p Hp).
    + rewrite Hf2. simpl. split; [done|by rewrite Hdirs].
Qed.

End Twice.

(** What a run leaves in the files, on a file system: the files it found,
    or those with the saves of its managers replayed on them, for the
    directories [D] the date's folder left. *)
Lemma generate_files_replay `{Http} ids entry folder date w :
  fs_ok w →
  files (generate_followups ids entry folder date w) = files w ∨
  ∃ D, files (generate_followups ids entry folder date w) =
       apply_writes (ids ≫= write_of w (lstrip (rstrip entry)) folder date D) (files w).
Proof.
  intros [Hdisj Hclosed]. unfold generate_followups, isdir. cbv zeta.
  case_bool_decide; [by left|]. case_bool_decide; [by left|].
  case_bool_decide; cbn [negb]; [|by left]. cbn [files show].
  set (b := lstrip (rstrip entry)).
  assert (Himg : same_images w (create_date_folder w folder date)).
  { intros p _. by rewrite create_date_folder_files. }
  assert (Hcase : (∀ mo da ye, py_split "/" date ≠ [mo; da; ye]) ∨
                  ∃ mo da ye, py_split "/" date = [mo; da; ye]).
  { destruct (py_split "/"%char date) as [|x [|y [|z [|]]]];
      try (left; intros ???; congruence); right; eauto. }
  destruct Hcase as [Hno|(mo & da & ye & Hd)].
  - left. destruct (submits_no_report w b folder date ids _ Hno Himg) as (_ & _ & ->).
    apply create_date_folder_files.
  - pose proof (manager_result_folder w b folder date _ _ _ Hd) as Hfp.
    destruct (create_date_folder_regime folder date _ _ _ Hd w Hdisj Hclosed) as ([Hr|Hb] & _ & Hf).
    + right. exists (dirs (create_date_folder w folder date)).
      destruct (submits_ready w b folder date _ Hfp ids _ Himg Hr) as (_ & _ & _ & ->). by rewrite Hf.
    + left. destruct (submits_blocked w b folder date _ Hfp ids _ Himg Hb) as (_ & _ & _ & ->).
      exact Hf.
Qed.

(** C15: Clicking the button a second time with the same token, folder,
    date and managers leaves the same files as the first click, when the
    CRM answers the same and the disk is a file system (no directory is
    a file, the ancestors of a directory are directories): the second run
    rewrites each picture the first saved, with the same drawing, and
    saves nothing else, whether the first run made the date's folder,
    found it blocked by a file, or could not split the date. *)
Theorem rerun_same_files `{Http} ids entry folder date w :
  fs_ok w →
  files (generate_followups ids entry folder date (generate_followups ids entry folder date w)) =
  files (generate_followups ids entry folder date w).
Proof.
  intros Hfs.
  assert (Hrun : ∀ m, let b := lstrip (rstrip entry) in
    let run v := foldl (λ w manager_id, submit w b folder date manager_id)
                   (create_date_folder v folder date) ids in
    files (run (show (run w) m)) = files (run w) ∧ dirs w ⊆ dirs (run w)).
  { intros m. destruct (py_split "/"%char date) as [|mo [|da [|ye [|]]]] eqn:Hd;
      [| | |by eapply run_regime|]; apply run_no_split; intros ???; rewrite Hd; congruence. }
  unfold generate_followups, isdir. cbv zeta.
  case_bool_decide; [done|]. case_bool_decide; [done|].
  destruct (decide (folder ∈ dirs w)) as [Hin|Hin].
  - rewrite (bool_decide_true (folder ∈ dirs w)) by done. cbn [negb dirs files show].
    destruct (Hrun (ShowInfo "Completed" "Processing completed successfully!")) as [Hf Hsub].
    rewrite bool_decide_true by (by apply Hsub). exact Hf.
  - rewrite (bool_decide_false (folder ∈ dirs w)) by done. cbn [negb dirs files show].
    by rewrite bool_decide_false.
Qed.

(** C16: The picture of a manager is saved under the text of its name,
    and a failed name lookup gives every such manager the name
    "Unknown Manager": two managers of one run whose lookups both fail
    and whose reports are both drawn get the same file, and what the run
    leaves there is the second manager's picture or the file that was
    already there, never the first manager's picture. *)
Theorem unknown_manager_overwrite `{Http} id1 id2 entry folder date w r1 r2 :
  fs_ok w →
  manager_result w (lstrip (rstrip entry)) folder date id1 = Ok (Some r1) →
  manager_result w (lstrip (rstrip entry)) folder date id2 = Ok (Some r2) →
  request_manager_name (lstrip (rstrip entry)) id1 = Ok UnknownManager →
  request_manager_name (lstrip (rstrip entry)) id2 = Ok UnknownManager →
  rp_file r1 = rp_file r2 ∧
  (files (generate_followups [id1; id2] entry folder date w) !! rp_file r1 = Some (rp_draws r2) ∨
   files (generate_followups [id1; id2] entry folder date w) !! rp_file r1 = files w !! rp_file r1).
Proof.
  intros Hfs E1 E2 N1 N2.
  assert (Hp : rp_file r1 = rp_file r2).
  { destruct (manager_result_file _ _ _ _ _ _ E1) as (nm1 & Hn1 & ->).
    destruct (manager_result_file _ _ _ _ _ _ E2) as (nm2 & Hn2 & ->).
    destruct (manager_result_dir _ _ _ _ _ _ E1) as (mo & da & ye & Hd & ->).
    destruct (manager_result_dir _ _ _ _ _ _ E2) as (mo' & da' & ye' & Hd' & ->).
    rewrite Hd in Hd'. simplify_eq. by rewrite Hn1 in N1; rewrite Hn2 in N2; simplify_eq. }
  split; [done|].
  destruct (generate_files_replay [id1; id2] entry folder date w Hfs) as [->|[D ->]]; [by right|].
  cbn [mbind list_bind]. unfold write_of. rewrite E1, E2, <- Hp.
  destruct (save_ok D (rp_file r1)); [left|right; done].
  cbn. by rewrite lookup_insert_eq.
Qed.

(** The example's working directory is a file system. *)
Lemma start_world_fs_ok : fs_ok start_world.
Proof.
  split.
  - intros q Hq. change (q ∈ ({["out"]} : gset string)) in Hq.
    apply elem_of_singleton in Hq as ->. vm_compute. reflexivity.
  - intros q a Hq Ha. change (q ∈ ({["out"]} : gset string)) in Hq.
    apply elem_of_singleton in Hq as ->. vm_compute in Ha.
    apply list_elem_of_singleton in Ha as ->. vm_compute. reflexivity.
Qed.

Lemma rerun_same_files_witness :
  let g := @generate_followups two_managers_http ["7"; "8"] "token" "out" "3/13/24" in
  files (g (g start_world)) = files (g start_world).
Proof. apply rerun_same_files, start_world_fs_ok. Defined.

(** The reports of managers 7 and 8 in the example. *)
Definition report_of (manager_id : string) : report :=
  match @manager_result two_managers_http start_world "token" "out" "3/13/24" manager_id with
  | Ok (Some r) => r
  | _ => mkReport "" "" []
  end.

Lemma unknown_manager_overwrite_witness :
  rp_file (report_of "7") = rp_file (report_of "8") ∧
  (files (@generate_followups two_managers_http ["7"; "8"] "token" "out" "3/13/24" start_world)
     !! rp_file (report_of "7") = Some (rp_draws (report_of "8")) ∨
   files (@generate_followups two_managers_http ["7"; "8"] "token" "out" "3/13/24" start_world)
     !! rp_file (report_of "7") = files start_world !! rp_file (report_of "7")).
Proof.
  apply (@unknown_manager_overwrite two_managers_http "7" "8" "token" "out" "3/13/24" start_world);
    [apply start_world_fs_ok|vm_compute; reflexivity..].
Defined.
