(* ===== verification/Outcome.v ===== *)
(** * What a valid run shows

    The messages of [generate_followups] (src/unnamed/part_000 lines
    12-41) on valid input: what [create_date_folder] showed, then, in the
    order of the ids, each manager's failure message, then "Completed".
    The managers do not interfere: each one's outcome is the outcome of
    its [submit_body] run alone on the world [create_date_folder] left, as
    if no other manager had been processed before it.  The proof follows
    the regimes of the date's folder of [Rerun]: made, blocked by a file,
    or no folder because the date does not split. *)

From Stdlib Require Import Ascii.
From S2P Require Import Prelude PyStr Calendar RefDate Stats Api Aggregator Weekly Report Generator Rerun.

Local Open Scope Z_scope.

(** The message [submit] shows for an exception (line 50). *)
Definition failure_message (manager_id : string) (e : py_exn) : message :=
  ShowError "Error" (WithException (failure_text manager_id) e).

Lemma makedirs_messages w p w' : makedirs w p = Ok w' → messages w' = messages w.
Proof. unfold makedirs. case_bool_decide; by intros [= <-]. Qed.

Lemma save_messages w p img w' : save w p img = Ok w' → messages w' = messages w.
Proof. unfold save. repeat case_bool_decide; by intros [= <-]. Qed.

Section Outcomes.
Context `{Http} (b f d : string).

(** The message of one manager's [submit] on the world [c]. *)
Definition outcome_message (c : world) (manager_id : string) : list message :=
  match (submit_body c b f d manager_id).2 with
  | None => []
  | Some e => [failure_message manager_id e]
  end.

Lemma submit_messages v manager_id :
  messages (submit v b f d manager_id) = messages v ++ outcome_message v manager_id.
Proof.
  unfold submit, outcome_message, submit_body.
  destruct (manager_result v b f d manager_id) as [[r|]|e]; simpl; [|by rewrite app_nil_r|done].
  destruct (makedirs v (rp_dir r)) as [w1|e] eqn:E1; [|done].
  destruct (save w1 (rp_file r) (rp_draws r)) as [w2|e] eqn:E2; simpl.
  - rewrite (save_messages _ _ _ _ E2), (makedirs_messages _ _ _ E1). by rewrite app_nil_r.
  - by rewrite (makedirs_messages _ _ _ E1).
Qed.

(** The submits from [v] show the outcomes on [c] in order, as long as
    each step keeps an invariant [P] under which the outcomes agree. *)
Lemma submits_messages (P : world → Prop) (c : world) ids v :
  (∀ v id, P v → P (submit v b f d id) ∧ outcome_message v id = outcome_message c id) →
  P v →
  messages (foldl (λ w manager_id, submit w b f d manager_id) v ids) =
  messages v ++ (ids ≫= outcome_message c).
Proof.
  intros Hstep. revert v. induction ids as [|id ids IH]; intros v Hv; simpl; [by rewrite app_nil_r|].
  destruct (Hstep v id Hv) as [Hv' Ho]. rewrite IH, submit_messages, Ho by done.
  by rewrite app_assoc.
Qed.

Section Regime.
Context (c : world) (fp : string)
  (Hfp : ∀ manager_id r, manager_result c b f d manager_id = Ok (Some r) → rp_dir r = fp).

Lemma outcome_ready v manager_id :
  same_images c v → ready fp v → ready fp c → dirs v = dirs c →
  outcome_message v manager_id = outcome_message c manager_id.
Proof.
  intros Hs Hv Hc Hd. unfold outcome_message, submit_body. rewrite (submit_result c) by done.
  destruct (manager_result c b f d manager_id) as [[r|]|e] eqn:Em; [|done|done].
  rewrite (Hfp _ _ Em), !makedirs_ready, !save_spec, Hd by done.
  by destruct (save_ok _ _).
Qed.

Lemma outcome_blocked v manager_id :
  same_images c v → blocked fp v → blocked fp c →
  outcome_message v manager_id = outcome_message c manager_id.
Proof.
  intros Hs Hv Hc. unfold outcome_message, submit_body. rewrite (submit_result c) by done.
  destruct (manager_result c b f d manager_id) as [[r|]|e] eqn:Em; [|done|done].
  by rewrite (Hfp _ _ Em), !makedirs_blocked.
Qed.

End Regime.

Lemma outcome_no_report c v manager_id :
  (∀ month day year, py_split "/" d ≠ [month; day; year]) → same_images c v →
  outcome_message v manager_id = outcome_message c manager_id.
Proof.
  intros Hno Hs. unfold outcome_message, submit_body. rewrite (submit_result c) by done.
  destruct (manager_result c b f d manager_id) as [[r|]|e] eqn:Em; [|done|done].
  destruct (manager_result_dir _ _ _ _ _ _ Em) as (? & ? & ? & ? & _). naive_solver.
Qed.

End Outcomes.

(** C17: On valid input and a file system, the messages of a run are
    those [create_date_folder] left, then, manager by manager in the
    order of the ids, the failure message its [submit_body] gives when
    run alone on the world [create_date_folder] left (none when it saves
    its picture or skips), then "Completed": no manager's processing
    changes the outcome of another, none is shown twice or out of order,
    and the completion comes last. *)
Theorem managers_independent `{Http} ids entry folder date w :
  fs_ok w → lstrip (rstrip entry) ≠ EmptyString → folder ≠ EmptyString → folder ∈ dirs w →
  let c := create_date_folder w folder date in
  messages (generate_followups ids entry folder date w) =
  messages c ++ (ids ≫= outcome_message (lstrip (rstrip entry)) folder date c) ++
    [ShowInfo "Completed" "Processing completed successfully!"].
Proof.
  intros [Hdisj Hclosed] Hb Hf Hin c. unfold generate_followups, isdir. cbv zeta.
  rewrite !bool_decide_false, bool_decide_true by done. cbn [negb messages show].
  rewrite app_assoc. f_equal. set (b := lstrip (rstrip entry)).
  destruct (py_split "/"%char date) as [|mo [|da [|ye [|]]]] eqn:Hd.
  all: try (apply (submits_messages b folder date (same_images c)); [|done];
    intros v id Hv; split; [eapply same_images_trans; [done|apply submit_images]|];
    apply outcome_no_report; [intros ???; rewrite Hd; congruence|done]).
  pose proof (manager_result_folder c b folder date _ _ _ Hd) as Hfp.
  destruct (create_date_folder_regime folder date _ _ _ Hd w Hdisj Hclosed) as ([Hr|Hbl] & _).
  - apply (submits_messages b folder date
      (λ v, same_images c v ∧ ready (os_join folder (date_folder mo da ye)) v ∧ dirs v = dirs c));
      [|done].
    intros v id (Hs & Hv & Hdv). destruct (submit_ready c b folder date _ Hfp v id Hs Hv) as (? & ? & _).
    split_and!; [eapply same_images_trans; [done|apply submit_images]|done|congruence|].
    by eapply outcome_ready.
  - apply (submits_messages b folder date
      (λ v, same_images c v ∧ blocked (os_join folder (date_folder mo da ye)) v)); [|done].
    intros v id (Hs & Hv). destruct (submit_blocked c b folder date _ Hfp v id Hs Hv) as (? & _).
    split_and!; [eapply same_images_trans; [done|apply submit_images]|done|].
    by eapply outcome_blocked.
Qed.

Lemma managers_independent_witness :
  let c := create_date_folder start_world "out" "3/13/24" in
  messages (@generate_followups two_managers_http ["7"; "8"; "9"] "token" "out" "3/13/24" start_world) =
  messages c ++ (["7"; "8"; "9"] ≫= @outcome_message two_managers_http "token" "out" "3/13/24" c) ++
    [ShowInfo "Completed" "Processing completed successfully!"].
Proof.
  apply (@managers_independent two_managers_http); [apply start_world_fs_ok|vm_compute; done..].
Defined.
